(** * UPS RMA reconciliation engine: a shallow embedding

    The definitions of the first part follow [src/core_reconciliation.py]
    and [src/config.py] function by function and keep their names.  The
    second part states and proves the properties of the engine.

    Modelling conventions.
    - Python [str] values are [string]s.  Character classes are the ASCII
      ones: [\d] is ['0'..'9'], [\w] is [[A-Za-z0-9_]], white space is what
      [str.strip] removes below code point 128; characters from 128 on have no
      case and belong to no class.
    - A DataFrame cell is [None], a float NaN, a [str] or an [int].
    - A DataFrame is its list of column labels and its rows, every row being
      the list of its cells in column order.  Labels are strings; a lookup by
      a label that occurs twice is outside the model.
    - The functions that take and return frame objects, copy them and assign
      to their columns run in a store of frames and may raise; the functions
      that only read their argument and build a new frame are pure. *)

From Stdlib Require Import String Ascii List ZArith NArith Lia Bool DecimalString Sorted Permutation.
From stdpp Require Import base list strings gmap.

Local Open Scope bool_scope.

(* ===================================================================== *)
(** * Part I: definitions                                                *)
(* ===================================================================== *)

(** ** Characters *)

Module Char.

Definition code (c : ascii) : N := N_of_ascii c.

Definition between (lo hi : N) (c : ascii) : bool :=
  (lo <=? code c)%N && (code c <=? hi)%N.

(** [\d] *)
Definition is_digit : ascii -> bool := between 48 57.
Definition is_ascii_upper : ascii -> bool := between 65 90.
Definition is_ascii_lower : ascii -> bool := between 97 122.

(** [[0-9A-Z]] under [re.IGNORECASE] *)
Definition is_alnum (c : ascii) : bool :=
  is_digit c || is_ascii_upper c || is_ascii_lower c.

(** [\w] *)
Definition is_word (c : ascii) : bool := is_alnum c || (code c =? 95)%N.

(** The characters removed by [str.strip()]: TAB, LF, VT, FF, CR, FS, GS,
    RS, US and the space. *)
Definition is_space (c : ascii) : bool :=
  between 9 13 c || between 28 31 c || (code c =? 32)%N.

Definition lower (c : ascii) : ascii :=
  if is_ascii_upper c then ascii_of_N (code c + 32) else c.

Definition upper (c : ascii) : ascii :=
  if is_ascii_lower c then ascii_of_N (code c - 32) else c.

End Char.

(** ** Python string methods *)

Module Str.

Fixpoint map (f : ascii -> ascii) (s : string) : string :=
  match s with
  | EmptyString => EmptyString
  | String c r => String (f c) (map f r)
  end.

(** [s.lower()] and [s.upper()], on ASCII text.  Python also maps characters
    from 128 on, some to several characters: what is stated about the case of
    a text is stated of ASCII text. *)
Definition lower : string -> string := map Char.lower.
Definition upper : string -> string := map Char.upper.

Fixpoint lstrip (s : string) : string :=
  match s with
  | EmptyString => EmptyString
  | String c r => if Char.is_space c then lstrip r else s
  end.

Fixpoint rstrip (s : string) : string :=
  match s with
  | EmptyString => EmptyString
  | String c r =>
      match rstrip r with
      | EmptyString => if Char.is_space c then EmptyString else String c EmptyString
      | r' => String c r'
      end
  end.

(** [s.strip()] *)
Definition strip (s : string) : string := rstrip (lstrip s).

(** [s[:n]] and [s[n:]] *)
Fixpoint take (n : nat) (s : string) : string :=
  match n, s with
  | S n', String c r => String c (take n' r)
  | _, _ => EmptyString
  end.

Fixpoint drop (n : nat) (s : string) : string :=
  match n, s with
  | S n', String _ r => drop n' r
  | _, _ => s
  end.

(** [s.startswith(p)] *)
Definition startswith (p s : string) : bool := String.prefix p s.

(** [s.endswith(p)] *)
Definition endswith (p s : string) : bool :=
  (String.length p <=? String.length s)%nat
  && String.eqb (drop (String.length s - String.length p) s) p.

(** [p in s] *)
Fixpoint contains (p s : string) : bool :=
  String.prefix p s
  || match s with
     | EmptyString => false
     | String _ r => contains p r
     end.

(** [bool(s)]: a string is truthy when it is not empty. *)
Definition truthy (s : string) : bool :=
  match s with EmptyString => false | _ => true end.

(** The first [n] characters exist and all satisfy [p]. *)
Fixpoint all_prefix (p : ascii -> bool) (n : nat) (s : string) : bool :=
  match n with
  | O => true
  | S n' =>
      match s with
      | EmptyString => false
      | String c r => p c && all_prefix p n' r
      end
  end.

(** Does the string start with a character satisfying [p]? *)
Definition head_is (p : ascii -> bool) (s : string) : bool :=
  match s with
  | EmptyString => false
  | String c _ => p c
  end.

(** Does the string end with a character satisfying [p]? *)
Fixpoint last_is (p : ascii -> bool) (s : string) : bool :=
  match s with
  | EmptyString => false
  | String c EmptyString => p c
  | String _ r => last_is p r
  end.

(** Every character satisfies [p]. *)
Fixpoint all (p : ascii -> bool) (s : string) : bool :=
  match s with
  | EmptyString => true
  | String c r => p c && all p r
  end.

End Str.

(** ** Regular expressions of [config.py] *)

(** [RMA_STRICT_RX = ^\d{8}$], used through [fullmatch]. *)
Definition RMA_STRICT_RX_fullmatch (s : string) : bool :=
  (String.length s =? 8)%nat && Str.all Char.is_digit s.

(** [RMA_PREF6_RX = ^6\d{7}$], used through [fullmatch]. *)
Definition RMA_PREF6_RX_fullmatch (s : string) : bool :=
  RMA_STRICT_RX_fullmatch s && Str.startswith "6" s.

(** [RMA_ANY8_IN_TEXT_RX = (?<!\d)\d{8}(?!\d)] tried at one position:
    [prev_digit] tells whether the character before the position is a digit. *)
Definition any8_match_here (prev_digit : bool) (s : string) : bool :=
  negb prev_digit
  && Str.all_prefix Char.is_digit 8 s
  && negb (Str.head_is Char.is_digit (Str.drop 8 s)).

(** The left-to-right scan of [findall]: a match is tried at every position;
    after a match the scan resumes behind it ([skip] counts the characters of
    the match still to pass). *)
Fixpoint any8_scan (prev_digit : bool) (skip : nat) (s : string) : list string :=
  match s with
  | EmptyString => []
  | String c r =>
      match skip with
      | S k => any8_scan (Char.is_digit c) k r
      | O =>
          if any8_match_here prev_digit s
          then Str.take 8 s :: any8_scan (Char.is_digit c) 7 r
          else any8_scan (Char.is_digit c) 0 r
      end
  end.

(** [RMA_ANY8_IN_TEXT_RX.findall(s)] *)
Definition RMA_ANY8_IN_TEXT_RX_findall (s : string) : list string :=
  any8_scan false 0 s.

(** [UPS_TN_REGEX = \b1Z[0-9A-Z]{16}\b] with [re.IGNORECASE], tried at one
    position: [prev_word] tells whether the character before is a word
    character. *)
Definition tn_match_here (prev_word : bool) (s : string) : bool :=
  negb prev_word
  && match s with
     | String c1 (String c2 r) =>
         Ascii.eqb c1 "1" && Ascii.eqb (Char.upper c2) "Z"
         && Str.all_prefix Char.is_alnum 16 r
         && negb (Str.head_is Char.is_word (Str.drop 16 r))
     | _ => false
     end.

Fixpoint tn_scan (prev_word : bool) (skip : nat) (s : string) : list string :=
  match s with
  | EmptyString => []
  | String c r =>
      match skip with
      | S k => tn_scan (Char.is_word c) k r
      | O =>
          if tn_match_here prev_word s
          then Str.take 18 s :: tn_scan (Char.is_word c) 17 r
          else tn_scan (Char.is_word c) 0 r
      end
  end.

(** [[m.group(0) for m in UPS_TN_REGEX.finditer(s)]] *)
Definition UPS_TN_REGEX_finditer (s : string) : list string :=
  tn_scan false 0 s.

(** ** Candidate ranking *)

(** The de-duplication loop shared by [_clean_rma_string] and
    [extract_all_rma_tokens_from_row]: [seen] is the set of tokens met so
    far, the result is the list [ordered]. *)
Fixpoint dedupe_from (seen : gset string) (tokens : list string) : list string :=
  match tokens with
  | [] => []
  | t :: ts =>
      if decide (t ∈ seen) then dedupe_from seen ts
      else t :: dedupe_from ({[t]} ∪ seen) ts
  end.

Definition dedupe (tokens : list string) : list string := dedupe_from ∅ tokens.

Definition pref6 (ordered : list string) : list string :=
  List.filter (Str.startswith "6") ordered.
Definition pref7 (ordered : list string) : list string :=
  List.filter (Str.startswith "7") ordered.
Definition rest (ordered : list string) : list string :=
  List.filter (fun x => negb (Str.startswith "6" x || Str.startswith "7" x)) ordered.

(** [pref6 + pref7 + rest] *)
Definition rank_tokens (ordered : list string) : list string :=
  pref6 ordered ++ pref7 ordered ++ rest ordered.

(** The priority class of a token: 0 for a leading '6', 1 for a leading '7',
    2 otherwise. *)
Definition prefix_class (x : string) : nat :=
  if Str.startswith "6" x then 0
  else if Str.startswith "7" x then 1 else 2.

(** ** Cell values and the basic normalisation helpers *)

(** The Python values a DataFrame cell holds in this model. *)
Inductive cell : Type :=
  | CNone                 (* None *)
  | CNaN                  (* float('nan'), pandas' missing value *)
  | CStr (s : string)     (* a str *)
  | CInt (z : Z).         (* an int *)

Global Instance cell_eq_dec : EqDecision cell.
Proof. solve_decision. Defined.

(** [str(v)] *)
Definition py_str (v : cell) : string :=
  match v with
  | CNone => "None"
  | CNaN => "nan"
  | CStr s => s
  | CInt z => NilZero.string_of_int (Z.to_int z)
  end.

(** [bool(v)]: None, the empty string and 0 are falsy; NaN is truthy. *)
Definition py_truthy (v : cell) : bool :=
  match v with
  | CNone => false
  | CNaN => true
  | CStr s => Str.truthy s
  | CInt z => negb (z =? 0)%Z
  end.

(** [str(v or "")] *)
Definition str_or_empty (v : cell) : string :=
  if py_truthy v then py_str v else "".

(** [pd.isna(v)] on a scalar *)
Definition pd_isna (v : cell) : bool :=
  match v with
  | CNone | CNaN => true
  | _ => false
  end.

(** [v is None or (isinstance(v, float) and pd.isna(v))] *)
Definition is_none_or_float_nan (v : cell) : bool :=
  match v with
  | CNone => true
  | CNaN => true
  | CStr _ | CInt _ => false
  end.

Definition _norm_na (value : cell) : string :=
  match value with
  | CNone => "N/A"
  | _ =>
      let text := Str.strip (py_str value) in
      if negb (Str.truthy text) then "N/A"
      else
        let lower := Str.lower text in
        if String.eqb lower "nan" || String.eqb lower "none"
           || Str.contains "not avail" lower
        then "N/A"
        else text
  end.

Definition _to_str (value : cell) (drop_na : bool) : string :=
  let v := _norm_na value in
  if drop_na && String.eqb v "N/A" then "" else v.

Definition _clean_rma_string (value : cell) : string :=
  if is_none_or_float_nan value then ""
  else
    let s := Str.strip (py_str value) in
    let s := if Str.endswith ".0" s then Str.take (String.length s - 2) s else s in
    let tokens := RMA_ANY8_IN_TEXT_RX_findall s in
    match tokens with
    | [] => ""
    | _ =>
        match rank_tokens (dedupe tokens) with
        | best :: _ => best
        | [] => ""
        end
    end.

(** [_classify_shipto]: the test ["ROCKWELL" in str(shipto or "").upper()]. *)
Definition _classify_shipto (shipto : cell) : string :=
  let s := Str.upper (str_or_empty shipto) in
  if Str.contains "ROCKWELL" s then "ROCKWELL" else "CUSTOMER".

Definition _extract_tn_list (text : cell) : list string :=
  if pd_isna text then []
  else List.map Str.upper (UPS_TN_REGEX_finditer (py_str text)).

Definition _canonical_status (value : cell) : string :=
  let s := Str.lower (Str.strip (str_or_empty value)) in
  if Str.contains "delivered" s then "Delivered"
  else if Str.contains "exception" s then "Exception"
  else if Str.contains "in transit" s then "In Transit"
  else if Str.contains "out for delivery" s || Str.contains "out of delivery" s
  then "Out for Delivery"
  else if Str.contains "manifest" s then "Manifest"
  else if Str.contains "void" s then "Void"
  else if Str.contains "not avail" s || negb (Str.truthy s) then "N/A"
  else
    let t := Str.strip (py_str value) in
    if Str.truthy t then t else "N/A".

(** [_pick_best_rma]: the candidates come from [findall], they are strings. *)
Definition _pick_best_rma (candidates : list string) : string :=
  match candidates with
  | [] => ""
  | _ =>
      let only8 :=
        List.filter (fun c => RMA_STRICT_RX_fullmatch (Str.strip c)) candidates in
      match only8 with
      | [] => ""
      | first :: _ =>
          match List.find RMA_PREF6_RX_fullmatch only8 with
          | Some c => c
          | None => first
          end
      end
  end.

(** ** DataFrames *)

Record DataFrame : Type := mkDF {
  columns : list string;
  data : list (list cell)
}.

(** A row as [iterrows] and [apply(axis=1)] hand it out: the column labels
    with the values of the row. *)
Definition Series : Type := list (string * cell).

Definition iterrows (df : DataFrame) : list Series :=
  List.map (fun r => combine (columns df) r) (data df).

(** [r.get(key, default)] *)
Fixpoint get (r : Series) (key : string) (default : cell) : cell :=
  match r with
  | [] => default
  | (k, v) :: r' => if String.eqb k key then v else get r' key default
  end.

(** [df.empty]: some axis has length 0. *)
Definition empty (df : DataFrame) : bool :=
  match columns df, data df with
  | [], _ => true
  | _, [] => true
  | _, _ => false
  end.

(** The position of a label in the header. *)
Fixpoint index_of (c : string) (cols : list string) : option nat :=
  match cols with
  | [] => None
  | k :: cols' =>
      if String.eqb k c then Some 0 else option_map S (index_of c cols')
  end.

(** [c in df.columns] *)
Definition has_column (c : string) (df : DataFrame) : bool :=
  match index_of c (columns df) with Some _ => true | None => false end.

(** [df[c]]: the values of a column, for a label of the header. *)
Definition getitem (c : string) (df : DataFrame) : list cell :=
  List.map (fun r => get r c CNone) (iterrows df).

(** [df[c] = values]: an existing column is overwritten in place, a new one
    is appended on the right. *)
Definition setitem (c : string) (values : list cell) (df : DataFrame) : DataFrame :=
  match index_of c (columns df) with
  | Some i =>
      mkDF (columns df) (zip_with (fun row v => <[i := v]> row) (data df) values)
  | None =>
      mkDF (columns df ++ [c]) (zip_with (fun row v => row ++ [v]) (data df) values)
  end.

(** [df[c] = v] with a scalar, broadcast to every row. *)
Definition setitem_scalar (c : string) (v : cell) (df : DataFrame) : DataFrame :=
  setitem c (repeat v (length (data df))) df.

(** [df.rename(columns=f)] *)
Definition rename (f : string -> string) (df : DataFrame) : DataFrame :=
  mkDF (List.map f (columns df)) (data df).

(** ** Column harmonisation *)

Definition mapping : list (string * string) :=
  [ ("manifest date", "Manifest Date");
    ("package reference no. 1", "Package Reference No. 1");
    ("package reference no. 2", "Package Reference No. 2");
    ("rma number", "RMA Number");
    ("tracking number", "Tracking Number");
    ("tracking number - details", "Tracking Number - Details");
    ("status", "Status");
    ("shipper name", "Shipper Name");
    ("ship to", "Ship To");
    ("scheduled delivery", "Scheduled Delivery");
    ("original scheduled delivery date", "Original Scheduled Delivery Date");
    ("date delivered", "Date Delivered");
    ("exception description", "Exception Description");
    ("exception resolution", "Exception Resolution");
    ("ship to location", "Ship To Location");
    ("weight", "Weight") ].

(** [mapping.get(key, default)] *)
Definition mapping_get (key default : string) : string :=
  match List.find (fun kv => String.eqb (fst kv) key) mapping with
  | Some kv => snd kv
  | None => default
  end.

(** [mapping.values()] *)
Definition mapping_values : list string := List.map snd mapping.

(** [cols_new[c]] *)
Definition cols_new (c : string) : string :=
  mapping_get (Str.strip (Str.lower c)) c.

(** The loop [for c in cols: if c not in df.columns: df[c] = ""], which
    closes both [map_new_columns] and [build_final_output_df]. *)
Definition ensure_columns (cols : list string) (df : DataFrame) : DataFrame :=
  fold_left
    (fun df c => if has_column c df then df else setitem_scalar c (CStr "") df)
    cols df.

Definition map_new_columns (df : DataFrame) : DataFrame :=
  let df := rename cols_new df in
  ensure_columns mapping_values df.

(** ** Token extraction over a whole row *)

(** The guard of the loops over [row.index]: the stripped text of a value,
    or nothing when the value is skipped. *)
Definition field_text (val : cell) : option string :=
  if is_none_or_float_nan val then None
  else
    let s := Str.strip (py_str val) in
    if negb (Str.truthy s) then None else Some s.

(** [row.index] *)
Definition index (row : Series) : list string := List.map fst row.

(** The list [pool] at the end of the first loop. *)
Definition token_pool (row : Series) : list string :=
  flat_map
    (fun col =>
       match field_text (get row col CNone) with
       | Some s => RMA_ANY8_IN_TEXT_RX_findall s
       | None => []
       end)
    (index row).

Definition extract_all_rma_tokens_from_row (row : Series) : list string :=
  match token_pool row with
  | [] => []
  | pool => rank_tokens (dedupe pool)
  end.

(** ** The details line *)

(** [(?i)\bnot\s*avail] tried at one position: [prev_word] tells whether
    the character before the position is a word character. *)
Definition not_avail_match_here (prev_word : bool) (s : string) : bool :=
  negb prev_word
  && String.eqb (Str.lower (Str.take 3 s)) "not"
  && Str.startswith "avail" (Str.lower (Str.lstrip (Str.drop 3 s))).

(** [re.search(r"(?i)\bnot\s*avail", s)], as a truth value. *)
Fixpoint not_avail_scan (prev_word : bool) (s : string) : bool :=
  not_avail_match_here prev_word s
  || match s with
     | EmptyString => false
     | String c r => not_avail_scan (Char.is_word c) r
     end.

Definition not_avail_search (s : string) : bool := not_avail_scan false s.

(** [sep.join(l)] *)
Fixpoint str_join (sep : string) (l : list string) : string :=
  match l with
  | [] => ""
  | [x] => x
  | x :: l' => x +:+ sep +:+ str_join sep l'
  end.

(** [compose_tn_detail_line].  [info] is a dictionary: its keys are distinct
    and [info.get(key, "")] is [get].  The arrow of the format string is the
    character U+2192. *)
Definition compose_tn_detail_line (info : Series) : string :=
  let tn := Str.upper (Str.strip (py_str (get info "Tracking Number" (CStr "")))) in
  let status := _canonical_status (get info "Status" (CStr "")) in
  let sched := _to_str (get info "Scheduled Delivery" (CStr "")) false in
  let delivered := _to_str (get info "Date Delivered" (CStr "")) false in
  let shipto := str_or_empty (get info "Ship To" (CStr "")) in
  let excd := _to_str (get info "Exception Description" (CStr "")) true in
  let excr := _to_str (get info "Exception Resolution" (CStr "")) true in
  let sched := if not_avail_search sched then "N/A" else sched in
  let delivered := if not_avail_search delivered then "N/A" else delivered in
  let status_lower := Str.lower status in
  let date_display :=
    if String.eqb status_lower "delivered" then delivered else sched in
  let date_display :=
    if negb (Str.truthy (Str.strip date_display)) then "N/A" else date_display in
  let who := _classify_shipto (CStr shipto) in
  let line := tn +:+ " - " +:+ status +:+ ", " +:+ date_display +:+ " → " +:+ who in
  if negb (String.eqb status_lower "delivered") then
    let ex_suffix := Str.strip (str_join " " (List.filter Str.truthy [excd; excr])) in
    if Str.truthy ex_suffix then line +:+ " (" +:+ ex_suffix +:+ ")" else line
  else line.

(** ** The normalised view *)

(** The nested function [sources_for_token] of [build_new_norm]. *)
Definition sources_for_token (r : Series) (tok : string) : list string :=
  let hits :=
    flat_map
      (fun col =>
         match field_text (get r col CNone) with
         | Some s =>
             if bool_decide (tok ∈ RMA_ANY8_IN_TEXT_RX_findall s) then [s] else []
         | None => []
         end)
      (index r) in
  match hits with
  | [] => [""]
  | _ => hits
  end.

(** The columns of the normalised view, in the order of the constructor call
    that ends [build_new_norm]. *)
Definition NORM_COLS : list string :=
  [ "Manifest Date"; "Original RMA"; "RMA Number"; "Tracking Number"; "Status";
    "Shipper Name"; "Ship To"; "Scheduled Delivery"; "Date Delivered";
    "Exception Description"; "Exception Resolution"; "Ship To Location";
    "Weight"; "Package Reference No. 2" ].

(** The dictionary appended to [rows], as the row it becomes under
    [NORM_COLS]. *)
Definition norm_row (r : Series) (original rma tn : string) : list cell :=
  [ CStr (_to_str (get r "Manifest Date" (CStr "")) false);
    CStr original;
    CStr rma;
    CStr (Str.upper tn);
    CStr (_canonical_status (get r "Status" (CStr "")));
    CStr (_to_str (get r "Shipper Name" (CStr "")) false);
    CStr (_to_str (get r "Ship To" (CStr "")) false);
    CStr (_to_str (get r "Scheduled Delivery" (CStr "")) false);
    CStr (_to_str (get r "Date Delivered" (CStr "")) false);
    CStr (_to_str (get r "Exception Description" (CStr "")) false);
    CStr (_to_str (get r "Exception Resolution" (CStr "")) false);
    CStr (_to_str (get r "Ship To Location" (CStr "")) false);
    CStr (_to_str (get r "Weight" (CStr "")) false);
    CStr (_to_str (get r "Package Reference No. 2" (CStr "")) false) ].

(** The tracking number of a record: the head of the loop body.  [None] is
    the [continue] that skips the record. *)
Definition record_tn (r : Series) : option string :=
  let tn := Str.strip (str_or_empty (get r "Tracking Number" (CStr ""))) in
  if negb (Str.truthy tn) then
    match _extract_tn_list (get r "Tracking Number - Details" (CStr "")) with
    | first :: _ => Some first
    | [] => None
    end
  else Some tn.

(** The rows one record appends to [rows]. *)
Definition rows_of_record (r : Series) : list (list cell) :=
  match record_tn r with
  | None => []
  | Some tn =>
      match extract_all_rma_tokens_from_row r with
      | [] =>
          [ norm_row r (Str.strip (str_or_empty (get r "RMA Number" (CStr "")))) "" tn ]
      | all_tokens =>
          List.map
            (fun tok =>
               let original_val :=
                 match sources_for_token r tok with
                 | src :: _ => src
                 | [] => ""
                 end in
               norm_row r original_val tok tn)
            all_tokens
      end
  end.

(** [normalize_rma_column_inplace], as the change it makes to the frame. *)
Definition normalize_rma_column (df : DataFrame) : DataFrame :=
  if has_column "RMA Number" df
  then setitem "RMA Number"
         (List.map (fun v => CStr (_clean_rma_string v)) (getitem "RMA Number" df)) df
  else df.

(** [build_new_norm].  [map_new_columns] works on the frame [rename] returns
    and the result is a frame built from [rows]: the argument is only read. *)
Definition build_new_norm (new_df : DataFrame) : DataFrame :=
  let new_df := map_new_columns new_df in
  let rows := flat_map rows_of_record (iterrows new_df) in
  normalize_rma_column (mkDF NORM_COLS rows).

(** ** The object store

    [patch_rma_na_with_pr2] and [build_final_output_df] receive references to
    frames, return a reference, copy frames and assign to columns in place.
    Frames live in a store; a computation threads the store and may raise. *)

Inductive exn : Type :=
  | KeyError (key : string)
  | InvalidReference.

Inductive result (A : Type) : Type :=
  | Ok (a : A)
  | Raise (e : exn).
Arguments Ok {A} a.
Arguments Raise {A} e.

Definition ref : Type := nat.
Definition store : Type := list DataFrame.
Definition M (A : Type) : Type := store -> result (A * store).

Definition ret {A} (a : A) : M A := fun st => Ok (a, st).

Definition bind {A B} (c : M A) (k : A -> M B) : M B :=
  fun st =>
    match c st with
    | Ok (a, st') => k a st'
    | Raise e => Raise e
    end.

Notation "'let*' x ':=' c 'in' k" := (bind c (fun x => k))
  (at level 10, x name, c at level 100, k at level 200).

Definition raise {A} (e : exn) : M A := fun _ => Raise e.

(** Reading the frame behind a reference. *)
Definition load (l : ref) : M DataFrame :=
  fun st =>
    match st !! l with
    | Some df => Ok (df, st)
    | None => Raise InvalidReference
    end.

(** A new frame object. *)
Definition alloc (df : DataFrame) : M ref :=
  fun st => Ok (length st, st ++ [df]).

(** An update of the frame object behind a reference, in place. *)
Definition modify (l : ref) (f : DataFrame -> DataFrame) : M unit :=
  let* df := load l in
  fun st => Ok (tt, <[l := f df]> st).

(** [df.copy()] *)
Definition copy (l : ref) : M ref :=
  let* df := load l in
  alloc df.

Definition normalize_rma_column_inplace (df : ref) : M unit :=
  modify df normalize_rma_column.

(** ** The fallback patcher *)

(** The dictionary [tn_to_pr2] after the loop over [new_norm_df]. *)
Definition build_tn_to_pr2 (new_norm : DataFrame) : gmap string string :=
  fold_left
    (fun (tn_to_pr2 : gmap string string) r =>
       let tn := Str.upper (Str.strip (str_or_empty (get r "Tracking Number" (CStr "")))) in
       let pr2 := Str.strip (str_or_empty (get r "Package Reference No. 2" (CStr ""))) in
       if negb (Str.truthy tn) then tn_to_pr2
       else
         let candidates := RMA_ANY8_IN_TEXT_RX_findall pr2 in
         let best := _pick_best_rma candidates in
         <[tn := best]> tn_to_pr2)
    (iterrows new_norm) ∅.

(** The nested function [fallback_rma]. *)
Definition fallback_rma (tn_to_pr2 : gmap string string) (val tn_details : cell)
  : string :=
  let s := Str.strip (str_or_empty val) in
  if Str.truthy s && negb (String.eqb (Str.upper s) "N/A") && RMA_STRICT_RX_fullmatch s
  then s
  else if py_truthy tn_details then
    match _extract_tn_list tn_details with
    | first :: _ =>
        let pr2_best := default "" (tn_to_pr2 !! first) in
        if RMA_STRICT_RX_fullmatch pr2_best then pr2_best else "N/A"
    | [] => "N/A"
    end
  else "N/A".

(** The column assigned to [out["RMA Number"]]. *)
Definition patched_rma_column (tn_to_pr2 : gmap string string) (out : DataFrame)
  : list cell :=
  List.map
    (fun row =>
       CStr (fallback_rma tn_to_pr2
               (get row "RMA Number" (CStr ""))
               (get row "Tracking Number - Details" (CStr ""))))
    (iterrows out).

Definition patch_rma_na_with_pr2 (reconciled_df new_norm_df : ref) : M ref :=
  let* reconciled := load reconciled_df in
  let* new_norm := load new_norm_df in
  if empty reconciled || empty new_norm then ret reconciled_df
  else
    let tn_to_pr2 := build_tn_to_pr2 new_norm in
    let* out := copy reconciled_df in
    let* _ := modify out (fun o => setitem "RMA Number" (patched_rma_column tn_to_pr2 o) o) in
    ret out.

(** ** The final output *)

Definition FINAL_COLS : list string :=
  [ "Manifest Date"; "RMA Number"; "Tracking Number - Details"; "Status";
    "Shipper Name"; "Ship To"; "Scheduled Delivery"; "Date Delivered";
    "Exception Description"; "Exception Resolution"; "Weight" ].

(** The set [blocked] after the loop over [new_norm_df]. *)
Definition blocked_rmas (new_norm : DataFrame) : gset string :=
  fold_left
    (fun (blocked : gset string) r =>
       let original := Str.strip (str_or_empty (get r "Original RMA" (CStr ""))) in
       let cleaned := Str.strip (str_or_empty (get r "RMA Number" (CStr ""))) in
       if Str.truthy original
          && Str.contains "CONS PICK UP" (Str.upper original)
          && RMA_STRICT_RX_fullmatch cleaned
       then {[cleaned]} ∪ blocked
       else blocked)
    (iterrows new_norm) ∅.

(** [df.drop(columns=[c])] for a label of the header. *)
Definition drop_column (c : string) (df : DataFrame) : DataFrame :=
  match index_of c (columns df) with
  | Some i => mkDF (delete i (columns df)) (List.map (delete i) (data df))
  | None => df
  end.

(** [df[mask]] where the mask is computed row by row. *)
Definition select_rows (keep : Series -> bool) (df : DataFrame) : DataFrame :=
  mkDF (columns df)
       (List.filter (fun row => keep (combine (columns df) row)) (data df)).

(** [df[cols]] for labels of the header. *)
Definition select_columns (cols : list string) (df : DataFrame) : DataFrame :=
  mkDF cols
       (List.map
          (fun row => List.map (fun c => get (combine (columns df) row) c CNone) cols)
          (data df)).

(** [v in sorted(blocked)], the test of [isin] on one value. *)
Definition isin (v : cell) (blocked : gset string) : bool :=
  match v with
  | CStr s => bool_decide (s ∈ blocked)
  | _ => false
  end.

(** The three [drop] steps. *)
Definition drop_helper_columns (df : DataFrame) : DataFrame :=
  fold_left
    (fun df col_to_drop =>
       if has_column col_to_drop df then drop_column col_to_drop df else df)
    ["Tracking Number"; "Ship To Location"; "Original RMA"] df.

(** The steps after the normalisation of the identifier column, on the value
    of the private frame [df_out]: the two filters, the loop that ensures
    [FINAL_COLS] and the projection. *)
Definition filter_and_project (blocked : gset string) (df_out : DataFrame) : DataFrame :=
  let df_out :=
    select_rows
      (fun r => RMA_STRICT_RX_fullmatch (py_str (get r "RMA Number" CNone))) df_out in
  let df_out :=
    if bool_decide (blocked = ∅) then df_out
    else select_rows (fun r => negb (isin (get r "RMA Number" CNone) blocked)) df_out in
  let df_out := ensure_columns FINAL_COLS df_out in
  select_columns FINAL_COLS df_out.

(** [build_final_output_df].  After the first [copy], [df_out] names frames
    that nothing else refers to; its rebindings are updates of that private
    object.  [df_out["RMA Number"]] raises [KeyError] for a missing label. *)
Definition build_final_output_df (reconciled_df new_norm_df : ref) : M ref :=
  let* patched := patch_rma_na_with_pr2 reconciled_df new_norm_df in
  let* df_out := copy patched in
  let* new_norm := load new_norm_df in
  let blocked := blocked_rmas new_norm in
  let* _ := modify df_out drop_helper_columns in
  let* _ := normalize_rma_column_inplace df_out in
  let* d := load df_out in
  if has_column "RMA Number" d
  then alloc (filter_and_project blocked d)
  else raise (KeyError "RMA Number").

(** The frame a computation returns, when it returns one. *)
Definition result_frame (r : result (ref * store)) : option DataFrame :=
  match r with
  | Ok (l, st) => st !! l
  | Raise _ => None
  end.

(** ** The analysis run of the application

    The data path of [App.on_run_analysis] in [src/app.py], from the table
    read from the UPS report on: the normalised view is built and passed as
    both arguments of [build_final_output_df].  An exception ends the run. *)
Definition on_run_analysis (ups_df : ref) : M ref :=
  let* ups := load ups_df in
  let* new_norm_df := alloc (build_new_norm ups) in
  build_final_output_df new_norm_df new_norm_df.

(** ** The table viewer

    [CanvasTable._get_display_text] of [src/ui_viewer.py].  Its text is a
    sequence of code points, the ellipsis is U+2026; [value] is a [str] or
    [None]. *)
Definition ELLIPSIS : N := 8230.

Definition _get_display_text (value : option (list N)) (col_width : Z) (wrapped : bool)
  : list N :=
  let text := default [] value in
  if wrapped then text
  else
    let max_chars := Z.max 10 (col_width / 7) in
    if (max_chars <? Z.of_nat (length text))%Z
    then take (Z.to_nat (max_chars - 1)) text ++ [ELLIPSIS]
    else text.

(** ** Notions used to state the properties *)

(** What holds of a token [t] returned for [text]: it is made of exactly
    eight digits, and [text] splits around it with no digit on either side. *)
Definition isolated_token (text t : string) : Prop :=
  String.length t = 8
  /\ Str.all Char.is_digit t = true
  /\ exists a b : string,
       text = a +:+ t +:+ b
       /\ Str.last_is Char.is_digit a = false
       /\ Str.head_is Char.is_digit b = false.

(** The labels the loop of [ensure_columns] appends to a header. *)
Fixpoint missing_columns (header cols : list string) : list string :=
  match cols with
  | [] => []
  | c :: cols' =>
      if bool_decide (c ∈ header) then missing_columns header cols'
      else c :: missing_columns (header ++ [c]) cols'
  end.

(** Rows as wide as the header. *)
Definition rows_wide (df : DataFrame) : Prop :=
  Forall (fun r => length r = length (columns df)) (data df).

(** The tracking number a row of the normalised table bears: upper-cased
    and trimmed. *)
Definition bears_tn (row : Series) : string :=
  Str.upper (Str.strip (str_or_empty (get row "Tracking Number" (CStr "")))).

(** The best valid token of a list of candidates: the first strictly
    8-digit candidate that starts with '6', otherwise the first strictly
    8-digit candidate, otherwise the empty string. *)
Definition best_valid_token (candidates : list string) : string :=
  let valid := List.filter RMA_STRICT_RX_fullmatch candidates in
  match List.filter (Str.startswith "6") valid with
  | c :: _ => c
  | [] =>
      match valid with
      | c :: _ => c
      | [] => ""
      end
  end.

(** The value of the fallback map for a tracking number: the best valid
    token of the secondary-reference field of the last row that bears it. *)
Definition fallback_value (new_norm : DataFrame) (tn : string) : string :=
  match last (List.filter
                (fun row => String.eqb (bears_tn row) tn && Str.truthy (bears_tn row))
                (iterrows new_norm)) with
  | Some row =>
      best_valid_token
        (RMA_ANY8_IN_TEXT_RX_findall
           (Str.strip (str_or_empty (get row "Package Reference No. 2" (CStr "")))))
  | None => ""
  end.

(** What the fallback yields for a row: the fallback value of the first
    tracking number of the details field when it is a valid identifier, the
    sentinel in every other case. *)
Definition fallback_or_sentinel (new_norm : DataFrame) (tn_details : cell) : string :=
  match head (_extract_tn_list tn_details) with
  | Some tn =>
      let v := fallback_value new_norm tn in
      if RMA_STRICT_RX_fullmatch v then v else "N/A"
  | None => "N/A"
  end.

(** The identifier of a patched row when the test of the first step reads
    the identifier as it stands in the cell. *)
Definition identifier_by_raw_test (new_norm : DataFrame) (val tn_details : cell)
  : string :=
  let s := py_str val in
  if Str.truthy s && negb (String.eqb s "N/A") && RMA_STRICT_RX_fullmatch s
  then s
  else fallback_or_sentinel new_norm tn_details.

(** The identifier of a patched row when the test of the first step reads
    the trimmed text of the identifier (nothing for a falsy cell). *)
Definition identifier_by_trimmed_test (new_norm : DataFrame) (val tn_details : cell)
  : string :=
  let s := Str.strip (str_or_empty val) in
  if Str.truthy s && negb (String.eqb s "N/A") && RMA_STRICT_RX_fullmatch s
  then s
  else fallback_or_sentinel new_norm tn_details.

(** The frame behind the reference the patcher returns. *)
Definition patched_value (reconciled new_norm : DataFrame) : DataFrame :=
  if empty reconciled || empty new_norm then reconciled
  else setitem "RMA Number"
         (patched_rma_column (build_tn_to_pr2 new_norm) reconciled) reconciled.

(** The frame [df_out] when its identifier column is read. *)
Definition cleaned_value (reconciled new_norm : DataFrame) : DataFrame :=
  normalize_rma_column (drop_helper_columns (patched_value reconciled new_norm)).

(** The blocked set: the identifiers of the rows of the normalised table
    whose original source text, upper-cased, contains "CONS PICK UP" and whose
    identifier matches [^\d{8}$]. *)
Definition in_blocked_set (new_norm : DataFrame) (id : string) : Prop :=
  exists r : Series,
    r ∈ iterrows new_norm
    /\ Str.contains "CONS PICK UP" (Str.upper (py_str (get r "Original RMA" (CStr "")))) = true
    /\ py_str (get r "RMA Number" (CStr "")) = id
    /\ RMA_STRICT_RX_fullmatch id = true.

(** A frame [df'] carries the columns [S] of a frame [df]: it is as well
    formed, has the same labels among [S], and each of its rows is a row of
    [df] as far as the cells under the labels of [S] go. *)
Definition carries (S : string -> Prop) (df df' : DataFrame) : Prop :=
  (rows_wide df -> rows_wide df')
  /\ (forall c : string, S c -> (c ∈ columns df' <-> c ∈ columns df))
  /\ (rows_wide df ->
      forall row' : list cell,
        row' ∈ data df' ->
        exists row : list cell,
          row ∈ data df
          /\ forall c : string,
               S c ->
               get (combine (columns df') row') c CNone
               = get (combine (columns df) row) c CNone).

(** The public columns other than the identifier. *)
Definition plain_final_column (c : string) : Prop :=
  c ∈ FINAL_COLS /\ c <> "RMA Number".

(** The test of the loop that fills [blocked], on one row. *)
Definition blocks (r : Series) : bool :=
  Str.truthy (Str.strip (str_or_empty (get r "Original RMA" (CStr ""))))
  && Str.contains "CONS PICK UP"
       (Str.upper (Str.strip (str_or_empty (get r "Original RMA" (CStr "")))))
  && RMA_STRICT_RX_fullmatch (Str.strip (str_or_empty (get r "RMA Number" (CStr "")))).

(** The text [_clean_rma_string] searches for tokens: the trimmed text of
    the value, without a final ".0". *)
Definition rma_search_text (value : cell) : string :=
  let s := Str.strip (py_str value) in
  if Str.endswith ".0" s then Str.take (String.length s - 2) s else s.









(** A text of ASCII characters. *)
Definition ascii_text (s : string) : bool :=
  Str.all (fun c => (Char.code c <? 128)%N) s.

(** ** Frames used in the examples *)

Definition test_ups_df : DataFrame :=
  mkDF
    [ "Manifest Date"; "RMA Number"; "Tracking Number"; "Status"; "Shipper Name";
      "Ship To"; "Scheduled Delivery"; "Date Delivered"; "Exception Description";
      "Exception Resolution"; "Ship To Location"; "Weight";
      "Package Reference No. 2" ]
    [ [ CStr "2024-01-10"; CStr "RMA 67024814"; CStr "1Z1234567890123456";
        CStr "In Transit"; CStr "Rockwell Automation"; CStr "Customer XYZ";
        CStr "2024-01-15"; CStr ""; CStr ""; CStr ""; CStr "PL"; CStr "1.5";
        CStr "" ] ].

(** Three raw records: one with a '9' token and a '6' token in different
    fields, one with a tracking number in the details only and no token, one
    without any tracking number. *)
Definition example_ups_df : DataFrame :=
  mkDF
    [ "rma number"; "Tracking Number"; "Tracking Number - Details"; "Status";
      "Package Reference No. 2" ]
    [ [ CStr "see 91234567"; CStr "1z1234567890123456"; CNaN; CStr "in transit";
        CStr "PR2: 60011223 misc" ];
      [ CStr "none"; CNone; CStr "label 1Z9999999999999999 created";
        CStr "Delivered"; CStr "" ];
      [ CStr "67024814"; CStr "  "; CStr "no tracking here"; CStr "Void"; CNaN ] ].

(** A main table whose identifier carries a leading blank, and the store
    that holds it with the normalised view of [test_ups_df]. *)
Definition blank_led_main : DataFrame :=
  mkDF ["RMA Number"; "Tracking Number - Details"; "Status"]
       [ [CStr " 67024814"; CStr ""; CStr "Delivered"];
         [CStr "N/A"; CStr "1Z1234567890123456 - In Transit"; CStr "In Transit"] ].

Definition blank_led_store : store :=
  [blank_led_main; build_new_norm test_ups_df].

(** A normalised table in which one identifier comes both from a
    "CONS PICK UP" line and from another line. *)
Definition cons_pick_up_norm : DataFrame :=
  mkDF
    [ "Manifest Date"; "Original RMA"; "RMA Number"; "Tracking Number"; "Status" ]
    [ [ CStr "2024-01-10"; CStr "cons pick up 71234567"; CStr "71234567";
        CStr "1Z0000000000000001"; CStr "Delivered" ];
      [ CStr "2024-01-11"; CStr "RMA 71234567"; CStr "71234567";
        CStr "1Z0000000000000002"; CStr "In Transit" ];
      [ CStr "2024-01-12"; CStr "RMA 67024814"; CStr "67024814";
        CStr "1Z0000000000000003"; CStr "Exception" ] ].

(** The store of a run of the application on [test_ups_df]: the normalised
    view is passed as both arguments of [build_final_output_df]. *)
Definition app_run_store : store := [build_new_norm test_ups_df].

(** A frame without columns and without rows. *)
Definition no_columns_df : DataFrame := mkDF [] [].

(** A record whose tracking-number cell is the integer 0. *)
Definition zero_tn_record : Series :=
  [ ("RMA Number", CStr "67024814"); ("Tracking Number", CInt 0);
    ("Tracking Number - Details", CStr "") ].


(** A record whose tracking-number cell is a float NaN. *)
Definition nan_tn_record : Series :=
  [ ("RMA Number", CStr "67024814"); ("Tracking Number", CNaN);
    ("Tracking Number - Details", CStr "1Z1234567890123456") ].

(** A main table with a missing identifier, and a normalised table in
    which two rows bear its tracking number with different secondary
    references. *)
Definition fallback_main : DataFrame :=
  mkDF ["RMA Number"; "Tracking Number - Details"; "Status"]
       [ [CStr "N/A"; CStr "1z1234567890123456 - In Transit, 2024-01-15"; CStr "In Transit"] ].

Definition fallback_norm : DataFrame :=
  mkDF ["Tracking Number"; "Package Reference No. 2"]
       [ [CStr "1Z1234567890123456"; CStr "PR2: 90011223 misc"];
         [CStr " 1z1234567890123456 "; CStr "PR2: 70011223 / 60011223 misc"] ].

(* ===================================================================== *)
(** * Part II: properties                                                *)
(* ===================================================================== *)

Example findall_ex1 :
  RMA_ANY8_IN_TEXT_RX_findall "RMA 67024814, 123456789 x12345678y 00000000"
  = ["67024814"; "12345678"; "00000000"].
Proof. vm_compute. reflexivity. Qed.

Example finditer_ex1 :
  UPS_TN_REGEX_finditer "a 1z1234567890abcdef, x1Z1234567890123456 1Z1234567890123456."
  = ["1z1234567890abcdef"; "1Z1234567890123456"].
Proof. vm_compute. reflexivity. Qed.

Example dedupe_ex1 : dedupe ["a"; "b"; "a"; "c"; "b"] = ["a"; "b"; "c"].
Proof. vm_compute. reflexivity. Qed.

(** The repository's test [test_build_new_norm_extracts_rma_and_tracking_number]. *)
Example test_build_new_norm_extracts_rma_and_tracking_number :
  let new_norm := build_new_norm test_ups_df in
  length (data new_norm) = 1
  /\ getitem "RMA Number" new_norm = [CStr "67024814"]
  /\ getitem "Tracking Number" new_norm = [CStr "1Z1234567890123456"].
Proof. vm_compute. auto. Qed.

(** The fallback takes the value of the last row that bears the tracking
    number, and there the token that starts with '6'. *)
Example fallback_last_row_wins :
  (fun df => getitem "RMA Number" df)
    <$> result_frame (patch_rma_na_with_pr2 0 1 [fallback_main; fallback_norm])
  = Some [CStr "60011223"]
  /\ (fun df => data df)
      <$> result_frame (build_final_output_df 0 1 [fallback_main; fallback_norm])
    = Some [ [ CStr ""; CStr "60011223";
               CStr "1z1234567890123456 - In Transit, 2024-01-15"; CStr "In Transit";
               CStr ""; CStr ""; CStr ""; CStr ""; CStr ""; CStr ""; CStr "" ] ].
Proof. vm_compute. auto. Qed.

Example strip_ex1 : Str.strip "  a b  " = "a b" /\ Str.upper "n/a1z" = "N/A1Z".
Proof. vm_compute. auto. Qed.

(** ** Strings *)

Section StringFacts.

Lemma app_cons (c : ascii) (r s : string) :
  String c r +:+ s = String c (r +:+ s).
Proof. reflexivity. Qed.

Lemma app_nil_l (s : string) : "" +:+ s = s.
Proof. reflexivity. Qed.

Lemma app_snoc_assoc (pre : string) (c : ascii) (r : string) :
  (pre +:+ String c "") +:+ r = pre +:+ String c r.
Proof.
  induction pre as [|a pre IH]; [reflexivity|].
  rewrite !app_cons. by rewrite IH.
Qed.

Lemma last_is_snoc (p : ascii -> bool) (pre : string) (c : ascii) :
  Str.last_is p (pre +:+ String c "") = p c.
Proof.
  induction pre as [|a pre IH]; [reflexivity|].
  rewrite app_cons. simpl. rewrite IH.
  destruct pre; reflexivity.
Qed.

Lemma take_drop (n : nat) (s : string) : Str.take n s +:+ Str.drop n s = s.
Proof.
  revert s. induction n as [|n IH]; intros [|c r]; try reflexivity.
  simpl. rewrite app_cons. by rewrite IH.
Qed.

Lemma all_prefix_take_length (p : ascii -> bool) (n : nat) (s : string) :
  Str.all_prefix p n s = true -> String.length (Str.take n s) = n.
Proof.
  revert s. induction n as [|n IH]; intros [|c r]; simpl; try done.
  intros [_ H]%andb_prop. by rewrite IH.
Qed.

Lemma all_prefix_take_all (p : ascii -> bool) (n : nat) (s : string) :
  Str.all_prefix p n s = true -> Str.all p (Str.take n s) = true.
Proof.
  revert s. induction n as [|n IH]; intros [|c r]; simpl; try done.
  intros [Hc H]%andb_prop. by rewrite Hc, IH.
Qed.

End StringFacts.

(** ** The token scan *)

Lemma any8_scan_isolated (s pre : string) (skip : nat) :
  Forall (isolated_token (pre +:+ s))
         (any8_scan (Str.last_is Char.is_digit pre) skip s).
Proof.
  revert pre skip. induction s as [|c r IH]; intros pre skip; [constructor|].
  assert (Hstep : forall k,
    Forall (isolated_token (pre +:+ String c r)) (any8_scan (Char.is_digit c) k r)).
  { intros k. rewrite <- (last_is_snoc Char.is_digit pre c).
    rewrite <- (app_snoc_assoc pre c r). apply IH. }
  destruct skip as [|k]; [|apply Hstep].
  cbn [any8_scan].
  destruct (any8_match_here _ _) eqn:Hm; [|apply Hstep].
  constructor; [|apply Hstep].
  unfold any8_match_here in Hm.
  apply andb_prop in Hm as [[Hprev Hdig]%andb_prop Hnext].
  apply negb_true_iff in Hprev, Hnext.
  split; [by eapply all_prefix_take_length|].
  split; [by eapply all_prefix_take_all|].
  exists pre, (Str.drop 8 (String c r)).
  by rewrite take_drop.
Qed.

(** C4.  [RMA_ANY8_IN_TEXT_RX.findall] is a function of the text alone (two
    calls on the same text return the same sequence); every token it returns
    consists of exactly eight decimal digits; and every token is returned for
    an occurrence that has no digit immediately before it and none immediately
    after it, so that it is never cut out of a longer run of digits. *)
Theorem C4_token_extraction (text : string) :
  (forall text' : string,
     text' = text ->
     RMA_ANY8_IN_TEXT_RX_findall text' = RMA_ANY8_IN_TEXT_RX_findall text)
  /\ Forall (isolated_token text) (RMA_ANY8_IN_TEXT_RX_findall text).
Proof.
  split; [by intros ? ->|].
  apply (any8_scan_isolated text "" 0).
Qed.

Lemma C4_token_extraction_witness :
  RMA_ANY8_IN_TEXT_RX_findall "RMA 67024814 / 123456789"
  = RMA_ANY8_IN_TEXT_RX_findall "RMA 67024814 / 123456789"
  /\ Forall (isolated_token "RMA 67024814 / 123456789") ["67024814"].
Proof.
  destruct (C4_token_extraction "RMA 67024814 / 123456789") as [Hdet Hiso].
  split; [apply Hdet; reflexivity | exact Hiso].
Defined.

(** ** Ranking *)

Section Ranking.

Implicit Types l : list string.

Lemma prefix_class_6 x : Str.startswith "6" x = true <-> prefix_class x = 0.
Proof.
  unfold prefix_class. destruct (Str.startswith "6" x); [done|].
  destruct (Str.startswith "7" x); done.
Qed.

Lemma startswith_char (a c : ascii) (r : string) :
  Str.startswith (String a "") (String c r) = bool_decide (a = c).
Proof.
  unfold Str.startswith. cbn -[ascii_dec].
  destruct (ascii_dec a c) as [Heq|Hne].
  - rewrite bool_decide_eq_true_2 by done. by destruct r.
  - by rewrite bool_decide_eq_false_2.
Qed.

Lemma startswith_6_7 x :
  Str.startswith "6" x = true -> Str.startswith "7" x = false.
Proof.
  destruct x as [|c r]; [done|]. rewrite !startswith_char.
  intros <-%bool_decide_eq_true. by apply bool_decide_eq_false.
Qed.

Lemma prefix_class_7 x : Str.startswith "7" x = true <-> prefix_class x = 1.
Proof.
  unfold prefix_class. destruct (Str.startswith "6" x) eqn:H6.
  - apply startswith_6_7 in H6. rewrite H6. done.
  - destruct (Str.startswith "7" x); done.
Qed.

Lemma prefix_class_rest x :
  negb (Str.startswith "6" x || Str.startswith "7" x) = true <-> prefix_class x = 2.
Proof.
  unfold prefix_class.
  destruct (Str.startswith "6" x), (Str.startswith "7" x); done.
Qed.

Lemma filter_ext_class (f : string -> bool) (k : nat) l :
  (forall x, f x = true <-> prefix_class x = k) ->
  List.filter f l = List.filter (fun x => Nat.eqb (prefix_class x) k) l.
Proof.
  intros Hf. apply List.filter_ext. intros x.
  destruct (f x) eqn:E.
  - apply Hf in E. by rewrite E, Nat.eqb_refl.
  - destruct (Nat.eqb_spec (prefix_class x) k) as [Hk|]; [|done].
    apply Hf in Hk. congruence.
Qed.

(** The ranking written with the class function. *)
Lemma rank_tokens_by_class l :
  rank_tokens l
  = List.filter (fun x => Nat.eqb (prefix_class x) 0) l
    ++ List.filter (fun x => Nat.eqb (prefix_class x) 1) l
    ++ List.filter (fun x => Nat.eqb (prefix_class x) 2) l.
Proof.
  unfold rank_tokens, pref6, pref7, rest.
  rewrite (filter_ext_class _ 0 l prefix_class_6).
  rewrite (filter_ext_class _ 1 l prefix_class_7).
  by rewrite (filter_ext_class _ 2 l prefix_class_rest).
Qed.

Lemma prefix_class_le_2 x : prefix_class x <= 2.
Proof. unfold prefix_class. repeat case_match; lia. Qed.

Lemma rank_tokens_length l : length (rank_tokens l) = length l.
Proof.
  rewrite rank_tokens_by_class.
  induction l as [|x l IH]; [done|].
  pose proof (prefix_class_le_2 x) as Hx.
  rewrite !length_app in *. simpl.
  destruct (prefix_class x) as [|[|[|?]]]; simpl; rewrite ?length_app; simpl; lia.
Qed.

Lemma rank_tokens_perm l : Permutation (rank_tokens l) l.
Proof.
  rewrite rank_tokens_by_class.
  induction l as [|x l IH]; [done|].
  pose proof (prefix_class_le_2 x) as Hx. simpl.
  destruct (prefix_class x) as [|[|[|?]]]; simpl; try lia.
  - by constructor.
  - rewrite <- Permutation_middle. by constructor.
  - rewrite app_assoc, <- Permutation_middle, <- app_assoc. by constructor.
Qed.

Lemma filter_filter_class (j k : nat) l :
  List.filter (fun x => Nat.eqb (prefix_class x) k)
              (List.filter (fun x => Nat.eqb (prefix_class x) j) l)
  = if Nat.eqb j k then List.filter (fun x => Nat.eqb (prefix_class x) k) l else [].
Proof.
  induction l as [|x l IH]; simpl; [by destruct (Nat.eqb j k)|].
  destruct (Nat.eqb_spec (prefix_class x) j) as [Hj|Hj]; simpl.
  - rewrite IH. subst j.
    destruct (Nat.eqb_spec (prefix_class x) k) as [Hk|Hk]; done.
  - rewrite IH. destruct (Nat.eqb_spec j k) as [->|]; [|done].
    destruct (Nat.eqb_spec (prefix_class x) k); done.
Qed.

Lemma rank_tokens_stable (k : nat) l :
  List.filter (fun x => Nat.eqb (prefix_class x) k) (rank_tokens l)
  = List.filter (fun x => Nat.eqb (prefix_class x) k) l.
Proof.
  rewrite rank_tokens_by_class, !List.filter_app, !filter_filter_class.
  destruct k as [|[|[|k]]]; simpl; rewrite ?app_nil_r; try done.
  induction l as [|x l IH]; [done|]. simpl.
  pose proof (prefix_class_le_2 x).
  destruct (Nat.eqb_spec (prefix_class x) (S (S (S k)))); [lia|done].
Qed.

Lemma rank_tokens_sorted l :
  StronglySorted (fun a b => prefix_class a <= prefix_class b) (rank_tokens l).
Proof.
  rewrite rank_tokens_by_class.
  assert (Hcls : forall k x,
    In x (List.filter (fun x => Nat.eqb (prefix_class x) k) l) -> prefix_class x = k).
  { intros k x [_ H]%List.filter_In. by apply Nat.eqb_eq. }
  assert (Hsame : forall k,
    StronglySorted (fun a b => prefix_class a <= prefix_class b)
      (List.filter (fun x => Nat.eqb (prefix_class x) k) l)).
  { intros k. generalize (Hcls k).
    induction (List.filter _ l) as [|a m IH]; intros Hm; constructor.
    - apply IH. intros x Hx. apply Hm. by right.
    - apply List.Forall_forall. intros b Hb.
      rewrite (Hm a), (Hm b); [lia| by right | by left]. }
  assert (Happ : forall m1 m2 : list string,
    StronglySorted (fun a b => prefix_class a <= prefix_class b) m1 ->
    StronglySorted (fun a b => prefix_class a <= prefix_class b) m2 ->
    (forall a b, In a m1 -> In b m2 -> prefix_class a <= prefix_class b) ->
    StronglySorted (fun a b => prefix_class a <= prefix_class b) (m1 ++ m2)).
  { induction m1 as [|a m1 IH]; intros m2 H1 H2 H12; [done|].
    inversion H1 as [|? ? Hs Hf]; subst. simpl. constructor.
    - apply IH; [done..|]. intros x y Hx Hy. apply H12; [by right|done].
    - apply List.Forall_app. split; [done|].
      apply List.Forall_forall. intros b Hb. apply H12; [by left|done]. }
  apply Happ; [apply Hsame| |].
  - apply Happ; [apply Hsame..|].
    intros a b Ha Hb. rewrite (Hcls 1 a Ha), (Hcls 2 b Hb). lia.
  - intros a b Ha Hb. rewrite (Hcls 0 a Ha). lia.
Qed.

End Ranking.

(** C5.  The ranking step [pref6 + pref7 + rest] is a stable partition by
    the class of the first character ('6', then '7', then anything else):
    the output lists the classes in that order, within every class the tokens
    keep the relative order they had in the input, and the output is a
    rearrangement of the input of the same length, so that no token is dropped
    or duplicated. *)
Theorem C5_rank_tokens_stable_partition (tokens : list string) :
  rank_tokens tokens
  = List.filter (fun x => Nat.eqb (prefix_class x) 0) tokens
    ++ List.filter (fun x => Nat.eqb (prefix_class x) 1) tokens
    ++ List.filter (fun x => Nat.eqb (prefix_class x) 2) tokens
  /\ StronglySorted (fun a b => prefix_class a <= prefix_class b) (rank_tokens tokens)
  /\ (forall k : nat,
        List.filter (fun x => Nat.eqb (prefix_class x) k) (rank_tokens tokens)
        = List.filter (fun x => Nat.eqb (prefix_class x) k) tokens)
  /\ Permutation (rank_tokens tokens) tokens
  /\ length (rank_tokens tokens) = length tokens.
Proof.
  split; [apply rank_tokens_by_class|].
  split; [apply rank_tokens_sorted|].
  split; [intros k; apply rank_tokens_stable|].
  split; [apply rank_tokens_perm | apply rank_tokens_length].
Qed.

(** ** Frames *)

Section Frames.

Implicit Types (df : DataFrame) (c : string) (cols : list string).

Lemma index_of_Some c cols : is_Some (index_of c cols) <-> c ∈ cols.
Proof.
  induction cols as [|k cols IH]; simpl.
  - split; [by intros [? ?] | by intros ?%elem_of_nil].
  - destruct (String.eqb_spec k c) as [->|Hne].
    + split; [intros _; by left | by eauto].
    + rewrite elem_of_cons, <- IH. destruct (index_of c cols); simpl.
      * split; eauto.
      * split; [by intros [? ?] | intros [?|[? ?]]; congruence].
Qed.

Lemma has_column_true c df : has_column c df = true <-> c ∈ columns df.
Proof.
  unfold has_column. rewrite <- index_of_Some.
  destruct (index_of c (columns df)); split; try done; eauto.
Qed.

Lemma has_column_false c df : has_column c df = false <-> c ∉ columns df.
Proof. rewrite <- has_column_true. by destruct (has_column c df). Qed.

Lemma zip_with_repeat {A B C} (f : A -> B -> C) (l : list A) (v : B) :
  zip_with f l (repeat v (length l)) = List.map (fun a => f a v) l.
Proof. induction l as [|a l IH]; simpl; [done|]. by rewrite IH. Qed.

Lemma setitem_scalar_new c v df :
  c ∉ columns df ->
  setitem_scalar c v df
  = mkDF (columns df ++ [c]) (List.map (fun row => row ++ [v]) (data df)).
Proof.
  intros Hc. unfold setitem_scalar, setitem.
  destruct (index_of c (columns df)) eqn:E.
  - exfalso. apply Hc, index_of_Some. eauto.
  - by rewrite zip_with_repeat.
Qed.

Lemma ensure_columns_eq cols df :
  ensure_columns cols df
  = mkDF (columns df ++ missing_columns (columns df) cols)
         (List.map
            (fun row => row ++ repeat (CStr "") (length (missing_columns (columns df) cols)))
            (data df)).
Proof.
  unfold ensure_columns. revert df.
  induction cols as [|c cols IH]; intros [hd rows]; simpl.
  - rewrite app_nil_r. f_equal. rewrite <- (List.map_id rows) at 1.
    apply List.map_ext. intros r. by rewrite app_nil_r.
  - case_bool_decide as Hc.
    + apply (has_column_true c (mkDF hd rows)) in Hc. rewrite Hc. apply IH.
    + apply (has_column_false c (mkDF hd rows)) in Hc. rewrite Hc.
      apply has_column_false in Hc.
      rewrite setitem_scalar_new by done. rewrite IH. simpl.
      rewrite <- app_assoc. f_equal. rewrite List.map_map.
      apply List.map_ext. intros r. by rewrite <- app_assoc.
Qed.

Lemma missing_columns_spec cols : forall header c,
  c ∈ header ++ missing_columns header cols <-> c ∈ header \/ c ∈ cols.
Proof.
  induction cols as [|k cols IH]; intros header c; simpl.
  - rewrite app_nil_r, elem_of_nil. tauto.
  - case_bool_decide as Hk.
    + rewrite IH, elem_of_cons. split; [tauto|]. intros [?|[->|?]]; tauto.
    + rewrite (cons_middle k), app_assoc, IH.
      rewrite elem_of_app, list_elem_of_singleton, elem_of_cons. tauto.
Qed.

Lemma missing_columns_fresh cols : forall header c,
  c ∈ missing_columns header cols -> c ∉ header.
Proof.
  induction cols as [|k cols IH]; intros header c; simpl.
  - by intros ?%elem_of_nil.
  - case_bool_decide as Hk; [apply IH|].
    intros [->|Hc]%elem_of_cons; [done|].
    apply IH in Hc. intros ?. apply Hc, elem_of_app. by left.
Qed.

Lemma missing_columns_none cols : forall header,
  (forall c, c ∈ cols -> c ∈ header) -> missing_columns header cols = [].
Proof.
  induction cols as [|k cols IH]; intros header Hall; simpl; [done|].
  rewrite bool_decide_eq_true_2 by (apply Hall; by left).
  apply IH. intros c Hc. apply Hall. by right.
Qed.

Lemma ensure_columns_present cols df c :
  c ∈ cols -> c ∈ columns (ensure_columns cols df).
Proof. rewrite ensure_columns_eq. simpl. rewrite missing_columns_spec. tauto. Qed.

Lemma ensure_columns_id cols df :
  (forall c, c ∈ cols -> c ∈ columns df) -> ensure_columns cols df = df.
Proof.
  intros Hall. rewrite ensure_columns_eq, (missing_columns_none _ _ Hall).
  destruct df as [hd rows]. simpl. rewrite app_nil_r. f_equal.
  rewrite <- (List.map_id rows) at 2.
  apply List.map_ext. intros r. by rewrite app_nil_r.
Qed.

(** Reading a cell by label in a row paired with its header. *)
Lemma get_combine_app_r (hd : list string) (row : list cell) c (vs : list cell)
    (extra : list string) (d : cell) :
  length row = length hd -> c ∉ hd ->
  get (combine (hd ++ extra) (row ++ vs)) c d = get (combine extra vs) c d.
Proof.
  revert row. induction hd as [|k hd IH]; intros [|v row] Hlen Hc; simpl in *;
    try done.
  apply not_elem_of_cons in Hc as [Hne Hc].
  destruct (String.eqb_spec k c) as [->|_]; [done|].
  apply IH; [lia|done].
Qed.

Lemma get_combine_repeat (extra : list string) c (v d : cell) :
  c ∈ extra -> get (combine extra (repeat v (length extra))) c d = v.
Proof.
  induction extra as [|k extra IH]; simpl; [by intros ?%elem_of_nil|].
  intros [->|Hc]%elem_of_cons.
  - by rewrite String.eqb_refl.
  - destruct (String.eqb k c); [done|by apply IH].
Qed.

End Frames.

(** ** Column harmonisation *)

Section Harmonisation.

Lemma cols_new_canonical :
  Forall (fun kv => cols_new (snd kv) = snd kv) mapping.
Proof.
  unfold mapping.
  repeat (apply List.Forall_cons; [vm_compute; reflexivity|]).
  apply List.Forall_nil.
Qed.

Lemma mapping_get_cases (key default : string) :
  (mapping_get key default = default /\ key ∉ List.map fst mapping)
  \/ (mapping_get key default ∈ mapping_values /\ key ∈ List.map fst mapping).
Proof.
  unfold mapping_get, mapping_values.
  generalize mapping. intros m.
  induction m as [|[k v] m IH]; simpl.
  - left. split; [done|]. by intros ?%elem_of_nil.
  - destruct (String.eqb_spec k key) as [->|Hne]; simpl.
    + right. split; by left.
    + destruct IH as [[-> Hk]|[Hv Hk]].
      * left. split; [done|]. by intros [?|?]%elem_of_cons.
      * right. split; by right.
Qed.

Lemma cols_new_value (v : string) : v ∈ mapping_values -> cols_new v = v.
Proof.
  unfold mapping_values. intros Hv.
  apply list_elem_of_In, List.in_map_iff in Hv as (kv & <- & Hkv).
  pose proof cols_new_canonical as H.
  rewrite List.Forall_forall in H. by apply H.
Qed.

Lemma cols_new_idem (c : string) : cols_new (cols_new c) = cols_new c.
Proof.
  unfold cols_new at 2.
  destruct (mapping_get_cases (Str.strip (Str.lower c)) c) as [[-> _]|[Hv _]];
    [done|].
  by apply cols_new_value.
Qed.

Lemma map_new_columns_idem (df : DataFrame) :
  map_new_columns (map_new_columns df) = map_new_columns df.
Proof.
  unfold map_new_columns.
  set (df1 := ensure_columns mapping_values (rename cols_new df)).
  assert (Hren : rename cols_new df1 = df1).
  { subst df1. rewrite ensure_columns_eq. unfold rename. cbn [columns data]. f_equal.
    rewrite List.map_app, List.map_map. f_equal.
    - apply List.map_ext. intros c. apply cols_new_idem.
    - set (m := missing_columns _ _).
      assert (Hm : forall c, c ∈ m -> c ∈ mapping_values).
      { intros c Hc. subst m.
        assert (H : c ∈ List.map cols_new (columns df)
                        ++ missing_columns (List.map cols_new (columns df)) mapping_values)
          by (apply elem_of_app; by right).
        apply missing_columns_spec in H as [H|H]; [|done].
        by apply missing_columns_fresh in Hc. }
      clearbody m. induction m as [|c m IH]; [done|]. simpl. f_equal.
      + apply cols_new_value, Hm. by left.
      + apply IH. intros ? ?. apply Hm. by right. }
  rewrite Hren. apply ensure_columns_id.
  intros c Hc. subst df1. by apply ensure_columns_present.
Qed.

End Harmonisation.

(** C8.  [map_new_columns] is idempotent.  After one application, every
    canonical column that is absent from the renamed header is present and
    holds the empty string in every row; and a column whose lower-cased,
    trimmed label is no known variant keeps its label and position, every row
    keeping all its cells in front of the cells of the added columns. *)
Theorem C8_map_new_columns (df : DataFrame) :
  map_new_columns (map_new_columns df) = map_new_columns df
  /\ (forall c : string,
        Forall (fun r => length r = length (columns df)) (data df) ->
        c ∈ mapping_values ->
        c ∉ List.map cols_new (columns df) ->
        c ∈ columns (map_new_columns df)
        /\ Forall (fun v => v = CStr "") (getitem c (map_new_columns df)))
  /\ (forall (i : nat) (c : string),
        columns df !! i = Some c ->
        Str.strip (Str.lower c) ∉ List.map fst mapping ->
        columns (map_new_columns df) !! i = Some c)
  /\ Forall2 (fun r r' => r `prefix_of` r') (data df) (data (map_new_columns df)).
Proof.
  split; [apply map_new_columns_idem|].
  unfold map_new_columns. rewrite ensure_columns_eq. unfold rename. cbn [columns data].
  set (m := missing_columns (List.map cols_new (columns df)) mapping_values).
  split; [|split].
  - intros c Hwf Hc Habs.
    assert (Hm : c ∈ m).
    { assert (H : c ∈ List.map cols_new (columns df) ++ m)
        by (apply missing_columns_spec; by right).
      apply elem_of_app in H as [H|H]; done. }
    split; [apply elem_of_app; by right|].
    unfold getitem, iterrows. simpl.
    rewrite List.map_map, List.map_map.
    apply List.Forall_forall. intros v Hv.
    apply List.in_map_iff in Hv as (r & <- & Hr).
    rewrite List.Forall_forall in Hwf.
    rewrite get_combine_app_r; [|rewrite length_map; by apply Hwf|done].
    by apply get_combine_repeat.
  - intros i c Hi Hk.
    rewrite lookup_app_l by (rewrite length_map; by eapply lookup_lt_Some).
    rewrite list_lookup_fmap, Hi. simpl. f_equal.
    unfold cols_new.
    destruct (mapping_get_cases (Str.strip (Str.lower c)) c) as [[-> _]|[_ ?]]; done.
  - induction (data df) as [|r rows IH]; constructor; [|done].
    by eexists.
Qed.

Lemma C8_map_new_columns_witness :
  let df := mkDF ["status "; "foo"] [[CStr "ok"; CInt 5]] in
  map_new_columns (map_new_columns df) = map_new_columns df
  /\ ("Weight" ∈ columns (map_new_columns df)
      /\ Forall (fun v => v = CStr "") (getitem "Weight" (map_new_columns df)))
  /\ columns (map_new_columns df) !! 1 = Some "foo".
Proof.
  intros df. destruct (C8_map_new_columns df) as (Hidem & Habs & Hpass & _).
  split; [exact Hidem|]. split.
  - apply Habs.
    + repeat constructor.
    + apply (bool_decide_unpack _). vm_compute. exact I.
    + apply (bool_decide_unpack _). vm_compute. exact I.
  - apply Hpass; [reflexivity|].
    apply (bool_decide_unpack _). vm_compute. exact I.
Defined.

(** ** The normalised view *)

Section NormalisedView.

Implicit Types (r : Series) (l : list string).

Lemma setitem_length c (vs : list cell) (df : DataFrame) :
  length vs = length (data df) -> length (data (setitem c vs df)) = length (data df).
Proof.
  intros Hlen. unfold setitem.
  destruct (index_of c (columns df)); simpl; rewrite length_zip_with; lia.
Qed.

Lemma normalize_rma_column_length (df : DataFrame) :
  length (data (normalize_rma_column df)) = length (data df).
Proof.
  unfold normalize_rma_column. destruct (has_column _ df); [|done].
  apply setitem_length. unfold getitem, iterrows. by rewrite !length_map.
Qed.

End NormalisedView.

Example build_new_norm_example :
  List.map (fun row => (row !! 2, row !! 3)) (data (build_new_norm example_ups_df))
  = [ (Some (CStr "60011223"), Some (CStr "1Z1234567890123456"));
      (Some (CStr "91234567"), Some (CStr "1Z1234567890123456"));
      (Some (CStr ""), Some (CStr "1Z9999999999999999")) ].
Proof. vm_compute. reflexivity. Qed.

(** ** The object store *)

Section Store.

Implicit Types (st : store) (l : ref) (df : DataFrame).

Lemma load_run st l df : st !! l = Some df -> load l st = Ok (df, st).
Proof. unfold load. by intros ->. Qed.

Lemma copy_run st l df :
  st !! l = Some df -> copy l st = Ok (length st, st ++ [df]).
Proof. intros H. unfold copy, bind. by rewrite (load_run _ _ _ H). Qed.

Lemma lookup_fresh st df : (st ++ [df]) !! length st = Some df.
Proof. by rewrite list_lookup_middle. Qed.

Lemma insert_fresh st df df' : <[length st := df']> (st ++ [df]) = st ++ [df'].
Proof.
  replace (length st) with (length st + 0) by lia.
  by rewrite insert_app_r.
Qed.

Lemma modify_fresh_run st df (f : DataFrame -> DataFrame) :
  modify (length st) f (st ++ [df]) = Ok (tt, st ++ [f df]).
Proof.
  unfold modify, bind. rewrite (load_run _ _ df) by apply lookup_fresh.
  by rewrite insert_fresh.
Qed.

Lemma lookup_old st l df (extra : list DataFrame) :
  st !! l = Some df -> (st ++ extra) !! l = Some df.
Proof. intros H. by apply lookup_app_l_Some. Qed.

(** What a call of the patcher returns and how it leaves the store. *)
Lemma patch_run st (reconciled_df new_norm_df : ref) (reconciled new_norm : DataFrame) :
  st !! reconciled_df = Some reconciled ->
  st !! new_norm_df = Some new_norm ->
  patch_rma_na_with_pr2 reconciled_df new_norm_df st
  = if empty reconciled || empty new_norm then Ok (reconciled_df, st)
    else Ok (length st,
             st ++ [setitem "RMA Number"
                      (patched_rma_column (build_tn_to_pr2 new_norm) reconciled)
                      reconciled]).
Proof.
  intros Hr Hn. unfold patch_rma_na_with_pr2, bind.
  rewrite (load_run _ _ _ Hr), (load_run _ _ _ Hn).
  destruct (empty reconciled || empty new_norm); [reflexivity|].
  rewrite (copy_run _ _ _ Hr). by rewrite modify_fresh_run.
Qed.

End Store.

(** ** Cells read by label *)

Section CellsByLabel.

Implicit Types (cols : list string) (row : list cell) (c k : string).

Lemma get_insert_other cols row (i : nat) c k (v d : cell) :
  cols !! i = Some k -> k <> c ->
  get (combine cols (<[i := v]> row)) c d = get (combine cols row) c d.
Proof.
  revert row i. induction cols as [|k' cols IH]; intros [|v' row] [|i];
    simpl; try done.
  - intros [= ->] Hne. by destruct (String.eqb_spec k c).
  - intros Hi Hne. destruct (String.eqb k' c); [done|]. by eapply IH.
Qed.

Lemma index_of_lookup c cols (i : nat) :
  index_of c cols = Some i -> cols !! i = Some c.
Proof.
  revert i. induction cols as [|k cols IH]; intros i; simpl; [done|].
  destruct (String.eqb_spec k c) as [->|Hne].
  - by intros [= <-].
  - destruct (index_of c cols) as [j|]; simpl; [|done].
    intros [= <-]. by apply IH.
Qed.

Lemma get_insert_same cols row (i : nat) c (v d : cell) :
  index_of c cols = Some i -> i < length row ->
  get (combine cols (<[i := v]> row)) c d = v.
Proof.
  revert row i. induction cols as [|k cols IH]; intros row i; simpl; [done|].
  destruct (String.eqb_spec k c) as [->|Hne].
  - intros [= <-] Hlen. destruct row; simpl in *; [lia|].
    by rewrite String.eqb_refl.
  - destruct (index_of c cols) as [j|] eqn:E; simpl; [|done].
    intros [= <-] Hlen. destruct row as [|v' row]; simpl in *; [lia|].
    destruct (String.eqb_spec k c) as [|_]; [done|].
    apply IH; [done|lia].
Qed.

Lemma get_snoc_other cols row c k (v d : cell) :
  length cols <= length row -> k <> c ->
  get (combine (cols ++ [k]) (row ++ [v])) c d = get (combine cols row) c d.
Proof.
  revert row. induction cols as [|k' cols IH]; intros [|v' row]; simpl;
    intros Hlen Hne; try lia.
  - by destruct (String.eqb_spec k c).
  - by destruct (String.eqb_spec k c).
  - destruct (String.eqb k' c); [done|]. apply IH; [lia|done].
Qed.

Lemma setitem_getitem_other c k (vs : list cell) (df : DataFrame) :
  rows_wide df -> length vs = length (data df) -> k <> c ->
  getitem c (setitem k vs df) = getitem c df.
Proof.
  intros Hwf Hlen Hne. unfold getitem, iterrows, setitem, rows_wide in *.
  destruct (index_of k (columns df)) as [i|] eqn:E; cbn [columns data];
    rewrite !List.map_map.
  - apply index_of_lookup in E.
    revert vs Hlen. induction (data df) as [|row rows IH]; intros [|v vs] Hlen;
      simpl in *; try done.
    apply Forall_cons in Hwf as [_ Hwf].
    rewrite (get_insert_other _ _ _ _ _ _ _ E Hne). f_equal. apply IH; [done|lia].
  - revert vs Hlen. induction (data df) as [|row rows IH]; intros [|v vs] Hlen;
      simpl in *; try done.
    apply Forall_cons in Hwf as [Hrow Hwf].
    rewrite get_snoc_other by (done || lia). f_equal. apply IH; [done|lia].
Qed.

Lemma setitem_getitem_same k (vs : list cell) (df : DataFrame) :
  rows_wide df -> length vs = length (data df) ->
  getitem k (setitem k vs df) = vs.
Proof.
  intros Hwf Hlen. unfold getitem, iterrows, setitem, rows_wide in *.
  destruct (index_of k (columns df)) as [i|] eqn:E; cbn [columns data];
    rewrite !List.map_map.
  - pose proof (index_of_lookup _ _ _ E) as Hi. apply lookup_lt_Some in Hi.
    revert vs Hlen. induction (data df) as [|row rows IH]; intros [|v vs] Hlen;
      simpl in *; try done.
    apply Forall_cons in Hwf as [Hrow Hwf].
    rewrite (get_insert_same _ _ _ _ _ _ E) by lia. f_equal. apply IH; [done|lia].
  - assert (Hk : k ∉ columns df).
    { intros Hin%index_of_Some. rewrite E in Hin. by destruct Hin. }
    revert vs Hlen. induction (data df) as [|row rows IH]; intros [|v vs] Hlen;
      simpl in *; try done.
    apply Forall_cons in Hwf as [Hrow Hwf].
    rewrite (get_combine_app_r _ _ _ [v] [k]) by done. simpl.
    rewrite String.eqb_refl. f_equal. apply IH; [done|lia].
Qed.

Lemma setitem_columns c k (vs : list cell) (df : DataFrame) :
  k <> c -> c ∈ columns (setitem k vs df) <-> c ∈ columns df.
Proof.
  intros Hne. unfold setitem.
  destruct (index_of k (columns df)); cbn [columns]; [done|].
  rewrite elem_of_app, list_elem_of_singleton. naive_solver.
Qed.

Lemma patched_rma_column_length (m : gmap string string) (df : DataFrame) :
  length (patched_rma_column m df) = length (data df).
Proof. unfold patched_rma_column, iterrows. by rewrite !length_map. Qed.

End CellsByLabel.

(** C9.  [patch_rma_na_with_pr2] never mutates a frame that exists when it
    is called: every object of the store, the two arguments among them, holds
    the same frame afterwards.  The frame it returns has as many rows as the
    main table, the same column labels apart from "RMA Number", and in every
    other column the values of the main table, row for row.  The main table
    has rows as wide as its header. *)
Theorem C9_patch_frame (st : store) (reconciled_df new_norm_df : ref)
    (reconciled new_norm : DataFrame) :
  st !! reconciled_df = Some reconciled ->
  st !! new_norm_df = Some new_norm ->
  rows_wide reconciled ->
  exists (out : ref) (st' : store) (patched : DataFrame),
    patch_rma_na_with_pr2 reconciled_df new_norm_df st = Ok (out, st')
    /\ (forall (l : ref) (df : DataFrame), st !! l = Some df -> st' !! l = Some df)
    /\ st' !! out = Some patched
    /\ length (data patched) = length (data reconciled)
    /\ (forall c : string,
          c <> "RMA Number" ->
          (c ∈ columns patched <-> c ∈ columns reconciled)
          /\ getitem c patched = getitem c reconciled).
Proof.
  intros Hr Hn Hwf. rewrite (patch_run _ _ _ _ _ Hr Hn).
  destruct (empty reconciled || empty new_norm).
  - exists reconciled_df, st, reconciled. repeat split; done.
  - eexists _, _, _. split; [reflexivity|].
    split; [intros l df Hl; by apply lookup_old|].
    split; [apply lookup_fresh|].
    split; [apply setitem_length, patched_rma_column_length|].
    intros c Hc. split.
    + by apply setitem_columns.
    + apply setitem_getitem_other; [done|apply patched_rma_column_length|done].
Qed.

Lemma C9_patch_frame_witness :
  exists (out : ref) (st' : store) (patched : DataFrame),
    patch_rma_na_with_pr2 0 1 blank_led_store = Ok (out, st')
    /\ (forall (l : ref) (df : DataFrame),
          blank_led_store !! l = Some df -> st' !! l = Some df)
    /\ st' !! out = Some patched
    /\ length (data patched) = length (data blank_led_main)
    /\ (forall c : string,
          c <> "RMA Number" ->
          (c ∈ columns patched <-> c ∈ columns blank_led_main)
          /\ getitem c patched = getitem c blank_led_main).
Proof.
  apply (C9_patch_frame blank_led_store 0 1 blank_led_main (build_new_norm test_ups_df)).
  - reflexivity.
  - reflexivity.
  - repeat constructor.
Defined.

(** ** The fallback patcher *)

Section Patcher.

Lemma digit_not_space (c : ascii) : Char.is_digit c = true -> Char.is_space c = false.
Proof. destruct c as [[] [] [] [] [] [] [] []]; vm_compute; congruence. Qed.

Lemma lstrip_id (s : string) :
  Str.head_is Char.is_space s = false -> Str.lstrip s = s.
Proof. destruct s as [|c r]; simpl; [done|]. by intros ->. Qed.

Lemma rstrip_id (s : string) :
  Str.all Char.is_digit s = true -> Str.rstrip s = s.
Proof.
  induction s as [|c r IH]; simpl; [done|].
  intros [Hc Hr]%andb_prop. rewrite (IH Hr).
  destruct r; [|done]. by rewrite (digit_not_space c Hc).
Qed.

Lemma fullmatch_strip (s : string) :
  RMA_STRICT_RX_fullmatch s = true -> Str.strip s = s.
Proof.
  unfold RMA_STRICT_RX_fullmatch, Str.strip. intros [_ Hd]%andb_prop.
  rewrite lstrip_id.
  - by apply rstrip_id.
  - destruct s as [|c r]; simpl in *; [done|].
    apply andb_prop in Hd as [Hc _]. by apply digit_not_space.
Qed.

Lemma map_length (f : ascii -> ascii) (s : string) :
  String.length (Str.map f s) = String.length s.
Proof. induction s as [|c r IH]; simpl; [done|]. by rewrite IH. Qed.

(** A match of [RMA_STRICT_RX] is neither empty nor the sentinel, in any
    case. *)
Lemma fullmatch_tests (s : string) :
  RMA_STRICT_RX_fullmatch s = true ->
  Str.truthy s = true
  /\ String.eqb s "N/A" = false
  /\ String.eqb (Str.upper s) "N/A" = false.
Proof.
  unfold RMA_STRICT_RX_fullmatch. intros [Hlen _]%andb_prop.
  apply Nat.eqb_eq in Hlen. repeat split.
  - by destruct s.
  - apply String.eqb_neq. intros ->. done.
  - apply String.eqb_neq. intros Heq.
    assert (H : String.length (Str.upper s) = 3) by by rewrite Heq.
    unfold Str.upper in H. rewrite map_length in H. lia.
Qed.

Lemma findall_fullmatch (s : string) :
  Forall (fun t => RMA_STRICT_RX_fullmatch t = true) (RMA_ANY8_IN_TEXT_RX_findall s).
Proof.
  eapply List.Forall_impl; [|apply (any8_scan_isolated s "" 0)].
  intros t (Hlen & Hd & _). unfold RMA_STRICT_RX_fullmatch.
  by rewrite Hlen, Hd.
Qed.

Lemma find_head_filter {A} (p : A -> bool) (l : list A) :
  List.find p l = head (List.filter p l).
Proof. induction l as [|x l IH]; simpl; [done|]. by destruct (p x). Qed.

Lemma filter_all {A} (p : A -> bool) (l : list A) :
  Forall (fun x => p x = true) l -> List.filter p l = l.
Proof. induction 1 as [|x l Hx _ IH]; simpl; [done|]. by rewrite Hx, IH. Qed.

Lemma pick_best_valid (candidates : list string) :
  Forall (fun t => RMA_STRICT_RX_fullmatch t = true) candidates ->
  _pick_best_rma candidates = best_valid_token candidates.
Proof.
  intros Hall. unfold _pick_best_rma, best_valid_token.
  rewrite (filter_all RMA_STRICT_RX_fullmatch _ Hall).
  assert (Hstrip : List.filter (fun c => RMA_STRICT_RX_fullmatch (Str.strip c)) candidates
                   = candidates).
  { apply filter_all. eapply List.Forall_impl; [|exact Hall].
    intros t Ht. simpl. by rewrite (fullmatch_strip t Ht). }
  rewrite Hstrip. destruct candidates as [|first rest0]; [done|].
  rewrite find_head_filter.
  assert (Hf : List.filter RMA_PREF6_RX_fullmatch (first :: rest0)
               = List.filter (Str.startswith "6") (first :: rest0)).
  { revert Hall. generalize (first :: rest0). intros l Hl.
    induction Hl as [|x l Hx _ IH]; simpl; [done|].
    unfold RMA_PREF6_RX_fullmatch at 1. rewrite Hx. simpl.
    by rewrite IH. }
  rewrite Hf. by destruct (List.filter (Str.startswith "6") (first :: rest0)).
Qed.

(** The dictionary keeps, for a tracking number, the value computed from
    the last row that bears it. *)
Lemma build_tn_to_pr2_lookup (new_norm : DataFrame) (tn : string) :
  default "" (build_tn_to_pr2 new_norm !! tn) = fallback_value new_norm tn.
Proof.
  unfold build_tn_to_pr2, fallback_value.
  assert (Hgen : forall (rows : list Series) (m : gmap string string),
    fold_left
      (fun (tn_to_pr2 : gmap string string) r =>
         let tn := Str.upper (Str.strip (str_or_empty (get r "Tracking Number" (CStr "")))) in
         let pr2 := Str.strip (str_or_empty (get r "Package Reference No. 2" (CStr ""))) in
         if negb (Str.truthy tn) then tn_to_pr2
         else
           let candidates := RMA_ANY8_IN_TEXT_RX_findall pr2 in
           let best := _pick_best_rma candidates in
           <[tn := best]> tn_to_pr2)
      rows m !! tn
    = match last (List.filter
                    (fun row => String.eqb (bears_tn row) tn && Str.truthy (bears_tn row))
                    rows) with
      | Some row =>
          Some (best_valid_token
                  (RMA_ANY8_IN_TEXT_RX_findall
                     (Str.strip (str_or_empty (get row "Package Reference No. 2" (CStr ""))))))
      | None => m !! tn
      end).
  { induction rows as [|row rows IH]; intros m; [done|].
    cbn [fold_left List.filter]. rewrite IH. fold (bears_tn row).
    destruct (Str.truthy (bears_tn row)) eqn:Ht; cbn [negb].
    - destruct (String.eqb_spec (bears_tn row) tn) as [Heq|Hne]; cbn [andb].
      + rewrite last_cons.
        destruct (last (List.filter _ rows)); [done|].
        rewrite Heq, lookup_insert_eq.
        by rewrite pick_best_valid by apply findall_fullmatch.
      + destruct (last (List.filter _ rows)); [done|].
        by rewrite lookup_insert_ne.
    - rewrite andb_false_r. done. }
  rewrite Hgen. destruct (last _); [done|]. by rewrite lookup_empty.
Qed.

Lemma falsy_no_tn (v : cell) : py_truthy v = false -> _extract_tn_list v = [].
Proof.
  destruct v as [| |s|z]; simpl; try done.
  - by destruct s.
  - intros Hz%negb_false_iff. apply Z.eqb_eq in Hz as ->. reflexivity.
Qed.

Lemma fallback_rma_spec (new_norm : DataFrame) (val tn_details : cell) :
  fallback_rma (build_tn_to_pr2 new_norm) val tn_details
  = identifier_by_trimmed_test new_norm val tn_details.
Proof.
  unfold fallback_rma, identifier_by_trimmed_test.
  set (s := Str.strip (str_or_empty val)).
  destruct (RMA_STRICT_RX_fullmatch s) eqn:Hs.
  - destruct (fullmatch_tests s Hs) as (-> & -> & ->). done.
  - rewrite !andb_false_r. unfold fallback_or_sentinel.
    destruct (py_truthy tn_details) eqn:Ht.
    + destruct (_extract_tn_list tn_details) as [|first others]; [done|].
      cbn [head]. by rewrite build_tn_to_pr2_lookup.
    + by rewrite (falsy_no_tn _ Ht).
Qed.

End Patcher.

(** C2, as the code has it.  With both tables non-empty, every row of the
    table [patch_rma_na_with_pr2] returns has as identifier: the trimmed text
    of the identifier of the main table when that text is non-empty, not the
    sentinel and a match of [^\d{8}$]; otherwise the fallback value of the
    first tracking number of the row's details field when that value matches
    [^\d{8}$]; and the sentinel "N/A" in every other case.  The fallback
    value of a tracking number is the best valid token of the
    secondary-reference field of the last row of the normalised table that
    bears it: the first strictly 8-digit token that starts with '6',
    otherwise the first strictly 8-digit token. *)
Theorem C2_patched_identifiers (st : store) (reconciled_df new_norm_df : ref)
    (reconciled new_norm : DataFrame) :
  st !! reconciled_df = Some reconciled ->
  st !! new_norm_df = Some new_norm ->
  rows_wide reconciled ->
  empty reconciled = false ->
  empty new_norm = false ->
  exists (out : ref) (st' : store) (patched : DataFrame),
    patch_rma_na_with_pr2 reconciled_df new_norm_df st = Ok (out, st')
    /\ st' !! out = Some patched
    /\ getitem "RMA Number" patched
       = List.map
           (fun row =>
              CStr (identifier_by_trimmed_test new_norm
                      (get row "RMA Number" (CStr ""))
                      (get row "Tracking Number - Details" (CStr ""))))
           (iterrows reconciled).
Proof.
  intros Hr Hn Hwf Her Hen. rewrite (patch_run _ _ _ _ _ Hr Hn), Her, Hen.
  eexists _, _, _. split; [reflexivity|]. split; [apply lookup_fresh|].
  rewrite setitem_getitem_same by (done || apply patched_rma_column_length).
  unfold patched_rma_column. apply List.map_ext. intros row.
  by rewrite fallback_rma_spec.
Qed.

Lemma C2_patched_identifiers_witness :
  exists (out : ref) (st' : store) (patched : DataFrame),
    patch_rma_na_with_pr2 0 1 blank_led_store = Ok (out, st')
    /\ st' !! out = Some patched
    /\ getitem "RMA Number" patched
       = List.map
           (fun row =>
              CStr (identifier_by_trimmed_test (build_new_norm test_ups_df)
                      (get row "RMA Number" (CStr ""))
                      (get row "Tracking Number - Details" (CStr ""))))
           (iterrows blank_led_main).
Proof.
  apply (C2_patched_identifiers blank_led_store 0 1 blank_led_main
           (build_new_norm test_ups_df)).
  - reflexivity.
  - reflexivity.
  - repeat constructor.
  - reflexivity.
  - vm_compute. reflexivity.
Defined.

(** C2 as stated fails: an identifier with a leading blank is no match of
    [^\d{8}$] as it stands, so that the claim sends the row to the fallback
    (here to the sentinel, the details field being empty); the code trims the
    identifier first and keeps the trimmed text. *)
Lemma C2_counterexample :
  exists patched : DataFrame,
    result_frame (patch_rma_na_with_pr2 0 1 blank_led_store) = Some patched
    /\ getitem "RMA Number" patched = [CStr "67024814"; CStr "N/A"]
    /\ List.map
         (fun row =>
            CStr (identifier_by_raw_test (build_new_norm test_ups_df)
                    (get row "RMA Number" (CStr ""))
                    (get row "Tracking Number - Details" (CStr ""))))
         (iterrows blank_led_main)
       = [CStr "N/A"; CStr "N/A"].
Proof. eexists. vm_compute. repeat split. Qed.

(** ** The final output *)

Section FinalRun.

(** What a call of [build_final_output_df] returns: the filtered projection
    of [cleaned_value] in a new object, or [KeyError] when the identifier
    column is missing; the frames that exist at the call are left as they
    are. *)
Lemma build_final_run (st : store) (reconciled_df new_norm_df : ref)
    (reconciled new_norm : DataFrame) :
  st !! reconciled_df = Some reconciled ->
  st !! new_norm_df = Some new_norm ->
  exists st1 : store,
    (forall (l : ref) (df : DataFrame), st !! l = Some df -> st1 !! l = Some df)
    /\ build_final_output_df reconciled_df new_norm_df st
       = if has_column "RMA Number" (cleaned_value reconciled new_norm)
         then Ok (length st1,
                  st1 ++ [filter_and_project (blocked_rmas new_norm)
                            (cleaned_value reconciled new_norm)])
         else Raise (KeyError "RMA Number").
Proof.
  intros Hr Hn. unfold build_final_output_df, cleaned_value, patched_value.
  unfold bind at 1. rewrite (patch_run _ _ _ _ _ Hr Hn).
  destruct (empty reconciled || empty new_norm).
  - exists (st ++ [normalize_rma_column (drop_helper_columns reconciled)]).
    split; [intros l df Hl; by apply lookup_old|].
    unfold bind at 1. rewrite (copy_run _ _ _ Hr).
    unfold bind at 1. rewrite (load_run _ _ new_norm) by by apply lookup_old.
    unfold bind at 1. rewrite modify_fresh_run.
    unfold bind at 1. unfold normalize_rma_column_inplace. rewrite modify_fresh_run.
    unfold bind. rewrite (load_run _ _ _ (lookup_fresh _ _)).
    by destruct (has_column _ _).
  - set (p := setitem _ _ reconciled).
    exists ((st ++ [p]) ++ [normalize_rma_column (drop_helper_columns p)]).
    split; [intros l df Hl; by apply lookup_old, lookup_old|].
    unfold bind at 1. rewrite (copy_run _ _ p) by apply lookup_fresh.
    unfold bind at 1.
    rewrite (load_run _ _ new_norm) by by apply lookup_old, lookup_old.
    unfold bind at 1. rewrite modify_fresh_run.
    unfold bind at 1. unfold normalize_rma_column_inplace. rewrite modify_fresh_run.
    unfold bind. rewrite (load_run _ _ _ (lookup_fresh _ _)).
    by destruct (has_column _ _).
Qed.

End FinalRun.

(** ** Trimming, case and the search of a phrase *)

Section Phrase.

Implicit Types (p s : string) (a c : ascii).

Lemma upper_space c : Char.is_space (Char.upper c) = Char.is_space c.
Proof. destruct c as [[] [] [] [] [] [] [] []]; reflexivity. Qed.

Lemma lstrip_upper s : Str.lstrip (Str.upper s) = Str.upper (Str.lstrip s).
Proof.
  induction s as [|c r IH]; [done|]. cbn [Str.upper Str.map Str.lstrip].
  rewrite upper_space. by destruct (Char.is_space c).
Qed.

Lemma rstrip_upper s : Str.rstrip (Str.upper s) = Str.upper (Str.rstrip s).
Proof.
  induction s as [|c r IH]; [done|]. cbn [Str.upper Str.map Str.rstrip].
  fold (Str.upper r). rewrite IH. unfold Str.upper.
  destruct (Str.rstrip r); cbn [Str.map]; [|done].
  rewrite upper_space. by destruct (Char.is_space c).
Qed.

Lemma strip_upper s : Str.strip (Str.upper s) = Str.upper (Str.strip s).
Proof. unfold Str.strip. by rewrite lstrip_upper, rstrip_upper. Qed.

Lemma prefix_cons a p c s :
  String.prefix (String a p) (String c s) = bool_decide (a = c) && String.prefix p s.
Proof.
  cbn -[ascii_dec]. destruct (ascii_dec a c) as [Heq|Hne].
  - by rewrite bool_decide_eq_true_2.
  - by rewrite bool_decide_eq_false_2.
Qed.

Lemma prefix_nil_l s : String.prefix "" s = true.
Proof. by destruct s. Qed.

Lemma contains_unfold p s :
  Str.contains p s
  = String.prefix p s
    || match s with
       | EmptyString => false
       | String _ r => Str.contains p r
       end.
Proof. by destruct s. Qed.

Lemma contains_lstrip a p s :
  Char.is_space a = false ->
  Str.contains (String a p) s = true ->
  Str.contains (String a p) (Str.lstrip s) = true.
Proof.
  intros Ha. induction s as [|c r IH]; [done|].
  cbn [Str.lstrip]. destruct (Char.is_space c) eqn:Hc; [|done].
  rewrite contains_unfold, prefix_cons.
  rewrite bool_decide_eq_false_2 by (intros ->; congruence).
  exact IH.
Qed.

Lemma prefix_rstrip p : forall s,
  Str.last_is (fun c => negb (Char.is_space c)) p = true ->
  String.prefix p s = true ->
  String.prefix p (Str.rstrip s) = true.
Proof.
  induction p as [|a p IH]; intros s Hlast Hpre; [done|].
  destruct s as [|c r]; [done|].
  rewrite prefix_cons in Hpre. apply andb_prop in Hpre as [Hac Hpr].
  apply bool_decide_eq_true in Hac as <-.
  cbn [Str.rstrip]. destruct p as [|b p'].
  - cbn [Str.last_is] in Hlast. apply negb_true_iff in Hlast. rewrite Hlast.
    destruct (Str.rstrip r); rewrite prefix_cons, prefix_nil_l;
      by rewrite bool_decide_eq_true_2.
  - assert (Hr : String.prefix (String b p') (Str.rstrip r) = true)
      by (apply IH; done).
    destruct (Str.rstrip r) as [|c' r']; [done|].
    rewrite prefix_cons, Hr. by rewrite bool_decide_eq_true_2.
Qed.

Lemma contains_rstrip p s :
  Str.last_is (fun c => negb (Char.is_space c)) p = true ->
  Str.contains p s = true ->
  Str.contains p (Str.rstrip s) = true.
Proof.
  intros Hlast. induction s as [|c r IH]; intros Hc.
  - destruct p; done.
  - rewrite contains_unfold in Hc. apply orb_prop in Hc as [Hpre|Hin].
    + rewrite contains_unfold. by rewrite (prefix_rstrip p _ Hlast Hpre).
    + specialize (IH Hin). cbn [Str.rstrip].
      destruct (Str.rstrip r) as [|c' r'].
      * destruct p; done.
      * rewrite contains_unfold, IH. apply orb_true_r.
Qed.

Lemma contains_strip a p s :
  Char.is_space a = false ->
  Str.last_is (fun c => negb (Char.is_space c)) (String a p) = true ->
  Str.contains (String a p) s = true ->
  Str.contains (String a p) (Str.strip s) = true.
Proof.
  intros Ha Hlast Hc. unfold Str.strip.
  by apply contains_rstrip, contains_lstrip.
Qed.

Lemma contains_truthy a p s :
  Str.contains (String a p) s = true -> Str.truthy s = true.
Proof. by destruct s. Qed.

End Phrase.

(** ** The blocked set *)

Section Blocked.

Lemma blocked_rmas_elem (new_norm : DataFrame) (id : string) :
  id ∈ blocked_rmas new_norm
  <-> exists r : Series,
        r ∈ iterrows new_norm
        /\ blocks r = true
        /\ Str.strip (str_or_empty (get r "RMA Number" (CStr ""))) = id.
Proof.
  unfold blocked_rmas.
  assert (Hgen : forall (rows : list Series) (acc : gset string),
    id ∈ fold_left
           (fun (blocked : gset string) r =>
              if blocks r
              then {[Str.strip (str_or_empty (get r "RMA Number" (CStr "")))]} ∪ blocked
              else blocked)
           rows acc
    <-> id ∈ acc
        \/ exists r : Series,
             r ∈ rows /\ blocks r = true
             /\ Str.strip (str_or_empty (get r "RMA Number" (CStr ""))) = id).
  { induction rows as [|row rows IH]; intros acc; cbn [fold_left].
    - split; [by left|]. intros [?|(r & Hr & _)]; [done|].
      by apply elem_of_nil in Hr.
    - rewrite IH. destruct (blocks row) eqn:Hb.
      + rewrite elem_of_union, elem_of_singleton. split.
        * intros [[->|?]|(r & Hr & ?)].
          -- right. exists row. split; [by left|done].
          -- by left.
          -- right. exists r. split; [by right|done].
        * intros [?|(r & [->|Hr]%elem_of_cons & Hbr & Hid)].
          -- left. by right.
          -- left. by left.
          -- right. by exists r.
      + split.
        * intros [?|(r & Hr & ?)]; [by left|].
          right. exists r. split; [by right|done].
        * intros [?|(r & [->|Hr]%elem_of_cons & Hbr & Hid)].
          -- by left.
          -- congruence.
          -- right. by exists r. }
  specialize (Hgen (iterrows new_norm) ∅). split.
  - intros Hin. apply Hgen in Hin as [?|?]; [set_solver|done].
  - intros Hex. apply Hgen. by right.
Qed.

Lemma phrase_truthy (v : cell) :
  Str.contains "CONS PICK UP" (Str.upper (py_str v)) = true -> py_truthy v = true.
Proof.
  destruct v as [| |s|z]; simpl; try done.
  - by destruct s.
  - destruct (Z.eqb_spec z 0) as [->|]; [|done]. vm_compute. congruence.
Qed.

Lemma fullmatch_truthy (v : cell) :
  RMA_STRICT_RX_fullmatch (py_str v) = true -> py_truthy v = true.
Proof.
  destruct v as [| |s|z]; simpl; try done.
  - by destruct s.
  - destruct (Z.eqb_spec z 0) as [->|]; [|done]. vm_compute. congruence.
Qed.

(** Every identifier of the blocked set, as the claim defines it, is in
    the set the code computes. *)
Lemma in_blocked_set_blocked (new_norm : DataFrame) (id : string) :
  in_blocked_set new_norm id -> id ∈ blocked_rmas new_norm.
Proof.
  intros (r & Hr & Hphrase & Hid & Hmatch).
  apply blocked_rmas_elem. exists r. split; [done|].
  assert (Ho : str_or_empty (get r "Original RMA" (CStr ""))
               = py_str (get r "Original RMA" (CStr ""))).
  { unfold str_or_empty. by rewrite (phrase_truthy _ Hphrase). }
  assert (Hc : Str.strip (str_or_empty (get r "RMA Number" (CStr ""))) = id).
  { unfold str_or_empty. rewrite <- Hid in Hmatch.
    rewrite (fullmatch_truthy _ Hmatch), Hid.
    apply fullmatch_strip. by rewrite <- Hid. }
  split; [|done]. unfold blocks. rewrite Hc, Hmatch, Ho.
  rewrite <- strip_upper.
  assert (Hin : Str.contains "CONS PICK UP"
                  (Str.strip (Str.upper (py_str (get r "Original RMA" (CStr ""))))) = true)
    by (apply contains_strip; done).
  rewrite Hin. rewrite strip_upper in Hin.
  apply contains_truthy in Hin.
  destruct (Str.strip (py_str (get r "Original RMA" (CStr "")))); done.
Qed.

End Blocked.

(** ** Rows of the final table *)

Section FinalRows.

Implicit Types (cols : list string) (row : list cell) (c : string).

Lemma get_combine_map cols (f : string -> cell) c (d : cell) :
  c ∈ cols -> get (combine cols (List.map f cols)) c d = f c.
Proof.
  induction cols as [|k cols IH]; [by intros ?%elem_of_nil|].
  cbn [List.map combine get].
  destruct (String.eqb_spec k c) as [->|Hne]; [done|].
  intros [?|Hin]%elem_of_cons; [congruence|by apply IH].
Qed.

Lemma get_app_found cols row (extra : list string) (pad : list cell) c (v : cell) :
  get (combine cols row) c CNone = v -> v <> CNone ->
  get (combine (cols ++ extra) (row ++ pad)) c CNone = v.
Proof.
  revert row. induction cols as [|k cols IH]; intros [|v' row]; simpl;
    try congruence.
  destruct (String.eqb k c); [done|]. apply IH.
Qed.

Lemma get_absent cols row c (d : cell) :
  index_of c cols = None -> get (combine cols row) c d = d.
Proof.
  revert row. induction cols as [|k cols IH]; intros [|v row]; simpl; try done.
  destruct (String.eqb k c); [done|].
  destruct (index_of c cols); [done|]. intros _. by apply IH.
Qed.

Lemma get_short cols row c (i : nat) (d : cell) :
  index_of c cols = Some i -> length row <= i -> get (combine cols row) c d = d.
Proof.
  revert row i. induction cols as [|k cols IH]; intros [|v row] i; simpl;
    try done.
  destruct (String.eqb k c).
  - intros [= <-]. lia.
  - destruct (index_of c cols) as [j|] eqn:E; [|done]. simpl.
    intros [= <-] Hlen. apply (IH row j); [done|lia].
Qed.

(** After the normalisation, the identifier of a row is a string, when the
    row has one under the label. *)
Lemma normalize_rma_cell (df : DataFrame) row :
  row ∈ data (normalize_rma_column df) ->
  get (combine (columns (normalize_rma_column df)) row) "RMA Number" CNone = CNone
  \/ exists x : string,
       get (combine (columns (normalize_rma_column df)) row) "RMA Number" CNone = CStr x.
Proof.
  unfold normalize_rma_column, has_column, setitem.
  destruct (index_of "RMA Number" (columns df)) as [i|] eqn:E; cbn [columns data].
  - intros (row0 & v & -> & _ & Hv)%elem_of_zip_with.
    apply list_elem_of_In, List.in_map_iff in Hv as (v0 & <- & _).
    destruct (decide (i < length row0)) as [Hlt|Hge].
    + right. eexists. by apply get_insert_same.
    + left. rewrite list_insert_ge by lia. apply (get_short _ _ _ i); [done|lia].
  - intros _. left. by apply get_absent.
Qed.

Lemma normalize_rma_columns (df : DataFrame) :
  columns (normalize_rma_column df) = columns df.
Proof.
  unfold normalize_rma_column, has_column, setitem.
  by destruct (index_of "RMA Number" (columns df)).
Qed.

(** Where a row of the final table comes from. *)
Lemma filter_and_project_rows (blocked : gset string) (df : DataFrame) row' :
  row' ∈ data (filter_and_project blocked df) ->
  exists row,
    row ∈ data df
    /\ RMA_STRICT_RX_fullmatch
         (py_str (get (combine (columns df) row) "RMA Number" CNone)) = true
    /\ isin (get (combine (columns df) row) "RMA Number" CNone) blocked = false
    /\ row' = List.map
                (fun c =>
                   get (combine (columns df ++ missing_columns (columns df) FINAL_COLS)
                          (row ++ repeat (CStr "")
                                    (length (missing_columns (columns df) FINAL_COLS))))
                       c CNone)
                FINAL_COLS.
Proof.
  unfold filter_and_project. rewrite ensure_columns_eq.
  unfold select_columns. cbn [data columns].
  intros Hin. apply list_elem_of_In in Hin.
  apply List.in_map_iff in Hin as (rowp & <- & Hin).
  assert (Hcols : columns
            (if bool_decide (blocked = ∅)
             then select_rows
                    (fun r => RMA_STRICT_RX_fullmatch (py_str (get r "RMA Number" CNone))) df
             else select_rows (fun r => negb (isin (get r "RMA Number" CNone) blocked))
                    (select_rows
                       (fun r => RMA_STRICT_RX_fullmatch (py_str (get r "RMA Number" CNone)))
                       df))
          = columns df) by by case_bool_decide.
  rewrite Hcols in *.
  apply List.in_map_iff in Hin as (row & <- & Hin).
  exists row. case_bool_decide as Hb.
  - unfold select_rows in Hin. cbn [data columns] in Hin.
    apply List.filter_In in Hin as [Hin Hm].
    split; [by apply list_elem_of_In|]. split; [done|]. split; [|done].
    subst blocked. unfold isin. by destruct (get _ _ _).
  - unfold select_rows in Hin. cbn [data columns] in Hin.
    apply List.filter_In in Hin as [Hin Hnb].
    apply List.filter_In in Hin as [Hin Hm].
    split; [by apply list_elem_of_In|]. split; [done|].
    split; [by apply negb_true_iff|done].
Qed.

Lemma FINAL_COLS_rma : "RMA Number" ∈ FINAL_COLS.
Proof. apply (bool_decide_unpack _). vm_compute. exact I. Qed.

(** The identifier of a row of the final table. *)
Lemma final_identifier (blocked : gset string) (df : DataFrame) (r : Series) :
  r ∈ iterrows (filter_and_project blocked (normalize_rma_column df)) ->
  exists id : string,
    get r "RMA Number" CNone = CStr id
    /\ RMA_STRICT_RX_fullmatch id = true
    /\ id ∉ blocked.
Proof.
  unfold iterrows. intros Hin. apply list_elem_of_In in Hin.
  apply List.in_map_iff in Hin as (row' & <- & Hin).
  apply list_elem_of_In, filter_and_project_rows in Hin
    as (row & Hrow & Hm & Hnb & ->).
  assert (Hcols : columns (filter_and_project blocked (normalize_rma_column df))
                  = FINAL_COLS) by reflexivity.
  rewrite Hcols, (get_combine_map FINAL_COLS _ "RMA Number" CNone FINAL_COLS_rma).
  destruct (normalize_rma_cell df row Hrow) as [Hnone|[x Hx]].
  - rewrite Hnone in Hm. vm_compute in Hm. congruence.
  - exists x. rewrite Hx in Hm, Hnb.
    split; [by apply get_app_found|]. split; [done|].
    unfold isin in Hnb. by apply bool_decide_eq_false in Hnb.
Qed.

End FinalRows.

(** C3.  Whenever [build_final_output_df] returns a table, every row of it
    has as identifier an 8-digit string that is not in the blocked set: no
    identifier of a row of the normalised table whose original source text,
    upper-cased, contains "CONS PICK UP" and whose identifier matches
    [^\d{8}$] appears as identifier of a final row, whatever other rows bear
    it.  The only other outcome of a call is the [KeyError] of a main table
    that reaches the filter without identifier column. *)
Theorem C3_blocked_excluded (st : store) (reconciled_df new_norm_df : ref)
    (reconciled new_norm : DataFrame) :
  st !! reconciled_df = Some reconciled ->
  st !! new_norm_df = Some new_norm ->
  match build_final_output_df reconciled_df new_norm_df st with
  | Ok (out, st') =>
      exists final : DataFrame,
        st' !! out = Some final
        /\ Forall
             (fun r =>
                exists id : string,
                  get r "RMA Number" CNone = CStr id
                  /\ RMA_STRICT_RX_fullmatch id = true
                  /\ ~ in_blocked_set new_norm id)
             (iterrows final)
  | Raise e =>
      e = KeyError "RMA Number"
      /\ has_column "RMA Number" (cleaned_value reconciled new_norm) = false
  end.
Proof.
  intros Hr Hn.
  destruct (build_final_run st _ _ _ _ Hr Hn) as (st1 & _ & ->).
  destruct (has_column "RMA Number" (cleaned_value reconciled new_norm)) eqn:Hc;
    [|done].
  eexists. split; [apply lookup_fresh|].
  apply List.Forall_forall. intros r Hin. apply list_elem_of_In in Hin.
  unfold cleaned_value in Hin.
  destruct (final_identifier _ _ _ Hin) as (id & Hid & Hm & Hnb).
  exists id. split; [done|]. split; [done|].
  intros Hb. by apply Hnb, in_blocked_set_blocked.
Qed.

Example cons_pick_up_final :
  (fun df => List.map (fun row => row !! 1) (data df))
    <$> result_frame (build_final_output_df 0 0 [cons_pick_up_norm])
  = Some [Some (CStr "67024814")].
Proof. vm_compute. reflexivity. Qed.

Lemma C3_blocked_excluded_witness :
  match build_final_output_df 0 0 [cons_pick_up_norm] with
  | Ok (out, st') =>
      exists final : DataFrame,
        st' !! out = Some final
        /\ Forall
             (fun r =>
                exists id : string,
                  get r "RMA Number" CNone = CStr id
                  /\ RMA_STRICT_RX_fullmatch id = true
                  /\ ~ in_blocked_set cons_pick_up_norm id)
             (iterrows final)
  | Raise e =>
      e = KeyError "RMA Number"
      /\ has_column "RMA Number" (cleaned_value cons_pick_up_norm cons_pick_up_norm) = false
  end.
Proof.
  apply (C3_blocked_excluded [cons_pick_up_norm] 0 0 cons_pick_up_norm cons_pick_up_norm).
  - reflexivity.
  - reflexivity.
Defined.

(** ** Columns carried through the pipeline *)

Section Carried.

Implicit Types (S : string -> Prop) (df : DataFrame) (cols : list string)
  (row : list cell) (c k : string).

Lemma carries_refl S df : carries S df df.
Proof. repeat split; try done. intros _ row Hrow. by exists row. Qed.

Lemma carries_trans S df1 df2 df3 :
  carries S df1 df2 -> carries S df2 df3 -> carries S df1 df3.
Proof.
  intros (Hw12 & Hc12 & Hr12) (Hw23 & Hc23 & Hr23). split; [|split].
  - auto.
  - intros c Hc. rewrite (Hc23 c Hc). by apply Hc12.
  - intros Hw row3 Hrow3.
    destruct (Hr23 (Hw12 Hw) row3 Hrow3) as (row2 & Hrow2 & H23).
    destruct (Hr12 Hw row2 Hrow2) as (row1 & Hrow1 & H12).
    exists row1. split; [done|]. intros c Hc. by rewrite (H23 c Hc), (H12 c Hc).
Qed.

Lemma setitem_rows_wide k (vs : list cell) df :
  rows_wide df -> rows_wide (setitem k vs df).
Proof.
  unfold rows_wide, setitem. intros Hw. rewrite List.Forall_forall in Hw.
  destruct (index_of k (columns df)) as [i|]; cbn [columns data];
    apply List.Forall_forall; intros r Hr;
    apply list_elem_of_In, elem_of_zip_with in Hr as (row & v & -> & Hrow & _);
    apply list_elem_of_In, Hw in Hrow.
  - by rewrite length_insert.
  - rewrite !length_app. simpl. lia.
Qed.

Lemma carries_setitem S k (vs : list cell) df :
  (forall c, S c -> c <> k) -> carries S df (setitem k vs df).
Proof.
  intros HS. split; [apply setitem_rows_wide|]. split.
  - intros c Hc. apply setitem_columns. intros Heq; subst; by eapply HS.
  - intros Hw row' Hrow'. unfold rows_wide in Hw. rewrite List.Forall_forall in Hw.
    unfold setitem in *.
    destruct (index_of k (columns df)) as [i|] eqn:E; cbn [columns data] in *;
      apply elem_of_zip_with in Hrow' as (row & v & -> & Hrow & _);
      exists row; (split; [done|]); intros c Hc.
    + apply (get_insert_other _ _ i c k); [by apply index_of_lookup|].
      intros Heq; subst; by eapply HS.
    + apply get_snoc_other.
      * apply list_elem_of_In, Hw in Hrow. lia.
      * intros Heq; subst; by eapply HS.
Qed.

Lemma get_delete cols row (i : nat) c k (d : cell) :
  cols !! i = Some k -> k <> c ->
  get (combine (delete i cols) (delete i row)) c d = get (combine cols row) c d.
Proof.
  revert row i. induction cols as [|k' cols IH]; intros row i; [done|].
  destruct i as [|i]; simpl.
  - intros [= ->] Hne. destruct row as [|v row]; simpl.
    + by destruct cols.
    + by destruct (String.eqb_spec k c).
  - intros Hi Hne. destruct row as [|v row]; [done|]. simpl.
    destruct (String.eqb k' c); [done|]. by apply IH.
Qed.

Lemma elem_of_delete_other cols (i : nat) c k :
  cols !! i = Some k -> k <> c -> c ∈ delete i cols <-> c ∈ cols.
Proof.
  intros Hi Hne. rewrite delete_take_drop.
  rewrite <- (take_drop_middle cols i k Hi) at 3.
  rewrite !elem_of_app, elem_of_cons. naive_solver.
Qed.

Lemma carries_drop_column S k df :
  (forall c, S c -> c <> k) -> carries S df (drop_column k df).
Proof.
  intros HS. unfold drop_column.
  destruct (index_of k (columns df)) as [i|] eqn:E; [|apply carries_refl].
  pose proof (index_of_lookup _ _ _ E) as Hi.
  split; [|split]; cbn [columns data].
  - unfold rows_wide. cbn [columns data]. intros Hw.
    rewrite List.Forall_forall in Hw. apply List.Forall_forall. intros r Hr.
    apply List.in_map_iff in Hr as (row & <- & Hrow). apply Hw in Hrow.
    rewrite !length_delete; [lia|by eauto|].
    apply lookup_lt_is_Some. rewrite Hrow. by apply lookup_lt_is_Some; eauto.
  - intros c Hc. apply (elem_of_delete_other _ _ _ k); [done|].
    intros Heq; subst; by eapply HS.
  - intros _ row' Hrow'.
    apply list_elem_of_In, List.in_map_iff in Hrow' as (row & <- & Hrow).
    exists row. split; [by apply list_elem_of_In|]. intros c Hc.
    apply (get_delete _ _ _ _ k); [done|]. intros Heq; subst; by eapply HS.
Qed.

Lemma carries_drop_helper_columns S df :
  (forall c, S c -> c ∈ FINAL_COLS) -> carries S df (drop_helper_columns df).
Proof.
  intros HS. unfold drop_helper_columns. cbn [fold_left].
  assert (Hstep : forall k d,
    k ∉ FINAL_COLS ->
    carries S d (if has_column k d then drop_column k d else d)).
  { intros k d Hk. destruct (has_column k d); [|apply carries_refl].
    apply carries_drop_column. intros c Hc ->. by apply Hk, HS. }
  eapply carries_trans; [|apply Hstep].
  - eapply carries_trans; [|apply Hstep].
    + apply Hstep. apply (bool_decide_unpack _). vm_compute. exact I.
    + apply (bool_decide_unpack _). vm_compute. exact I.
  - apply (bool_decide_unpack _). vm_compute. exact I.
Qed.

Lemma carries_normalize S df :
  (forall c, S c -> c <> "RMA Number") -> carries S df (normalize_rma_column df).
Proof.
  intros HS. unfold normalize_rma_column.
  destruct (has_column _ df); [|apply carries_refl]. by apply carries_setitem.
Qed.

Lemma carries_cleaned_value (reconciled new_norm : DataFrame) :
  carries plain_final_column reconciled (cleaned_value reconciled new_norm).
Proof.
  unfold cleaned_value.
  eapply carries_trans; [|apply carries_normalize; by intros c [_ ?]].
  eapply carries_trans; [|apply carries_drop_helper_columns; by intros c [? _]].
  unfold patched_value. destruct (_ || _); [apply carries_refl|].
  apply carries_setitem. by intros c [_ ?].
Qed.

Lemma get_combine_app_l cols row (extra : list string) (pad : list cell) c (d : cell) :
  length row = length cols -> c ∈ cols ->
  get (combine (cols ++ extra) (row ++ pad)) c d = get (combine cols row) c d.
Proof.
  revert row. induction cols as [|k cols IH]; intros [|v row] Hlen Hin;
    simpl in *; try done.
  - by apply elem_of_nil in Hin.
  - destruct (String.eqb_spec k c) as [->|Hne]; [done|].
    apply elem_of_cons in Hin as [?|Hin]; [congruence|].
    apply IH; [lia|done].
Qed.

(** A cell of a final row, for a public column. *)
Lemma projected_cell df row c :
  length row = length (columns df) -> c ∈ FINAL_COLS ->
  get (combine FINAL_COLS
         (List.map
            (fun c =>
               get (combine (columns df ++ missing_columns (columns df) FINAL_COLS)
                      (row ++ repeat (CStr "")
                                (length (missing_columns (columns df) FINAL_COLS))))
                   c CNone)
            FINAL_COLS))
      c CNone
  = if bool_decide (c ∈ columns df) then get (combine (columns df) row) c CNone
    else CStr "".
Proof.
  intros Hlen Hc. rewrite (get_combine_map FINAL_COLS _ c CNone Hc).
  case_bool_decide as Hin.
  - by apply get_combine_app_l.
  - rewrite get_combine_app_r by done. apply get_combine_repeat.
    assert (H : c ∈ columns df ++ missing_columns (columns df) FINAL_COLS)
      by (apply missing_columns_spec; by right).
    apply elem_of_app in H as [?|?]; done.
Qed.

End Carried.

(** C6, as the code has it.  Whenever [build_final_output_df] returns a
    table, the table has the eleven columns of [FINAL_COLS] and every row has
    eleven cells: the identifier is an 8-digit string; every other column
    holds the cell of the row of the main table the final row comes from, as
    it is, and the empty string when the main table has no such column.  The
    main table has rows as wide as its header. *)
Theorem C6_final_columns (st : store) (reconciled_df new_norm_df : ref)
    (reconciled new_norm : DataFrame) :
  st !! reconciled_df = Some reconciled ->
  st !! new_norm_df = Some new_norm ->
  rows_wide reconciled ->
  match build_final_output_df reconciled_df new_norm_df st with
  | Ok (out, st') =>
      exists final : DataFrame,
        st' !! out = Some final
        /\ columns final = FINAL_COLS
        /\ Forall
             (fun row' =>
                length row' = 11
                /\ (exists id : string,
                      get (combine FINAL_COLS row') "RMA Number" CNone = CStr id
                      /\ RMA_STRICT_RX_fullmatch id = true)
                /\ exists row : list cell,
                     row ∈ data reconciled
                     /\ forall c : string,
                          c ∈ FINAL_COLS ->
                          c <> "RMA Number" ->
                          get (combine FINAL_COLS row') c CNone
                          = if bool_decide (c ∈ columns reconciled)
                            then get (combine (columns reconciled) row) c CNone
                            else CStr "")
             (data final)
  | Raise e =>
      e = KeyError "RMA Number"
      /\ has_column "RMA Number" (cleaned_value reconciled new_norm) = false
  end.
Proof.
  intros Hr Hn Hwf.
  destruct (build_final_run st _ _ _ _ Hr Hn) as (st1 & _ & ->).
  destruct (has_column "RMA Number" (cleaned_value reconciled new_norm)) eqn:Hc;
    [|done].
  eexists. split; [apply lookup_fresh|]. split; [reflexivity|].
  apply List.Forall_forall. intros row' Hrow'. apply list_elem_of_In in Hrow'.
  split; [|split].
  - apply filter_and_project_rows in Hrow' as (row & _ & _ & _ & ->).
    by rewrite length_map.
  - assert (Hin : combine FINAL_COLS row'
                  ∈ iterrows (filter_and_project (blocked_rmas new_norm)
                                (cleaned_value reconciled new_norm))).
    { unfold iterrows. apply list_elem_of_In, List.in_map_iff.
      exists row'. split; [reflexivity|by apply list_elem_of_In]. }
    unfold cleaned_value in Hin.
    destruct (final_identifier _ _ _ Hin) as (id & Hid & Hm & _). by exists id.
  - destruct (carries_cleaned_value reconciled new_norm) as (Hw & Hcols & Hrows).
    apply filter_and_project_rows in Hrow' as (rowd & Hrowd & _ & _ & ->).
    destruct (Hrows Hwf rowd Hrowd) as (row & Hrow & Hcells).
    exists row. split; [done|]. intros c Hc1 Hc2.
    assert (Hlen : length rowd = length (columns (cleaned_value reconciled new_norm))).
    { specialize (Hw Hwf). unfold rows_wide in Hw. rewrite List.Forall_forall in Hw.
      by apply Hw, list_elem_of_In. }
    rewrite (projected_cell _ _ _ Hlen Hc1).
    rewrite (Hcells c (conj Hc1 Hc2)).
    assert (Hiff : c ∈ columns (cleaned_value reconciled new_norm) <-> c ∈ columns reconciled)
      by (apply Hcols; by split).
    repeat case_bool_decide; tauto.
Qed.

Lemma C6_final_columns_witness :
  match build_final_output_df 0 0 [cons_pick_up_norm] with
  | Ok (out, st') =>
      exists final : DataFrame,
        st' !! out = Some final
        /\ columns final = FINAL_COLS
        /\ Forall
             (fun row' =>
                length row' = 11
                /\ (exists id : string,
                      get (combine FINAL_COLS row') "RMA Number" CNone = CStr id
                      /\ RMA_STRICT_RX_fullmatch id = true)
                /\ exists row : list cell,
                     row ∈ data cons_pick_up_norm
                     /\ forall c : string,
                          c ∈ FINAL_COLS ->
                          c <> "RMA Number" ->
                          get (combine FINAL_COLS row') c CNone
                          = if bool_decide (c ∈ columns cons_pick_up_norm)
                            then get (combine (columns cons_pick_up_norm) row) c CNone
                            else CStr "")
             (data final)
  | Raise e =>
      e = KeyError "RMA Number"
      /\ has_column "RMA Number" (cleaned_value cons_pick_up_norm cons_pick_up_norm) = false
  end.
Proof.
  apply (C6_final_columns [cons_pick_up_norm] 0 0 cons_pick_up_norm cons_pick_up_norm).
  - reflexivity.
  - reflexivity.
  - repeat constructor.
Defined.

(** C6 as stated fails: in a run of the application the main table is the
    normalised view, which has no "Tracking Number - Details" column; the
    final table gets the column filled with the empty string. *)
Lemma C6_counterexample :
  exists (final : DataFrame) (r : Series),
    result_frame (build_final_output_df 0 0 app_run_store) = Some final
    /\ r ∈ iterrows final
    /\ "Tracking Number - Details" ∈ FINAL_COLS
    /\ get r "Tracking Number - Details" CNone = CStr "".
Proof.
  eexists _, _. split; [vm_compute; reflexivity|].
  split; [by left|].
  split; [apply (bool_decide_unpack _); vm_compute; exact I|].
  vm_compute. reflexivity.
Qed.

(** ** Empty tables *)

Section EmptyTables.

Lemma flat_map_nil {A B} (f : A -> list B) (xs : list A) :
  Forall (fun x => f x = []) xs -> flat_map f xs = [].
Proof. induction 1 as [|x xs Hx _ IH]; simpl; [done|]. by rewrite Hx, IH. Qed.

Lemma empty_rows (df : DataFrame) : data df = [] -> empty df = true.
Proof. unfold empty. intros ->. by destruct (columns df). Qed.

Lemma empty_cases (df : DataFrame) :
  empty df = true -> columns df = [] \/ data df = [].
Proof.
  unfold empty. destruct (columns df); [by left|].
  destruct (data df); [by right|done].
Qed.

(** On an empty table every record is skipped. *)
Lemma empty_no_rows (df : DataFrame) :
  rows_wide df -> empty df = true ->
  Forall (fun r => rows_of_record r = []) (iterrows (map_new_columns df)).
Proof.
  intros Hwf He. unfold map_new_columns. rewrite ensure_columns_eq.
  unfold iterrows, rename. cbn [columns data].
  destruct df as [cols rows]. unfold rows_wide in Hwf. cbn [columns data] in *.
  apply empty_cases in He as [Hc|Hd]; cbn [columns data] in *; subst.
  - rewrite !List.map_map. apply List.Forall_forall. intros r Hr.
    apply List.in_map_iff in Hr as (row & <- & Hrow).
    rewrite List.Forall_forall in Hwf. apply Hwf in Hrow.
    destruct row; [|done]. vm_compute. reflexivity.
  - constructor.
Qed.

Lemma build_new_norm_empty (df : DataFrame) :
  rows_wide df -> empty df = true -> build_new_norm df = mkDF NORM_COLS [].
Proof.
  intros Hwf He. unfold build_new_norm.
  by rewrite (flat_map_nil _ _ (empty_no_rows df Hwf He)).
Qed.

Lemma filter_and_project_no_rows (blocked : gset string) (df : DataFrame) :
  data df = [] -> filter_and_project blocked df = mkDF FINAL_COLS [].
Proof.
  destruct df as [cols rows]. cbn [data]. intros ->.
  unfold filter_and_project. rewrite ensure_columns_eq.
  by case_bool_decide.
Qed.

Lemma cleaned_value_no_rows (reconciled new_norm : DataFrame) :
  data reconciled = [] ->
  "RMA Number" ∈ columns reconciled ->
  data (cleaned_value reconciled new_norm) = []
  /\ has_column "RMA Number" (cleaned_value reconciled new_norm) = true.
Proof.
  intros Hd Hc. unfold cleaned_value, patched_value.
  rewrite (empty_rows _ Hd). cbn [orb].
  destruct (carries_drop_helper_columns (fun c => c ∈ FINAL_COLS) reconciled)
    as (_ & Hcols & Hrows); [done|].
  split.
  - apply length_zero_iff_nil. rewrite normalize_rma_column_length.
    destruct (data (drop_helper_columns reconciled)) as [|row' rows'] eqn:E; [done|].
    destruct (Hrows) with (row' := row') as (row & Hrow & _).
    + unfold rows_wide. rewrite Hd. constructor.
    + by left.
    + rewrite Hd in Hrow. by apply elem_of_nil in Hrow.
  - apply has_column_true. rewrite normalize_rma_columns.
    apply Hcols; [apply FINAL_COLS_rma|done].
Qed.

End EmptyTables.

(** C7, as the code has it.  On an empty raw table [build_new_norm] returns
    a new table without rows that has the fourteen columns of the normalised
    view; [patch_rma_na_with_pr2] returns the very reference of the main table
    and leaves the store as it is when either table is empty; on a main table
    without rows that has an identifier column, [build_final_output_df]
    returns a new table without rows that has the columns of [FINAL_COLS], and
    every frame of the store stays as it is.  None of the three raises.
    Tables have rows as wide as their header. *)
Theorem C7_empty_tables :
  (forall new_df : DataFrame,
     rows_wide new_df -> empty new_df = true ->
     build_new_norm new_df = mkDF NORM_COLS [])
  /\ (forall (st : store) (reconciled_df new_norm_df : ref)
             (reconciled new_norm : DataFrame),
        st !! reconciled_df = Some reconciled ->
        st !! new_norm_df = Some new_norm ->
        empty reconciled = true \/ empty new_norm = true ->
        patch_rma_na_with_pr2 reconciled_df new_norm_df st = Ok (reconciled_df, st))
  /\ (forall (st : store) (reconciled_df new_norm_df : ref)
             (reconciled new_norm : DataFrame),
        st !! reconciled_df = Some reconciled ->
        st !! new_norm_df = Some new_norm ->
        data reconciled = [] ->
        "RMA Number" ∈ columns reconciled ->
        exists st1 : store,
          (forall (l : ref) (df : DataFrame), st !! l = Some df -> st1 !! l = Some df)
          /\ build_final_output_df reconciled_df new_norm_df st
             = Ok (length st1, st1 ++ [mkDF FINAL_COLS []])).
Proof.
  split; [exact build_new_norm_empty|]. split.
  - intros st rl nl r n Hr Hn He. rewrite (patch_run _ _ _ _ _ Hr Hn).
    destruct He as [-> | ->]; [done|]. by rewrite orb_true_r.
  - intros st rl nl r n Hr Hn Hd Hc.
    destruct (build_final_run st _ _ _ _ Hr Hn) as (st1 & Hold & ->).
    destruct (cleaned_value_no_rows r n Hd Hc) as [Hdata ->].
    exists st1. split; [done|]. by rewrite filter_and_project_no_rows.
Qed.

Lemma C7_empty_tables_witness :
  build_new_norm no_columns_df = mkDF NORM_COLS []
  /\ patch_rma_na_with_pr2 0 1 [mkDF NORM_COLS []; cons_pick_up_norm]
     = Ok (0, [mkDF NORM_COLS []; cons_pick_up_norm])
  /\ exists st1 : store,
       (forall (l : ref) (df : DataFrame),
          [mkDF NORM_COLS []; cons_pick_up_norm] !! l = Some df -> st1 !! l = Some df)
       /\ build_final_output_df 0 1 [mkDF NORM_COLS []; cons_pick_up_norm]
          = Ok (length st1, st1 ++ [mkDF FINAL_COLS []]).
Proof.
  destruct C7_empty_tables as (Hnorm & Hpatch & Hfinal). split; [|split].
  - apply Hnorm; [constructor|reflexivity].
  - apply (Hpatch _ 0 1 (mkDF NORM_COLS []) cons_pick_up_norm);
      [reflexivity|reflexivity|by left].
  - apply (Hfinal _ 0 1 (mkDF NORM_COLS []) cons_pick_up_norm);
      [reflexivity|reflexivity|reflexivity|].
    apply (bool_decide_unpack _). vm_compute. exact I.
Defined.

(** C7 as stated fails: on a table without columns and rows
    [build_new_norm] does not return its input but a table with fourteen
    columns, and [build_final_output_df] raises [KeyError]. *)
Lemma C7_counterexample :
  empty no_columns_df = true
  /\ build_new_norm no_columns_df <> no_columns_df
  /\ build_final_output_df 0 0 [no_columns_df] = Raise (KeyError "RMA Number").
Proof.
  split; [reflexivity|]. split; [|vm_compute; reflexivity].
  intros H. apply (f_equal columns) in H. vm_compute in H. discriminate H.
Qed.

(** ** The tracking-number cell *)

Section TrackingNumberCell.

Lemma falsy_cases (v : cell) :
  py_truthy v = false <-> v = CNone \/ v = CStr "" \/ v = CInt 0.
Proof.
  destruct v as [| |s|z]; simpl.
  - naive_solver.
  - naive_solver.
  - destruct s; naive_solver.
  - destruct (Z.eqb_spec z 0) as [->|Hz]; simpl; [naive_solver|].
    split; [done|]. intros [?|[?|[= ?]]]; done.
Qed.

Lemma record_tn_cell (r : Series) :
  record_tn r
  = if py_truthy (get r "Tracking Number" (CStr ""))
       && Str.truthy (Str.strip (py_str (get r "Tracking Number" (CStr ""))))
    then Some (Str.strip (py_str (get r "Tracking Number" (CStr ""))))
    else head (_extract_tn_list (get r "Tracking Number - Details" (CStr ""))).
Proof.
  unfold record_tn, str_or_empty.
  destruct (py_truthy (get r "Tracking Number" (CStr ""))); cbn [andb].
  - destruct (Str.strip _); cbn [Str.truthy negb]; [|done].
    by destruct (_extract_tn_list _).
  - cbn. by destruct (_extract_tn_list _).
Qed.

Lemma rows_of_record_tn (r : Series) (tn : string) :
  record_tn r = Some tn ->
  rows_of_record r <> []
  /\ Forall (fun row => row !! 3 = Some (CStr (Str.upper tn))) (rows_of_record r).
Proof.
  intros Htn. unfold rows_of_record. rewrite Htn.
  destruct (extract_all_rma_tokens_from_row r) as [|t ts].
  - split; [done|]. by repeat constructor.
  - split; [done|]. apply List.Forall_forall. intros row Hrow.
    by apply List.in_map_iff in Hrow as (tok & <- & _).
Qed.

End TrackingNumberCell.

(** C10, as the code has it.  In [build_new_norm], a record whose
    "Tracking Number" cell is truthy (not None, not the empty string, not the
    number 0) and has a string form that is not blank after trimming is never
    skipped and never falls back to the details field: its rows bear the
    upper-cased trimmed string form.  A float NaN cell is such a cell: its
    rows bear "NAN".  The fallback to the details field, and the skip when
    that field holds no tracking number, apply exactly when the cell is falsy
    or its string form is blank. *)
Theorem C10_tracking_number_cell (r : Series) :
  (py_truthy (get r "Tracking Number" (CStr "")) = true ->
   Str.strip (py_str (get r "Tracking Number" (CStr ""))) <> "" ->
   record_tn r = Some (Str.strip (py_str (get r "Tracking Number" (CStr ""))))
   /\ rows_of_record r <> []
   /\ Forall
        (fun row =>
           row !! 3
           = Some (CStr (Str.upper (Str.strip (py_str (get r "Tracking Number" (CStr "")))))))
        (rows_of_record r))
  /\ (get r "Tracking Number" (CStr "") = CNaN ->
      record_tn r = Some "nan"
      /\ rows_of_record r <> []
      /\ Forall (fun row => row !! 3 = Some (CStr "NAN")) (rows_of_record r))
  /\ (py_truthy (get r "Tracking Number" (CStr "")) = false
      \/ Str.strip (py_str (get r "Tracking Number" (CStr ""))) = "" ->
      record_tn r = head (_extract_tn_list (get r "Tracking Number - Details" (CStr "")))
      /\ (rows_of_record r = []
          <-> _extract_tn_list (get r "Tracking Number - Details" (CStr "")) = []))
  /\ (rows_of_record r = [] ->
      py_truthy (get r "Tracking Number" (CStr "")) = false
      \/ Str.strip (py_str (get r "Tracking Number" (CStr ""))) = "")
  /\ (py_truthy (get r "Tracking Number" (CStr "")) = false
      <-> get r "Tracking Number" (CStr "") = CNone
          \/ get r "Tracking Number" (CStr "") = CStr ""
          \/ get r "Tracking Number" (CStr "") = CInt 0).
Proof.
  assert (Hkeep : forall v : cell,
    get r "Tracking Number" (CStr "") = v ->
    py_truthy v = true -> Str.strip (py_str v) <> "" ->
    record_tn r = Some (Str.strip (py_str v))).
  { intros v Hv Ht Hs. rewrite record_tn_cell, Hv, Ht.
    destruct (Str.strip (py_str v)); done. }
  split; [|split; [|split; [|split]]].
  - intros Ht Hs. pose proof (Hkeep _ eq_refl Ht Hs) as Htn.
    split; [done|]. by apply rows_of_record_tn.
  - intros Hnan. assert (Htn : record_tn r = Some "nan") by by apply (Hkeep CNaN).
    split; [done|]. by apply (rows_of_record_tn r "nan").
  - intros Hblank.
    assert (Hfb : py_truthy (get r "Tracking Number" (CStr ""))
                  && Str.truthy (Str.strip (py_str (get r "Tracking Number" (CStr ""))))
                  = false).
    { destruct Hblank as [-> | ->]; [done|]. apply andb_false_r. }
    rewrite record_tn_cell, Hfb. split; [done|].
    unfold rows_of_record. rewrite record_tn_cell, Hfb.
    destruct (_extract_tn_list _) as [|first others]; cbn [head]; [done|].
    split; [|done].
    destruct (extract_all_rma_tokens_from_row r); done.
  - intros Hskip.
    destruct (py_truthy (get r "Tracking Number" (CStr ""))) eqn:Ht; [|by left].
    right.
    destruct (Str.strip (py_str (get r "Tracking Number" (CStr "")))) as [|c s] eqn:Hs;
      [done|exfalso].
    assert (Hrec : record_tn r = Some (String c s)).
    { rewrite <- Hs. apply (Hkeep _ eq_refl Ht). by rewrite Hs. }
    by destruct (rows_of_record_tn r _ Hrec) as [Hne _].
  - apply falsy_cases.
Qed.

Lemma C10_tracking_number_cell_witness :
  record_tn nan_tn_record = Some "nan"
  /\ rows_of_record nan_tn_record <> []
  /\ Forall (fun row => row !! 3 = Some (CStr "NAN")) (rows_of_record nan_tn_record).
Proof.
  destruct (C10_tracking_number_cell nan_tn_record) as (_ & Hnan & _).
  apply Hnan. reflexivity.
Defined.

(** C10 as stated fails: the integer 0 is not null and its string form "0"
    is not blank, yet the cell is falsy: the record falls back to the details
    field and, no tracking number being there, is skipped. *)
Lemma C10_counterexample :
  get zero_tn_record "Tracking Number" (CStr "") = CInt 0
  /\ Str.strip (py_str (CInt 0)) = "0"
  /\ record_tn zero_tn_record = None
  /\ rows_of_record zero_tn_record = [].
Proof. vm_compute. repeat split. Qed.
(* ===================================================================== *)
(** * Part III: further properties of the engine                         *)
(* ===================================================================== *)

(** ** Trimming and case *)

Section Trimming.

Implicit Types (s : string) (c : ascii).

Lemma lstrip_head s : Str.head_is Char.is_space (Str.lstrip s) = false.
Proof.
  induction s as [|c r IH]; [done|]. cbn [Str.lstrip].
  destruct (Char.is_space c) eqn:E; [done|]. by simpl.
Qed.

Lemma rstrip_last s : Str.last_is Char.is_space (Str.rstrip s) = false.
Proof.
  induction s as [|c r IH]; [done|]. cbn [Str.rstrip].
  destruct (Str.rstrip r) as [|c' r'] eqn:E.
  - destruct (Char.is_space c) eqn:Hc; [done|]. by simpl.
  - exact IH.
Qed.

Lemma rstrip_head s :
  Str.head_is Char.is_space s = false ->
  Str.head_is Char.is_space (Str.rstrip s) = false.
Proof.
  destruct s as [|c r]; [done|]. cbn [Str.rstrip Str.head_is]. intros Hc.
  destruct (Str.rstrip r); [by rewrite Hc|done].
Qed.

Lemma rstrip_fixed s : Str.last_is Char.is_space s = false -> Str.rstrip s = s.
Proof.
  induction s as [|c r IH]; [done|]. cbn [Str.rstrip]. intros Hl.
  destruct r as [|c' r'].
  - cbn in Hl. cbn. by rewrite Hl.
  - rewrite IH by exact Hl. done.
Qed.

Lemma strip_fixed s :
  Str.head_is Char.is_space s = false ->
  Str.last_is Char.is_space s = false ->
  Str.strip s = s.
Proof. intros Hh Hl. unfold Str.strip. by rewrite lstrip_id, rstrip_fixed. Qed.

Lemma strip_head s : Str.head_is Char.is_space (Str.strip s) = false.
Proof. apply rstrip_head, lstrip_head. Qed.

Lemma strip_last s : Str.last_is Char.is_space (Str.strip s) = false.
Proof. apply rstrip_last. Qed.

Lemma strip_strip s : Str.strip (Str.strip s) = Str.strip s.
Proof. apply strip_fixed; [apply strip_head|apply strip_last]. Qed.

Lemma lower_space c : Char.is_space (Char.lower c) = Char.is_space c.
Proof. destruct c as [[] [] [] [] [] [] [] []]; reflexivity. Qed.

Lemma lstrip_lower s : Str.lstrip (Str.lower s) = Str.lower (Str.lstrip s).
Proof.
  induction s as [|c r IH]; [done|]. cbn [Str.lower Str.map Str.lstrip].
  rewrite lower_space. by destruct (Char.is_space c).
Qed.

Lemma rstrip_lower s : Str.rstrip (Str.lower s) = Str.lower (Str.rstrip s).
Proof.
  induction s as [|c r IH]; [done|]. cbn [Str.lower Str.map Str.rstrip].
  fold (Str.lower r). rewrite IH. unfold Str.lower.
  destruct (Str.rstrip r); cbn [Str.map]; [|done].
  rewrite lower_space. by destruct (Char.is_space c).
Qed.

Lemma strip_lower s : Str.strip (Str.lower s) = Str.lower (Str.strip s).
Proof. unfold Str.strip. by rewrite lstrip_lower, rstrip_lower. Qed.

Lemma map_map_char (f g : ascii -> ascii) s :
  Str.map f (Str.map g s) = Str.map (fun c => f (g c)) s.
Proof. induction s as [|c r IH]; [done|]. simpl. by rewrite IH. Qed.

Lemma map_ext_char (f g : ascii -> ascii) s :
  (forall c, f c = g c) -> Str.map f s = Str.map g s.
Proof. intros H. induction s as [|c r IH]; [done|]. simpl. by rewrite H, IH. Qed.

Lemma upper_upper_char c : Char.upper (Char.upper c) = Char.upper c.
Proof. destruct c as [[] [] [] [] [] [] [] []]; reflexivity. Qed.

Lemma lower_lower_char c : Char.lower (Char.lower c) = Char.lower c.
Proof. destruct c as [[] [] [] [] [] [] [] []]; reflexivity. Qed.

Lemma upper_lower_char c : Char.upper (Char.lower c) = Char.upper c.
Proof. destruct c as [[] [] [] [] [] [] [] []]; reflexivity. Qed.

Lemma lower_upper_char c : Char.lower (Char.upper c) = Char.lower c.
Proof. destruct c as [[] [] [] [] [] [] [] []]; reflexivity. Qed.

Lemma upper_upper s : Str.upper (Str.upper s) = Str.upper s.
Proof.
  unfold Str.upper. rewrite map_map_char. apply map_ext_char, upper_upper_char.
Qed.

Lemma lower_lower s : Str.lower (Str.lower s) = Str.lower s.
Proof.
  unfold Str.lower. rewrite map_map_char. apply map_ext_char, lower_lower_char.
Qed.

Lemma upper_lower s : Str.upper (Str.lower s) = Str.upper s.
Proof.
  unfold Str.upper, Str.lower. rewrite map_map_char.
  apply map_ext_char, upper_lower_char.
Qed.

Lemma lower_upper s : Str.lower (Str.upper s) = Str.lower s.
Proof.
  unfold Str.upper, Str.lower. rewrite map_map_char.
  apply map_ext_char, lower_upper_char.
Qed.

Lemma truthy_map (f : ascii -> ascii) s : Str.truthy (Str.map f s) = Str.truthy s.
Proof. by destruct s. Qed.

End Trimming.

(** ** The value normalisers *)

Section Normalisers.

(** The two outcomes of [_norm_na]: the sentinel, or the trimmed text of a
    value that is no spelling of a missing value. *)
Lemma norm_na_cases (value : cell) :
  _norm_na value = "N/A"
  \/ (_norm_na value = Str.strip (py_str value)
      /\ Str.truthy (Str.strip (py_str value)) = true
      /\ String.eqb (Str.lower (Str.strip (py_str value))) "nan" = false
      /\ String.eqb (Str.lower (Str.strip (py_str value))) "none" = false
      /\ Str.contains "not avail" (Str.lower (Str.strip (py_str value))) = false).
Proof.
  destruct value as [| |s|z]; [by left|..]; unfold _norm_na;
    (destruct (Str.truthy (Str.strip (py_str _))) eqn:Ht; cbn [negb]; [|by left];
     destruct (String.eqb (Str.lower _) "nan") eqn:H1; cbn [orb]; [by left|];
     destruct (String.eqb (Str.lower _) "none") eqn:H2; cbn [orb]; [by left|];
     destruct (Str.contains "not avail" _) eqn:H3; [by left|by right]).
Qed.

Lemma truthy_nonempty (s : string) : Str.truthy s = true -> s <> "".
Proof. by destruct s. Qed.

End Normalisers.

(** X1.  [_norm_na] never returns the empty string, returns a text without
    surrounding white space, and is idempotent: applied to its own result it
    returns that result. *)
Theorem norm_na_fixed_point (value : cell) :
  _norm_na value <> ""
  /\ Str.strip (_norm_na value) = _norm_na value
  /\ _norm_na (CStr (_norm_na value)) = _norm_na value.
Proof.
  destruct (norm_na_cases value) as [->|(-> & Ht & H1 & H2 & H3)]; [done|].
  split; [by apply truthy_nonempty|]. split; [apply strip_strip|].
  unfold _norm_na. cbn [py_str]. rewrite strip_strip, Ht, H1, H2, H3. done.
Qed.

Section Status.

(** The labels [_canonical_status] assigns. *)
Lemma canonical_status_cases (value : cell) :
  _canonical_status value
    ∈ ["Delivered"; "Exception"; "In Transit"; "Out for Delivery"; "Manifest";
       "Void"; "N/A"]
  \/ (_canonical_status value = Str.strip (py_str value)
      /\ Str.truthy (Str.strip (py_str value)) = true
      /\ forall k : string,
           k ∈ ["delivered"; "exception"; "in transit"; "out for delivery";
                "out of delivery"; "manifest"; "void"; "not avail"] ->
           Str.contains k (Str.lower (Str.strip (py_str value))) = false).
Proof.
  unfold _canonical_status.
  set (s := Str.lower (Str.strip (str_or_empty value))).
  destruct (Str.contains "delivered" s) eqn:H1; [left; set_solver|].
  destruct (Str.contains "exception" s) eqn:H2; [left; set_solver|].
  destruct (Str.contains "in transit" s) eqn:H3; [left; set_solver|].
  destruct (Str.contains "out for delivery" s) eqn:H4; [left; set_solver|].
  destruct (Str.contains "out of delivery" s) eqn:H5; [left; set_solver|].
  cbn [orb].
  destruct (Str.contains "manifest" s) eqn:H6; [left; set_solver|].
  destruct (Str.contains "void" s) eqn:H7; [left; set_solver|].
  destruct (Str.contains "not avail" s) eqn:H8; [left; set_solver|].
  cbn [orb].
  destruct (Str.truthy s) eqn:Hs; cbn [negb]; [|left; set_solver].
  assert (Hv : str_or_empty value = py_str value).
  { unfold str_or_empty. destruct (py_truthy value) eqn:E; [done|].
    exfalso. subst s. unfold str_or_empty in Hs. rewrite E in Hs.
    by vm_compute in Hs. }
  subst s. rewrite Hv in *. unfold Str.lower in Hs. rewrite truthy_map in Hs.
  rewrite Hs. right. split; [done|]. split; [done|].
  intros k Hk. fold (Str.lower (Str.strip (py_str value))).
  repeat (apply elem_of_cons in Hk as [->|Hk]; [done|]).
  by apply elem_of_nil in Hk.
Qed.

End Status.

(** X2.  [_canonical_status] never returns the empty string; it returns one
    of the seven labels or the trimmed text of the value; and it is
    idempotent: a status it has returned is returned unchanged. *)
Theorem canonical_status_fixed_point (value : cell) :
  _canonical_status value <> ""
  /\ (_canonical_status value
        ∈ ["Delivered"; "Exception"; "In Transit"; "Out for Delivery"; "Manifest";
           "Void"; "N/A"]
      \/ _canonical_status value = Str.strip (py_str value))
  /\ _canonical_status (CStr (_canonical_status value)) = _canonical_status value.
Proof.
  destruct (canonical_status_cases value) as [Hl|(Heq & Ht & Hk)].
  - split; [|split; [by left|]].
    + intros E. rewrite E in Hl.
      repeat (apply elem_of_cons in Hl as [Hl|Hl]; [done|]).
      by apply elem_of_nil in Hl.
    + repeat (apply elem_of_cons in Hl as [->|Hl]; [by vm_compute|]).
      by apply elem_of_nil in Hl.
  - rewrite Heq. split; [by apply truthy_nonempty|]. split; [by right|].
    unfold _canonical_status.
    assert (Hv : str_or_empty (CStr (Str.strip (py_str value)))
                 = Str.strip (py_str value)).
    { unfold str_or_empty. cbn [py_truthy py_str]. by rewrite Ht. }
    rewrite Hv. cbn [py_str]. rewrite strip_strip.
    rewrite !Hk by set_solver. cbn [orb].
    unfold Str.lower. rewrite truthy_map, Ht. done.
Qed.

(** ** Identifier tokens *)

Section Tokens.

Implicit Types (s t : string) (l : list string).

Lemma all_drop (p : ascii -> bool) (n : nat) s :
  Str.all p s = true -> Str.all p (Str.drop n s) = true.
Proof.
  revert s. induction n as [|n IH]; intros [|c r]; simpl; try done.
  intros [_ Hr]%andb_prop. by apply IH.
Qed.

Lemma digits_not_endswith s :
  Str.all Char.is_digit s = true -> Str.endswith ".0" s = false.
Proof.
  intros Hd. unfold Str.endswith.
  destruct (String.eqb_spec (Str.drop (String.length s - String.length ".0") s) ".0")
    as [Heq|_]; [|apply andb_false_r].
  apply (all_drop _ (String.length s - String.length ".0")) in Hd.
  rewrite Heq in Hd. by vm_compute in Hd.
Qed.

Lemma all_prefix_of_all (p : ascii -> bool) s :
  Str.all p s = true -> Str.all_prefix p (String.length s) s = true.
Proof.
  induction s as [|c r IH]; simpl; [done|].
  intros [-> Hr]%andb_prop. by apply IH.
Qed.

Lemma take_all (n : nat) s : String.length s <= n -> Str.take n s = s.
Proof.
  revert s. induction n as [|n IH]; intros [|c r]; simpl; try done; [lia|].
  intros Hl. rewrite IH by lia. done.
Qed.

Lemma drop_all (n : nat) s : String.length s <= n -> Str.drop n s = "".
Proof.
  revert s. induction n as [|n IH]; intros [|c r]; simpl; try done; [lia|].
  intros Hl. apply IH. lia.
Qed.

Lemma any8_scan_short (prev : bool) (k : nat) s :
  String.length s <= k -> any8_scan prev k s = [].
Proof.
  revert prev k. induction s as [|c r IH]; intros prev k; [done|].
  simpl. destruct k as [|k]; [lia|]. intros Hl. apply IH. lia.
Qed.

(** On a string of exactly eight digits the scan finds the string itself
    and nothing else. *)
Lemma findall_strict s :
  RMA_STRICT_RX_fullmatch s = true -> RMA_ANY8_IN_TEXT_RX_findall s = [s].
Proof.
  unfold RMA_STRICT_RX_fullmatch. intros [Hlen Hd]%andb_prop.
  apply Nat.eqb_eq in Hlen. unfold RMA_ANY8_IN_TEXT_RX_findall.
  destruct s as [|c r]; [done|]. cbn [any8_scan].
  assert (Hm : any8_match_here false (String c r) = true).
  { unfold any8_match_here. rewrite <- Hlen at 1.
    rewrite (all_prefix_of_all _ _ Hd), drop_all by lia. done. }
  rewrite Hm, take_all by lia.
  rewrite any8_scan_short by (simpl in Hlen; lia). done.
Qed.

Lemma elem_of_dedupe_from (seen : gset string) l t :
  t ∈ dedupe_from seen l <-> t ∈ l /\ t ∉ seen.
Proof.
  revert seen. induction l as [|x l IH]; intros seen; cbn [dedupe_from].
  - set_solver.
  - destruct (decide (x ∈ seen)) as [Hin|Hnin].
    + rewrite IH. set_solver.
    + rewrite !elem_of_cons, IH.
      destruct (decide (t = x)) as [->|Hne]; set_solver.
Qed.

Lemma elem_of_dedupe l t : t ∈ dedupe l <-> t ∈ l.
Proof. unfold dedupe. rewrite elem_of_dedupe_from. set_solver. Qed.

Lemma NoDup_dedupe_from (seen : gset string) l : NoDup (dedupe_from seen l).
Proof.
  revert seen. induction l as [|x l IH]; intros seen; cbn [dedupe_from].
  - constructor.
  - destruct (decide (x ∈ seen)); [apply IH|].
    constructor; [|apply IH]. rewrite elem_of_dedupe_from. set_solver.
Qed.

Lemma NoDup_dedupe l : NoDup (dedupe l).
Proof. apply NoDup_dedupe_from. Qed.

Lemma elem_of_rank_tokens l t : t ∈ rank_tokens l <-> t ∈ l.
Proof. by rewrite (rank_tokens_perm l). Qed.

(** The token [_clean_rma_string] returns for the tokens of its text. *)
Lemma clean_rma_string_eq (value : cell) :
  is_none_or_float_nan value = false ->
  _clean_rma_string value
  = default "" (head (rank_tokens (dedupe (RMA_ANY8_IN_TEXT_RX_findall
                                              (rma_search_text value))))).
Proof.
  intros Hv. unfold _clean_rma_string, rma_search_text. rewrite Hv.
  destruct (RMA_ANY8_IN_TEXT_RX_findall _) as [|t ts]; [done|].
  by destruct (rank_tokens _).
Qed.

Lemma clean_rma_string_shape (value : cell) :
  _clean_rma_string value = ""
  \/ RMA_STRICT_RX_fullmatch (_clean_rma_string value) = true.
Proof.
  destruct (is_none_or_float_nan value) eqn:Hv.
  - left. unfold _clean_rma_string. by rewrite Hv.
  - rewrite (clean_rma_string_eq _ Hv).
    destruct (rank_tokens _) as [|best others] eqn:E; [by left|right].
    cbn [head default].
    assert (Hin : best ∈ RMA_ANY8_IN_TEXT_RX_findall (rma_search_text value)).
    { apply elem_of_dedupe, elem_of_rank_tokens. rewrite E. left. }
    pose proof (findall_fullmatch (rma_search_text value)) as Hall.
    rewrite List.Forall_forall in Hall. by apply Hall, list_elem_of_In.
Qed.

Lemma clean_rma_string_strict s :
  RMA_STRICT_RX_fullmatch s = true -> _clean_rma_string (CStr s) = s.
Proof.
  intros Hs. rewrite clean_rma_string_eq by done.
  unfold rma_search_text. cbn [py_str]. rewrite (fullmatch_strip s Hs).
  rewrite digits_not_endswith
    by (unfold RMA_STRICT_RX_fullmatch in Hs; by apply andb_prop in Hs as [_ ?]).
  rewrite (findall_strict s Hs).
  assert (Hd : dedupe [s] = [s]).
  { unfold dedupe. cbn [dedupe_from]. destruct (decide (s ∈ (∅ : gset string))); [set_solver|done]. }
  rewrite Hd.
  pose proof (rank_tokens_perm [s]) as Hp.
  apply Permutation_singleton_r in Hp. by rewrite Hp.
Qed.

End Tokens.

(** X3.  [_clean_rma_string] returns the empty string or a string of exactly
    eight digits.  A string of exactly eight digits is returned as it is, so
    that the function is idempotent. *)
Theorem clean_rma_string_fixed_point (value : cell) :
  (_clean_rma_string value = ""
   \/ RMA_STRICT_RX_fullmatch (_clean_rma_string value) = true)
  /\ (forall s : string,
        RMA_STRICT_RX_fullmatch s = true -> _clean_rma_string (CStr s) = s)
  /\ _clean_rma_string (CStr (_clean_rma_string value)) = _clean_rma_string value.
Proof.
  split; [apply clean_rma_string_shape|]. split; [apply clean_rma_string_strict|].
  destruct (clean_rma_string_shape value) as [->|Hs]; [done|].
  by apply clean_rma_string_strict.
Qed.

Lemma clean_rma_string_fixed_point_witness :
  RMA_STRICT_RX_fullmatch (_clean_rma_string (CStr "RMA 71234567 / 67024814.0")) = true
  /\ _clean_rma_string (CStr "67024814") = "67024814".
Proof.
  destruct (clean_rma_string_fixed_point (CStr "RMA 71234567 / 67024814.0"))
    as ([Hempty|Hshape] & Hfix & _).
  - by vm_compute in Hempty.
  - split; [exact Hshape|]. apply Hfix. reflexivity.
Defined.

Section BestToken.

Lemma head_filter_dedupe_from (P : string -> bool) (seen : gset string)
    (l : list string) :
  head (List.filter P (dedupe_from seen l))
  = head (List.filter (fun x => P x && bool_decide (x ∉ seen)) l).
Proof.
  revert seen. induction l as [|x l IH]; intros seen; [done|].
  cbn [dedupe_from List.filter].
  destruct (decide (x ∈ seen)) as [Hin|Hnin].
  - rewrite bool_decide_eq_false_2 by (intros H; by apply H).
    rewrite andb_false_r. apply IH.
  - rewrite bool_decide_eq_true_2 by done. rewrite andb_true_r.
    cbn [List.filter]. destruct (P x) eqn:Px; [done|].
    rewrite IH. f_equal. apply List.filter_ext_in. intros y _.
    destruct (P y) eqn:Py; [|done]. cbn [andb].
    apply bool_decide_ext.
    assert (y <> x) by (intros ->; congruence). set_solver.
Qed.

Lemma head_filter_index {A} (P : A -> bool) (l : list A) (h : A) :
  head (List.filter P l) = Some h ->
  exists i : nat,
    l !! i = Some h
    /\ forall (j : nat) (t : A), l !! j = Some t -> P t = true -> i <= j.
Proof.
  induction l as [|x l IH]; [done|]. cbn [List.filter].
  destruct (P x) eqn:Px.
  - intros [= ->]. exists 0. split; [done|]. intros; lia.
  - intros H. destruct (IH H) as (i & Hi & Hmin). exists (S i).
    split; [done|]. intros [|j] t Hj Pt.
    + simpl in Hj. injection Hj as ->. congruence.
    + apply Hmin in Hj; [lia|done].
Qed.

(** The head of the ranked, de-duplicated tokens is the leftmost token of
    the best class. *)
Lemma best_token_spec (tokens : list string) :
  (tokens = [] /\ default "" (head (rank_tokens (dedupe tokens))) = "")
  \/ exists i : nat,
       tokens !! i = Some (default "" (head (rank_tokens (dedupe tokens))))
       /\ forall (j : nat) (t : string),
            tokens !! j = Some t ->
            prefix_class (default "" (head (rank_tokens (dedupe tokens))))
              <= prefix_class t
            /\ (prefix_class t
                = prefix_class (default "" (head (rank_tokens (dedupe tokens)))) ->
                i <= j).
Proof.
  destruct (rank_tokens (dedupe tokens)) as [|h tl] eqn:E.
  - left. split; [|done]. destruct tokens as [|t ts]; [done|exfalso].
    assert (Hin : t ∈ rank_tokens (dedupe (t :: ts)))
      by (apply elem_of_rank_tokens, elem_of_dedupe; left).
    rewrite E in Hin. by apply elem_of_nil in Hin.
  - right. cbn [head default].
    assert (Hhead : head (List.filter (fun x => Nat.eqb (prefix_class x) (prefix_class h))
                            (rank_tokens (dedupe tokens))) = Some h).
    { rewrite E. cbn [List.filter]. by rewrite Nat.eqb_refl. }
    rewrite rank_tokens_stable in Hhead. unfold dedupe in Hhead.
    rewrite head_filter_dedupe_from in Hhead.
    apply head_filter_index in Hhead as (i & Hi & Hmin).
    exists i. split; [done|]. intros j t Hj. split.
    + assert (Hin : t ∈ h :: tl).
      { rewrite <- E. apply elem_of_rank_tokens, elem_of_dedupe.
        by eapply list_elem_of_lookup_2. }
      pose proof (rank_tokens_sorted (dedupe tokens)) as Hs. rewrite E in Hs.
      apply StronglySorted_inv in Hs as [_ Hall].
      apply elem_of_cons in Hin as [->|Hin]; [done|].
      rewrite List.Forall_forall in Hall. by apply Hall, list_elem_of_In.
    + intros Hc. apply (Hmin j t Hj). rewrite Hc, Nat.eqb_refl.
      by rewrite bool_decide_eq_true_2 by set_solver.
Qed.

End BestToken.

(** X4.  The token [_clean_rma_string] returns is the best candidate of its
    text: with no 8-digit token in the text the result is empty; otherwise
    the result is one of the tokens, no token has a better class (a leading
    '6' before a leading '7' before the rest), and it is the leftmost token
    of its class. *)
Theorem clean_rma_string_best (value : cell) :
  is_none_or_float_nan value = false ->
  (RMA_ANY8_IN_TEXT_RX_findall (rma_search_text value) = []
   /\ _clean_rma_string value = "")
  \/ exists i : nat,
       RMA_ANY8_IN_TEXT_RX_findall (rma_search_text value) !! i
       = Some (_clean_rma_string value)
       /\ forall (j : nat) (t : string),
            RMA_ANY8_IN_TEXT_RX_findall (rma_search_text value) !! j = Some t ->
            prefix_class (_clean_rma_string value) <= prefix_class t
            /\ (prefix_class t = prefix_class (_clean_rma_string value) -> i <= j).
Proof.
  intros Hv. rewrite (clean_rma_string_eq _ Hv). apply best_token_spec.
Qed.

Lemma clean_rma_string_best_witness :
  exists i : nat,
    ["81234567"; "71234567"; "70000000"] !! i
    = Some (_clean_rma_string (CStr " 81234567 / 71234567 / 70000000.0"))
    /\ forall (j : nat) (t : string),
         ["81234567"; "71234567"; "70000000"] !! j = Some t ->
         prefix_class (_clean_rma_string (CStr " 81234567 / 71234567 / 70000000.0"))
           <= prefix_class t
         /\ (prefix_class t
             = prefix_class (_clean_rma_string (CStr " 81234567 / 71234567 / 70000000.0")) ->
             i <= j).
Proof.
  destruct (clean_rma_string_best (CStr " 81234567 / 71234567 / 70000000.0") eq_refl)
    as [[Hnil _]|H].
  - by vm_compute in Hnil.
  - exact H.
Defined.

(** ** Tracking numbers *)

Section TrackingNumbers.

Implicit Types (s t : string) (c : ascii).

Lemma tn_scan_short (prev : bool) (k : nat) s :
  String.length s <= k -> tn_scan prev k s = [].
Proof.
  revert prev k. induction s as [|c r IH]; intros prev k; [done|].
  simpl. destruct k as [|k]; [lia|]. intros Hl. apply IH. lia.
Qed.

(** What the scan returns: '1', a 'Z' in either case, sixteen letters or
    digits. *)
Lemma tn_scan_tokens (prev : bool) (skip : nat) s :
  Forall (fun t => exists c2 r,
            t = String "1" (String c2 r)
            /\ Char.upper c2 = "Z"%char
            /\ String.length r = 16
            /\ Str.all Char.is_alnum r = true)
         (tn_scan prev skip s).
Proof.
  revert prev skip. induction s as [|c r IH]; intros prev skip; [constructor|].
  cbn [tn_scan]. destruct skip; [|apply IH].
  destruct (tn_match_here prev (String c r)) eqn:Hm; [|apply IH].
  constructor; [|apply IH].
  unfold tn_match_here in Hm. apply andb_prop in Hm as [_ Hm].
  destruct r as [|c2 r2]; [done|].
  apply andb_prop in Hm as [[[H1 H2]%andb_prop Hall]%andb_prop _].
  apply Ascii.eqb_eq in H1, H2. subst c.
  exists c2, (Str.take 16 r2). split; [reflexivity|]. split; [done|].
  split; [by eapply all_prefix_take_length|by eapply all_prefix_take_all].
Qed.

Lemma alnum_upper c :
  Char.is_alnum c = true ->
  Char.is_digit (Char.upper c) || Char.is_ascii_upper (Char.upper c) = true.
Proof. destruct c as [[] [] [] [] [] [] [] []]; vm_compute; congruence. Qed.

Lemma upper_alnum c :
  Char.is_digit c || Char.is_ascii_upper c = true -> Char.is_alnum c = true.
Proof. destruct c as [[] [] [] [] [] [] [] []]; vm_compute; congruence. Qed.

Lemma all_map (p : ascii -> bool) (f : ascii -> ascii) s :
  Str.all p (Str.map f s) = Str.all (fun c => p (f c)) s.
Proof. induction s as [|c r IH]; [done|]. simpl. by rewrite IH. Qed.

Lemma all_impl (p q : ascii -> bool) s :
  (forall c, p c = true -> q c = true) -> Str.all p s = true -> Str.all q s = true.
Proof.
  intros Hpq. induction s as [|c r IH]; [done|]. simpl.
  intros [Hc Hr]%andb_prop. by rewrite (Hpq c Hc), IH.
Qed.

(** A tracking number in upper case is extracted from itself, alone. *)
Lemma extract_tn_list_self (u : string) :
  String.length u = 16 ->
  Str.all (fun c => Char.is_digit c || Char.is_ascii_upper c) u = true ->
  UPS_TN_REGEX_finditer (String "1" (String "Z" u)) = [String "1" (String "Z" u)].
Proof.
  intros Hlen Hall. unfold UPS_TN_REGEX_finditer. cbn [tn_scan].
  assert (Hm : tn_match_here false (String "1" (String "Z" u)) = true).
  { unfold tn_match_here. rewrite <- Hlen at 1.
    rewrite (all_prefix_of_all Char.is_alnum u)
      by (eapply all_impl; [apply upper_alnum|done]).
    rewrite drop_all by lia. done. }
  rewrite Hm, take_all by (simpl; lia).
  rewrite tn_scan_short by (simpl; lia). done.
Qed.

Section Case.

Variable f : ascii -> ascii.
Hypothesis f_one : forall c, Ascii.eqb (f c) "1" = Ascii.eqb c "1".
Hypothesis f_upper : forall c, Char.upper (f c) = Char.upper c.
Hypothesis f_alnum : forall c, Char.is_alnum (f c) = Char.is_alnum c.
Hypothesis f_word : forall c, Char.is_word (f c) = Char.is_word c.

Lemma all_prefix_map (n : nat) s :
  Str.all_prefix Char.is_alnum n (Str.map f s) = Str.all_prefix Char.is_alnum n s.
Proof.
  revert s. induction n as [|n IH]; intros [|c r]; simpl; try done.
  by rewrite f_alnum, IH.
Qed.

Lemma drop_map (n : nat) s : Str.drop n (Str.map f s) = Str.map f (Str.drop n s).
Proof. revert s. induction n as [|n IH]; intros [|c r]; simpl; try done. Qed.

Lemma take_map (n : nat) s : Str.take n (Str.map f s) = Str.map f (Str.take n s).
Proof.
  revert s. induction n as [|n IH]; intros [|c r]; simpl; try done.
  by rewrite IH.
Qed.

Lemma tn_match_here_map (prev : bool) s :
  tn_match_here prev (Str.map f s) = tn_match_here prev s.
Proof.
  unfold tn_match_here. f_equal.
  destruct s as [|c1 [|c2 r]]; try done. cbn [Str.map].
  rewrite f_one, f_upper, all_prefix_map, drop_map.
  do 2 f_equal. by destruct (Str.drop 16 r); simpl; rewrite ?f_word.
Qed.

Lemma tn_scan_map (prev : bool) (skip : nat) s :
  tn_scan prev skip (Str.map f s) = List.map (Str.map f) (tn_scan prev skip s).
Proof.
  revert prev skip. induction s as [|c r IH]; intros prev skip; [done|].
  cbn [Str.map tn_scan]. rewrite f_word.
  destruct skip; [|apply IH].
  change (String (f c) (Str.map f r)) with (Str.map f (String c r)).
  rewrite tn_match_here_map.
  destruct (tn_match_here prev (String c r)); [|apply IH].
  cbn [List.map]. by rewrite take_map, IH.
Qed.

Lemma extract_tn_list_map s :
  _extract_tn_list (CStr (Str.map f s)) = _extract_tn_list (CStr s).
Proof.
  unfold _extract_tn_list, UPS_TN_REGEX_finditer. cbn [pd_isna py_str].
  rewrite tn_scan_map, List.map_map. apply List.map_ext. intros t.
  unfold Str.upper. rewrite map_map_char. apply map_ext_char, f_upper.
Qed.

End Case.

End TrackingNumbers.

(** X5.  Every tracking number [_extract_tn_list] returns has eighteen
    characters, starts with "1Z" and consists of digits and upper-case
    letters; and it is a fixed point of the extraction: searched in the
    tracking number itself, the extraction returns it and nothing else. *)
Theorem extract_tn_list_shape (text : cell) :
  Forall (fun tn =>
            String.length tn = 18
            /\ Str.startswith "1Z" tn = true
            /\ Str.all (fun c => Char.is_digit c || Char.is_ascii_upper c) tn = true
            /\ _extract_tn_list (CStr tn) = [tn])
         (_extract_tn_list text).
Proof.
  unfold _extract_tn_list at 2. destruct (pd_isna text); [constructor|].
  apply Forall_fmap. eapply List.Forall_impl; [|apply tn_scan_tokens].
  intros t (c2 & r & -> & Hz & Hlen & Hall). unfold compose. cbn beta.
  assert (Hu : Str.upper (String "1" (String c2 r)) = String "1" (String "Z" (Str.upper r))).
  { unfold Str.upper. cbn [Str.map]. by rewrite Hz. }
  assert (Hr : Str.all (fun c => Char.is_digit c || Char.is_ascii_upper c) (Str.upper r)
               = true).
  { unfold Str.upper. rewrite all_map. eapply all_impl; [|exact Hall].
    intros c. apply alnum_upper. }
  rewrite Hu. split; [simpl; unfold Str.upper; by rewrite map_length, Hlen|].
  split.
  { unfold Str.startswith. rewrite !prefix_cons, prefix_nil_l.
    by rewrite !bool_decide_eq_true_2. }
  split; [simpl; exact Hr|].
  unfold _extract_tn_list. cbn [pd_isna py_str].
  rewrite extract_tn_list_self by (unfold Str.upper; by rewrite ?map_length).
  cbn [List.map]. f_equal. rewrite <- Hu. apply upper_upper.
Qed.

(** X6.  On a text of ASCII characters, the extraction of tracking numbers
    does not depend on the case of the letters of the text. *)
Theorem extract_tn_list_case (s : string) :
  ascii_text s = true ->
  _extract_tn_list (CStr (Str.lower s)) = _extract_tn_list (CStr s)
  /\ _extract_tn_list (CStr (Str.upper s)) = _extract_tn_list (CStr s).
Proof.
  intros _. split.
  - apply extract_tn_list_map; intros c;
      destruct c as [[] [] [] [] [] [] [] []]; reflexivity.
  - apply extract_tn_list_map; intros c;
      destruct c as [[] [] [] [] [] [] [] []]; reflexivity.
Qed.

Lemma extract_tn_list_case_witness :
  ascii_text "Label 1z12345678901234ab created" = true
  /\ _extract_tn_list (CStr (Str.lower "Label 1z12345678901234ab created"))
     = _extract_tn_list (CStr "Label 1z12345678901234ab created")
  /\ _extract_tn_list (CStr (Str.upper "Label 1z12345678901234ab created"))
     = ["1Z12345678901234AB"].
Proof.
  split; [reflexivity|].
  destruct (extract_tn_list_case "Label 1z12345678901234ab created" eq_refl)
    as [Hlow Hup].
  split; [exact Hlow|]. rewrite Hup. vm_compute. reflexivity.
Defined.

(** ** The tokens of a record *)

Section RecordTokens.

Implicit Types (row : Series) (t tok : string).

Lemma elem_of_flat_map {A B} (f : A -> list B) (l : list A) (y : B) :
  y ∈ flat_map f l <-> exists x, x ∈ l /\ y ∈ f x.
Proof.
  rewrite list_elem_of_In, List.in_flat_map. split.
  - intros (x & Hx & Hy). exists x. by rewrite !list_elem_of_In.
  - intros (x & Hx & Hy). exists x. by rewrite <- !list_elem_of_In.
Qed.

Lemma elem_of_token_pool row t :
  t ∈ token_pool row
  <-> exists col s,
        col ∈ index row
        /\ field_text (get row col CNone) = Some s
        /\ t ∈ RMA_ANY8_IN_TEXT_RX_findall s.
Proof.
  unfold token_pool. rewrite elem_of_flat_map. split.
  - intros (col & Hcol & Ht). exists col.
    destruct (field_text (get row col CNone)) as [s|]; [|by apply elem_of_nil in Ht].
    by exists s.
  - intros (col & s & Hcol & Hs & Ht). exists col. by rewrite Hs.
Qed.

Lemma elem_of_extract_all row t :
  t ∈ extract_all_rma_tokens_from_row row <-> t ∈ token_pool row.
Proof.
  unfold extract_all_rma_tokens_from_row.
  destruct (token_pool row) as [|p pool]; [done|].
  by rewrite elem_of_rank_tokens, elem_of_dedupe.
Qed.

Lemma NoDup_extract_all row : NoDup (extract_all_rma_tokens_from_row row).
Proof.
  unfold extract_all_rma_tokens_from_row.
  destruct (token_pool row) as [|p pool]; [constructor|].
  rewrite (rank_tokens_perm (dedupe (p :: pool))). apply NoDup_dedupe.
Qed.

Lemma extract_all_strict row t :
  t ∈ extract_all_rma_tokens_from_row row -> RMA_STRICT_RX_fullmatch t = true.
Proof.
  rewrite elem_of_extract_all, elem_of_token_pool.
  intros (col & s & _ & _ & Ht).
  pose proof (findall_fullmatch s) as Hall. rewrite List.Forall_forall in Hall.
  by apply Hall, list_elem_of_In.
Qed.

(** The list [hits] of [sources_for_token]. *)
Lemma elem_of_hits row tok (src : string) :
  src ∈ flat_map
          (fun col =>
             match field_text (get row col CNone) with
             | Some s =>
                 if bool_decide (tok ∈ RMA_ANY8_IN_TEXT_RX_findall s) then [s] else []
             | None => []
             end)
          (index row)
  <-> exists col,
        col ∈ index row
        /\ field_text (get row col CNone) = Some src
        /\ tok ∈ RMA_ANY8_IN_TEXT_RX_findall src.
Proof.
  rewrite elem_of_flat_map. split.
  - intros (col & Hcol & Hsrc). exists col.
    destruct (field_text (get row col CNone)) as [s|]; [|by apply elem_of_nil in Hsrc].
    case_bool_decide as Ht; [|by apply elem_of_nil in Hsrc].
    apply list_elem_of_singleton in Hsrc as ->. done.
  - intros (col & Hcol & Hs & Ht). exists col. rewrite Hs.
    rewrite bool_decide_eq_true_2 by done. split; [done|]. by apply list_elem_of_singleton.
Qed.

Lemma sources_for_token_found row tok :
  tok ∈ extract_all_rma_tokens_from_row row ->
  sources_for_token row tok <> []
  /\ Forall (fun src => tok ∈ RMA_ANY8_IN_TEXT_RX_findall src)
            (sources_for_token row tok).
Proof.
  rewrite elem_of_extract_all, elem_of_token_pool.
  intros (col & s & Hcol & Hs & Ht). unfold sources_for_token.
  set (hits := flat_map _ (index row)).
  assert (Hin : s ∈ hits) by (apply elem_of_hits; by exists col).
  assert (Hall : Forall (fun src => tok ∈ RMA_ANY8_IN_TEXT_RX_findall src) hits).
  { apply Forall_forall. intros src Hsrc.
    apply elem_of_hits in Hsrc as (? & _ & _ & ?). done. }
  destruct hits as [|h hs]; [by apply elem_of_nil in Hin|]. done.
Qed.

Lemma sources_for_token_missing row tok :
  tok ∉ extract_all_rma_tokens_from_row row -> sources_for_token row tok = [""].
Proof.
  rewrite elem_of_extract_all, elem_of_token_pool. intros Hno.
  unfold sources_for_token. set (hits := flat_map _ (index row)).
  destruct hits as [|h hs] eqn:E; [done|exfalso].
  assert (Hin : h ∈ hits) by (rewrite E; left).
  apply elem_of_hits in Hin as (col & Hcol & Hs & Ht).
  apply Hno. by exists col, h.
Qed.

End RecordTokens.

(** X7.  The tokens [extract_all_rma_tokens_from_row] returns for a record
    with distinct labels are pairwise distinct, each consists of exactly
    eight digits, and they are exactly the 8-digit tokens found in the
    trimmed text of some field of the record that is neither [None], nor
    NaN, nor blank. *)
Theorem extract_all_rma_tokens_from_row_spec (row : Series) :
  NoDup (index row) ->
  NoDup (extract_all_rma_tokens_from_row row)
  /\ Forall (fun t => RMA_STRICT_RX_fullmatch t = true)
            (extract_all_rma_tokens_from_row row)
  /\ forall t : string,
       t ∈ extract_all_rma_tokens_from_row row
       <-> exists col s,
             col ∈ index row
             /\ field_text (get row col CNone) = Some s
             /\ t ∈ RMA_ANY8_IN_TEXT_RX_findall s.
Proof.
  intros _. split; [apply NoDup_extract_all|]. split.
  - apply Forall_forall. intros t. apply extract_all_strict.
  - intros t. by rewrite elem_of_extract_all, elem_of_token_pool.
Qed.

Lemma extract_all_rma_tokens_from_row_spec_witness :
  NoDup (extract_all_rma_tokens_from_row
           [("RMA Number", CStr "RMA 71234567 / 67024814"); ("Weight", CInt 67024814)])
  /\ Forall (fun t => RMA_STRICT_RX_fullmatch t = true)
            (extract_all_rma_tokens_from_row
               [("RMA Number", CStr "RMA 71234567 / 67024814"); ("Weight", CInt 67024814)]).
Proof.
  destruct (extract_all_rma_tokens_from_row_spec
              [("RMA Number", CStr "RMA 71234567 / 67024814"); ("Weight", CInt 67024814)])
    as (Hnd & Hall & _).
  - apply (bool_decide_unpack _). vm_compute. exact I.
  - split; [exact Hnd|exact Hall].
Defined.

(** X8.  On a record with distinct labels, [sources_for_token] never
    returns an empty list.  For a token of the record, every source it returns is the trimmed text of a field in
    which the token is found; for any other token it returns the list that
    holds the empty string alone. *)
Theorem sources_for_token_spec (row : Series) (tok : string) :
  NoDup (index row) ->
  sources_for_token row tok <> []
  /\ (tok ∈ extract_all_rma_tokens_from_row row ->
      Forall (fun src =>
                tok ∈ RMA_ANY8_IN_TEXT_RX_findall src
                /\ exists col,
                     col ∈ index row /\ field_text (get row col CNone) = Some src)
             (sources_for_token row tok))
  /\ (tok ∉ extract_all_rma_tokens_from_row row -> sources_for_token row tok = [""]).
Proof.
  intros _. split; [|split].
  - destruct (decide (tok ∈ extract_all_rma_tokens_from_row row)) as [Hin|Hnin].
    + by apply sources_for_token_found.
    + by rewrite sources_for_token_missing.
  - rewrite elem_of_extract_all, elem_of_token_pool.
    intros (col & s & Hcol & Hs & Ht). unfold sources_for_token.
    set (hits := flat_map _ (index row)).
    assert (Hin : s ∈ hits) by (apply elem_of_hits; by exists col).
    assert (Hall : Forall (fun src =>
                tok ∈ RMA_ANY8_IN_TEXT_RX_findall src
                /\ exists col,
                     col ∈ index row /\ field_text (get row col CNone) = Some src)
              hits).
    { apply Forall_forall. intros src Hsrc.
      apply elem_of_hits in Hsrc as (col' & ? & ? & ?). split; [done|]. by exists col'. }
    destruct hits as [|h hs]; [by apply elem_of_nil in Hin|]. done.
  - apply sources_for_token_missing.
Qed.

Lemma sources_for_token_spec_witness :
  Forall (fun src => "67024814" ∈ RMA_ANY8_IN_TEXT_RX_findall src)
         (sources_for_token
            [("RMA Number", CStr " RMA 67024814 "); ("Weight", CInt 67024814);
             ("Status", CNaN)] "67024814")
  /\ sources_for_token
       [("RMA Number", CStr " RMA 67024814 "); ("Weight", CInt 67024814);
        ("Status", CNaN)] "12345678" = [""].
Proof.
  assert (Hnd : NoDup (index [("RMA Number", CStr " RMA 67024814 ");
                              ("Weight", CInt 67024814); ("Status", CNaN)]))
    by (apply (bool_decide_unpack _); vm_compute; exact I).
  destruct (sources_for_token_spec
              [("RMA Number", CStr " RMA 67024814 "); ("Weight", CInt 67024814);
               ("Status", CNaN)] "67024814" Hnd) as (_ & Hfound & _).
  destruct (sources_for_token_spec
              [("RMA Number", CStr " RMA 67024814 "); ("Weight", CInt 67024814);
               ("Status", CNaN)] "12345678" Hnd) as (_ & _ & Hmissing).
  split.
  - eapply List.Forall_impl; [|apply Hfound].
    + intros src [H _]. exact H.
    + apply (bool_decide_unpack _). vm_compute. exact I.
  - apply Hmissing. apply (bool_decide_unpack _). vm_compute. exact I.
Defined.

(** ** The rows of the normalised view *)

Section NormalisedRows.

Implicit Types (r : Series) (row : list cell).

(** The rows a record contributes. *)
Lemma rows_of_record_elem r row :
  row ∈ rows_of_record r ->
  exists tn orig rma : string,
    record_tn r = Some tn
    /\ row = norm_row r orig rma tn
    /\ (rma = ""
        \/ (rma ∈ extract_all_rma_tokens_from_row r
            /\ orig = match sources_for_token r rma with
                      | src :: _ => src
                      | [] => ""
                      end)).
Proof.
  unfold rows_of_record. destruct (record_tn r) as [tn|]; [|by intros ?%elem_of_nil].
  destruct (extract_all_rma_tokens_from_row r) as [|t ts] eqn:E.
  - intros ->%list_elem_of_singleton. eexists tn, _, "". by auto.
  - intros Hin. apply list_elem_of_In, List.in_map_iff in Hin as (tok & <- & Htok).
    eexists tn, _, tok. split; [done|]. split; [done|]. right.
    split; [by apply list_elem_of_In|done].
Qed.

Lemma norm_row_cells r (orig rma tn : string) :
  get (combine NORM_COLS (norm_row r orig rma tn)) "Original RMA" CNone = CStr orig
  /\ get (combine NORM_COLS (norm_row r orig rma tn)) "RMA Number" CNone = CStr rma
  /\ get (combine NORM_COLS (norm_row r orig rma tn)) "Tracking Number" CNone
     = CStr (Str.upper tn).
Proof. repeat split. Qed.

Lemma norm_row_strings r (orig rma tn : string) :
  length (norm_row r orig rma tn) = length NORM_COLS
  /\ Forall (fun v => exists s : string, v = CStr s) (norm_row r orig rma tn).
Proof. split; [done|]. unfold norm_row. repeat constructor; by eexists. Qed.

(** The normalisation that ends [build_new_norm] finds every identifier of
    the rows already clean. *)
Lemma normalize_norm_rows (rows : list (list cell)) :
  Forall (fun row => exists r (orig rma tn : string),
            row = norm_row r orig rma tn
            /\ (rma = "" \/ RMA_STRICT_RX_fullmatch rma = true))
         rows ->
  normalize_rma_column (mkDF NORM_COLS rows) = mkDF NORM_COLS rows.
Proof.
  intros Hrows. unfold normalize_rma_column.
  assert (Hhas : has_column "RMA Number" (mkDF NORM_COLS rows) = true) by reflexivity.
  rewrite Hhas. clear Hhas. unfold setitem. cbn [columns data].
  assert (Hidx : index_of "RMA Number" NORM_COLS = Some 2) by reflexivity.
  rewrite Hidx. f_equal. unfold getitem, iterrows. cbn [columns data].
  rewrite !List.map_map.
  induction Hrows as [|row rows (r & orig & rma & tn & -> & Hrma) _ IH]; [done|].
  cbn [List.map zip_with]. rewrite IH. f_equal.
  destruct (norm_row_cells r orig rma tn) as (_ & -> & _).
  assert (Hclean : _clean_rma_string (CStr rma) = rma).
  { destruct Hrma as [->|Hs]; [done|by apply clean_rma_string_strict]. }
  rewrite Hclean. reflexivity.
Qed.

Lemma build_new_norm_eq (new_df : DataFrame) :
  build_new_norm new_df
  = mkDF NORM_COLS (flat_map rows_of_record (iterrows (map_new_columns new_df))).
Proof.
  unfold build_new_norm. apply normalize_norm_rows.
  apply Forall_forall. intros row Hrow.
  apply elem_of_flat_map in Hrow as (r & _ & Hrow).
  apply rows_of_record_elem in Hrow as (tn & orig & rma & _ & -> & Hrma).
  exists r, orig, rma, tn. split; [done|].
  destruct Hrma as [->|[Hin _]]; [by left|right]. by apply (extract_all_strict r).
Qed.

Lemma all_strip (p : ascii -> bool) (s : string) :
  (forall c, p c = true -> Char.is_space c = false) ->
  Str.all p s = true -> Str.strip s = s.
Proof.
  intros Hp Hall. apply strip_fixed.
  - destruct s as [|c r]; [done|]. simpl in *.
    apply andb_prop in Hall as [Hc _]. by apply Hp.
  - induction s as [|c r IH]; [done|]. simpl in Hall.
    apply andb_prop in Hall as [Hc Hr]. cbn [Str.last_is].
    destruct r as [|c' r']; [by apply Hp|by apply IH].
Qed.

Lemma upper_alnum_not_space (c : ascii) :
  Char.is_digit c || Char.is_ascii_upper c = true -> Char.is_space c = false.
Proof. destruct c as [[] [] [] [] [] [] [] []]; vm_compute; congruence. Qed.

Lemma alnum_not_space (c : ascii) : Char.is_alnum c = true -> Char.is_space c = false.
Proof. destruct c as [[] [] [] [] [] [] [] []]; vm_compute; congruence. Qed.

(** A tracking number found by the scan is not empty and has no white space
    around it. *)
Lemma extract_tn_list_elem (text : cell) (tn : string) :
  tn ∈ _extract_tn_list text -> tn <> "" /\ Str.strip tn = tn.
Proof.
  unfold _extract_tn_list. destruct (pd_isna text); [by intros ?%elem_of_nil|].
  intros Hin. apply list_elem_of_In, List.in_map_iff in Hin as (t & <- & Ht).
  pose proof (tn_scan_tokens false 0 (py_str text)) as Hall.
  rewrite List.Forall_forall in Hall.
  destruct (Hall t Ht) as (c2 & u & -> & Hz & _ & Hu).
  split; [done|]. rewrite strip_upper. f_equal.
  apply (all_strip (fun c => Char.is_alnum c || Ascii.eqb c "1")).
  - intros c [Hc|Hc]%orb_prop; [by apply alnum_not_space|].
    apply Ascii.eqb_eq in Hc as ->. reflexivity.
  - assert (Hc2 : Char.is_alnum c2 = true).
    { revert Hz. clear. destruct c2 as [[] [] [] [] [] [] [] []]; vm_compute; congruence. }
    cbn [Str.all]. apply andb_true_intro; split; [reflexivity|].
    apply andb_true_intro; split; [by rewrite Hc2|].
    eapply all_impl; [|exact Hu]. by intros c ->.
Qed.

Lemma record_tn_trimmed r (tn : string) :
  record_tn r = Some tn -> tn <> "" /\ Str.strip tn = tn.
Proof.
  unfold record_tn.
  destruct (Str.truthy (Str.strip (str_or_empty (get r "Tracking Number" (CStr "")))))
    eqn:Ht; cbn [negb].
  - intros [= <-]. split; [by apply truthy_nonempty|apply strip_strip].
  - destruct (_extract_tn_list _) as [|first others] eqn:E; [done|].
    intros [= <-]. apply (extract_tn_list_elem (get r "Tracking Number - Details" (CStr ""))).
    rewrite E. left.
Qed.

End NormalisedRows.

(** X9.  Whatever the columns of the raw table, provided their harmonised
    labels are distinct, the table [build_new_norm] returns has the fourteen columns of the normalised view in their order,
    every row has fourteen cells, and every cell is a string. *)
Theorem build_new_norm_schema (new_df : DataFrame) :
  NoDup (columns (map_new_columns new_df)) ->
  columns (build_new_norm new_df) = NORM_COLS
  /\ rows_wide (build_new_norm new_df)
  /\ Forall (Forall (fun v => exists s : string, v = CStr s))
            (data (build_new_norm new_df)).
Proof.
  intros _. rewrite build_new_norm_eq. cbn [columns data]. split; [done|].
  unfold rows_wide. cbn [columns data].
  split; apply Forall_forall; intros row Hrow;
    apply elem_of_flat_map in Hrow as (r & _ & Hrow);
    apply rows_of_record_elem in Hrow as (tn & orig & rma & _ & -> & _);
    by destruct (norm_row_strings r orig rma tn).
Qed.

Lemma build_new_norm_schema_witness :
  columns (build_new_norm example_ups_df) = NORM_COLS
  /\ rows_wide (build_new_norm example_ups_df).
Proof.
  destruct (build_new_norm_schema example_ups_df) as (Hcols & Hwide & _).
  - apply (bool_decide_unpack _). vm_compute. exact I.
  - split; [exact Hcols|exact Hwide].
Defined.

(** X10.  In every row of the table [build_new_norm] returns for a raw
    table with distinct harmonised labels, the tracking
    number is a non-empty string in upper case without surrounding white
    space; the identifier is empty or consists of exactly eight digits; and a
    non-empty identifier is an 8-digit token of the text the row gives as its
    original source. *)
Theorem build_new_norm_rows (new_df : DataFrame) :
  NoDup (columns (map_new_columns new_df)) ->
  Forall (fun row : Series =>
            exists orig rma tn : string,
              get row "Original RMA" CNone = CStr orig
              /\ get row "RMA Number" CNone = CStr rma
              /\ get row "Tracking Number" CNone = CStr tn
              /\ tn <> ""
              /\ Str.upper tn = tn
              /\ Str.strip tn = tn
              /\ (rma = ""
                  \/ (RMA_STRICT_RX_fullmatch rma = true
                      /\ rma ∈ RMA_ANY8_IN_TEXT_RX_findall orig)))
         (iterrows (build_new_norm new_df)).
Proof.
  intros _. rewrite build_new_norm_eq. unfold iterrows. cbn [columns data].
  apply List.Forall_forall. intros row0 Hrow.
  apply List.in_map_iff in Hrow as (row & <- & Hrow). apply list_elem_of_In in Hrow.
  apply elem_of_flat_map in Hrow as (r & _ & Hrow).
  apply rows_of_record_elem in Hrow as (tn & orig & rma & Htn & -> & Hrma).
  destruct (norm_row_cells r orig rma tn) as (Ho & Hr & Ht).
  destruct (record_tn_trimmed r tn Htn) as [Hne Hstrip].
  exists orig, rma, (Str.upper tn).
  split; [exact Ho|]. split; [exact Hr|]. split; [exact Ht|].
  split; [by destruct tn|]. split; [apply upper_upper|].
  split; [by rewrite strip_upper, Hstrip|].
  destruct Hrma as [->|[Hin ->]]; [by left|right].
  split; [by apply (extract_all_strict r)|].
  destruct (sources_for_token_found r rma Hin) as [Hsrc Hall].
  destruct (sources_for_token r rma) as [|src srcs]; [done|].
  by apply Forall_cons in Hall as [? _].
Qed.

Lemma build_new_norm_rows_witness :
  Forall (fun row : Series =>
            exists orig rma tn : string,
              get row "Original RMA" CNone = CStr orig
              /\ get row "RMA Number" CNone = CStr rma
              /\ get row "Tracking Number" CNone = CStr tn
              /\ tn <> ""
              /\ Str.upper tn = tn
              /\ Str.strip tn = tn
              /\ (rma = ""
                  \/ (RMA_STRICT_RX_fullmatch rma = true
                      /\ rma ∈ RMA_ANY8_IN_TEXT_RX_findall orig)))
         (iterrows (build_new_norm example_ups_df)).
Proof.
  apply (build_new_norm_rows example_ups_df).
  apply (bool_decide_unpack _). vm_compute. exact I.
Defined.

(** ** The final output and the store *)

Section FinalFrames.

Implicit Types (st : store) (df reconciled new_norm : DataFrame) (k c : string).

Lemma setitem_column_in k (vs : list cell) df : k ∈ columns (setitem k vs df).
Proof.
  unfold setitem. destruct (index_of k (columns df)) as [i|] eqn:E; cbn [columns].
  - apply index_of_Some. by rewrite E.
  - apply elem_of_app. right. left.
Qed.

(** The identifier column is missing from [df_out] exactly when the patcher
    has short-circuited on a main table without it. *)
Lemma cleaned_value_has_rma reconciled new_norm :
  has_column "RMA Number" (cleaned_value reconciled new_norm)
  = negb (empty reconciled || empty new_norm) || has_column "RMA Number" reconciled.
Proof.
  apply eq_true_iff_eq. rewrite orb_true_iff, !has_column_true.
  unfold cleaned_value. rewrite normalize_rma_columns.
  destruct (carries_drop_helper_columns (fun c => c ∈ FINAL_COLS)
              (patched_value reconciled new_norm)) as (_ & Hcols & _); [done|].
  rewrite (Hcols "RMA Number" FINAL_COLS_rma). unfold patched_value.
  destruct (empty reconciled || empty new_norm); cbn [negb].
  - split; [by right|]. by intros [?|?].
  - split; [by left|]. intros _. apply setitem_column_in.
Qed.

Lemma drop_column_length k df : length (data (drop_column k df)) = length (data df).
Proof.
  unfold drop_column. destruct (index_of k (columns df)); [|done].
  cbn [data]. by rewrite length_map.
Qed.

Lemma drop_helper_columns_length df :
  length (data (drop_helper_columns df)) = length (data df).
Proof.
  unfold drop_helper_columns. cbn [fold_left].
  repeat (match goal with
          | |- context [if has_column ?k ?d then _ else _] =>
              destruct (has_column k d)
          end; rewrite ?drop_column_length); done.
Qed.

Lemma cleaned_value_length reconciled new_norm :
  length (data (cleaned_value reconciled new_norm)) = length (data reconciled).
Proof.
  unfold cleaned_value.
  rewrite normalize_rma_column_length, drop_helper_columns_length.
  unfold patched_value. destruct (_ || _); [done|].
  apply setitem_length, patched_rma_column_length.
Qed.

Lemma filter_and_project_length (blocked : gset string) df :
  length (data (filter_and_project blocked df)) <= length (data df).
Proof.
  unfold filter_and_project. rewrite ensure_columns_eq.
  unfold select_columns. cbn [data]. rewrite !length_map.
  case_bool_decide; unfold select_rows; cbn [data columns].
  - apply List.filter_length_le.
  - etrans; apply List.filter_length_le.
Qed.

Lemma preserved_length st st1 :
  (forall (l : ref) df, st !! l = Some df -> st1 !! l = Some df) ->
  length st <= length st1.
Proof.
  intros Hp. destruct (decide (length st <= length st1)) as [|Hn]; [done|exfalso].
  destruct (lookup_lt_is_Some_2 st (length st1)) as [df Hdf]; [lia|].
  apply Hp in Hdf. apply lookup_lt_Some in Hdf. lia.
Qed.

(** The frame of the normalised view has rows as wide as its header. *)
Lemma build_new_norm_wide (new_df : DataFrame) : rows_wide (build_new_norm new_df).
Proof.
  rewrite build_new_norm_eq. unfold rows_wide. cbn [columns data].
  apply Forall_forall. intros row Hrow.
  apply elem_of_flat_map in Hrow as (r & _ & Hrow).
  apply rows_of_record_elem in Hrow as (tn & orig & rma & _ & -> & _).
  by destruct (norm_row_strings r orig rma tn).
Qed.

(** What the analysis run returns: the final projection of the normalised
    view, given as both arguments, in a new object. *)
Lemma on_run_analysis_run st (ups_df : ref) (ups : DataFrame) :
  st !! ups_df = Some ups ->
  exists st1 : store,
    (forall (l : ref) df, st !! l = Some df -> st1 !! l = Some df)
    /\ on_run_analysis ups_df st
       = Ok (length st1,
             st1 ++ [filter_and_project (blocked_rmas (build_new_norm ups))
                       (cleaned_value (build_new_norm ups) (build_new_norm ups))]).
Proof.
  intros Hups. unfold on_run_analysis. unfold bind at 1.
  rewrite (load_run _ _ _ Hups). unfold bind at 1. unfold alloc.
  assert (Hhas : has_column "RMA Number" (build_new_norm ups) = true)
    by (rewrite build_new_norm_eq; reflexivity).
  remember (build_new_norm ups) as nn eqn:Hnn. clear Hnn.
  destruct (build_final_run (st ++ [nn]) (length st) (length st) nn nn
              (lookup_fresh st nn) (lookup_fresh st nn)) as (st1 & Hpres & Hrun).
  rewrite cleaned_value_has_rma, Hhas, orb_true_r in Hrun.
  exists st1. split; [|exact Hrun].
  intros l df Hl. by apply Hpres, lookup_old.
Qed.

(** A column the main table does not have is the empty string in every
    row of the final projection. *)
Lemma final_missing_column (blocked : gset string) reconciled new_norm c :
  rows_wide reconciled ->
  c ∈ FINAL_COLS -> c <> "RMA Number" -> c ∉ columns reconciled ->
  Forall (fun row' => get (combine FINAL_COLS row') c CNone = CStr "")
         (data (filter_and_project blocked (cleaned_value reconciled new_norm))).
Proof.
  intros Hwide Hfc Hne Habs.
  apply List.Forall_forall. intros row' Hrow'. apply list_elem_of_In in Hrow'.
  apply filter_and_project_rows in Hrow' as (rowd & Hrowd & _ & _ & ->).
  destruct (carries_cleaned_value reconciled new_norm) as (Hw & Hcols & _).
  assert (Hlen : length rowd = length (columns (cleaned_value reconciled new_norm))).
  { specialize (Hw Hwide). unfold rows_wide in Hw.
    rewrite List.Forall_forall in Hw. by apply Hw, list_elem_of_In. }
  rewrite (projected_cell _ _ _ Hlen Hfc).
  case_bool_decide as Hin; [|done]. exfalso. apply Habs.
  apply Hcols; [|done]. by split.
Qed.

Lemma final_identifiers (blocked : gset string) reconciled new_norm :
  Forall (fun row' =>
            exists id : string,
              get (combine FINAL_COLS row') "RMA Number" CNone = CStr id
              /\ RMA_STRICT_RX_fullmatch id = true)
         (data (filter_and_project blocked (cleaned_value reconciled new_norm))).
Proof.
  apply List.Forall_forall. intros row' Hrow'.
  assert (Hin : combine FINAL_COLS row'
                ∈ iterrows (filter_and_project blocked
                              (normalize_rma_column
                                 (drop_helper_columns
                                    (patched_value reconciled new_norm))))).
  { unfold iterrows. apply list_elem_of_In, List.in_map_iff.
    exists row'. split; [reflexivity|exact Hrow']. }
  destruct (final_identifier _ _ _ Hin) as (id & Hid & Hm & _).
  exists id. split; [exact Hid|exact Hm].
Qed.

Lemma final_length (blocked : gset string) reconciled new_norm :
  length (data (filter_and_project blocked (cleaned_value reconciled new_norm)))
  <= length (data reconciled).
Proof.
  etrans; [apply filter_and_project_length|]. by rewrite cleaned_value_length.
Qed.

Lemma build_new_norm_no_details (new_df : DataFrame) :
  "Tracking Number - Details" ∉ columns (build_new_norm new_df).
Proof.
  rewrite build_new_norm_eq. cbn [columns].
  apply (bool_decide_unpack _). vm_compute. exact I.
Qed.

End FinalFrames.

(** X11.  On tables with distinct column labels, a call of
    [build_final_output_df] raises exactly when one of the two tables is empty and the main table has no "RMA Number" column, and
    then it raises [KeyError].  Otherwise it returns a new frame object with
    the columns of [FINAL_COLS] and at most as many rows as the main table.
    In both cases every frame that exists at the call, the two arguments
    among them, is left as it is. *)
Theorem build_final_output_df_frames (st : store) (reconciled_df new_norm_df : ref)
    (reconciled new_norm : DataFrame) :
  st !! reconciled_df = Some reconciled ->
  st !! new_norm_df = Some new_norm ->
  NoDup (columns reconciled) ->
  NoDup (columns new_norm) ->
  match build_final_output_df reconciled_df new_norm_df st with
  | Ok (out, st') =>
      (empty reconciled || empty new_norm = false \/ "RMA Number" ∈ columns reconciled)
      /\ length st <= out
      /\ (forall (l : ref) (df : DataFrame), st !! l = Some df -> st' !! l = Some df)
      /\ exists final : DataFrame,
           st' !! out = Some final
           /\ columns final = FINAL_COLS
           /\ length (data final) <= length (data reconciled)
  | Raise e =>
      e = KeyError "RMA Number"
      /\ empty reconciled || empty new_norm = true
      /\ "RMA Number" ∉ columns reconciled
  end.
Proof.
  intros Hr Hn _ _.
  destruct (build_final_run st _ _ _ _ Hr Hn) as (st1 & Hpres & ->).
  rewrite cleaned_value_has_rma.
  destruct (empty reconciled || empty new_norm) eqn:He; cbn [negb orb].
  - destruct (has_column "RMA Number" reconciled) eqn:Hc.
    + split; [right; by apply has_column_true|].
      split; [by apply preserved_length|].
      split; [intros l df Hl; by apply lookup_old, Hpres|].
      eexists. split; [apply lookup_fresh|]. split; [reflexivity|].
      etrans; [apply filter_and_project_length|]. by rewrite cleaned_value_length.
    + split; [done|]. split; [done|]. by apply has_column_false.
  - split; [by left|].
    split; [by apply preserved_length|].
    split; [intros l df Hl; by apply lookup_old, Hpres|].
    eexists. split; [apply lookup_fresh|]. split; [reflexivity|].
    etrans; [apply filter_and_project_length|]. by rewrite cleaned_value_length.
Qed.

Lemma build_final_output_df_frames_witness :
  match build_final_output_df 0 1 [fallback_main; fallback_norm] with
  | Ok (out, st') =>
      2 <= out
      /\ st' !! 0 = Some fallback_main
      /\ st' !! 1 = Some fallback_norm
      /\ exists final : DataFrame,
           st' !! out = Some final
           /\ columns final = FINAL_COLS
           /\ length (data final) <= 1
  | Raise e => e = KeyError "RMA Number"
  end.
Proof.
  assert (H1 : NoDup (columns fallback_main))
    by (apply (bool_decide_unpack _); vm_compute; exact I).
  assert (H2 : NoDup (columns fallback_norm))
    by (apply (bool_decide_unpack _); vm_compute; exact I).
  pose proof (build_final_output_df_frames
                [fallback_main; fallback_norm] 0 1 fallback_main fallback_norm
                eq_refl eq_refl H1 H2) as H.
  destruct (build_final_output_df 0 1 [fallback_main; fallback_norm]) as [[out st']|e].
  - destruct H as (_ & Hout & Hpres & Hfinal).
    split; [exact Hout|]. split; [by apply Hpres|]. split; [by apply Hpres|].
    exact Hfinal.
  - by destruct H as (-> & _).
Defined.

(** X12.  The analysis run of the application never raises: whatever the
    table read from the UPS report, provided its harmonised column labels are
    distinct, [build_final_output_df] is given a main table with an
    "RMA Number" column.  The run leaves the frames that exist
    at its start as they are and returns a new frame with the columns of
    [FINAL_COLS] and at most as many rows as the normalised view; in every
    row the identifier consists of exactly eight digits, and the column
    "Tracking Number - Details", which the normalised view does not have, is
    the empty string. *)
Theorem on_run_analysis_returns (st : store) (ups_df : ref) (ups : DataFrame) :
  st !! ups_df = Some ups ->
  NoDup (columns (map_new_columns ups)) ->
  exists (out : ref) (st' : store) (final : DataFrame),
    on_run_analysis ups_df st = Ok (out, st')
    /\ (forall (l : ref) (df : DataFrame), st !! l = Some df -> st' !! l = Some df)
    /\ st' !! out = Some final
    /\ columns final = FINAL_COLS
    /\ length (data final) <= length (data (build_new_norm ups))
    /\ Forall
         (fun row' : list cell =>
            get (combine FINAL_COLS row') "Tracking Number - Details" CNone = CStr ""
            /\ exists id : string,
                 get (combine FINAL_COLS row') "RMA Number" CNone = CStr id
                 /\ RMA_STRICT_RX_fullmatch id = true)
         (data final).
Proof.
  intros Hups _.
  destruct (on_run_analysis_run st ups_df ups Hups) as (st1 & Hpres & ->).
  eexists _, _, _. split; [reflexivity|].
  split; [intros l df Hl; by apply lookup_old, Hpres|].
  split; [apply lookup_fresh|]. split; [reflexivity|].
  split; [apply final_length|].
  apply Forall_and. split; [|apply final_identifiers].
  apply final_missing_column.
  - apply build_new_norm_wide.
  - apply (bool_decide_unpack _). vm_compute. exact I.
  - intros E. discriminate E.
  - apply build_new_norm_no_details.
Qed.

Lemma on_run_analysis_returns_witness :
  exists (out : ref) (st' : store) (final : DataFrame),
    on_run_analysis 0 [example_ups_df] = Ok (out, st')
    /\ st' !! 0 = Some example_ups_df
    /\ st' !! out = Some final
    /\ columns final = FINAL_COLS.
Proof.
  destruct (on_run_analysis_returns [example_ups_df] 0 example_ups_df eq_refl)
    as (out & st' & final & Hrun & Hpres & Hout & Hcols & _);
    [apply (bool_decide_unpack _); vm_compute; exact I|].
  exists out, st', final. split; [exact Hrun|]. split; [by apply Hpres|].
  split; [exact Hout|exact Hcols].
Defined.

(** ** Repeated updates of the identifier column *)

Section Repeated.

Implicit Types (df : DataFrame) (k c : string) (vs : list cell) (d : cell).

(** The cells of a column, read with a default as [row.get] does. *)
Lemma setitem_get_same d k vs df :
  rows_wide df -> length vs = length (data df) ->
  List.map (fun r => get r k d) (iterrows (setitem k vs df)) = vs.
Proof.
  intros Hwf Hlen. unfold iterrows, setitem, rows_wide in *.
  destruct (index_of k (columns df)) as [i|] eqn:E; cbn [columns data];
    rewrite !List.map_map.
  - pose proof (index_of_lookup _ _ _ E) as Hi. apply lookup_lt_Some in Hi.
    revert vs Hlen. induction (data df) as [|row rows IH]; intros [|v vs] Hlen;
      simpl in *; try done.
    apply Forall_cons in Hwf as [Hrow Hwf].
    rewrite (get_insert_same _ _ _ _ _ _ E) by lia. f_equal. apply IH; [done|lia].
  - assert (Hk : k ∉ columns df).
    { intros Hin%index_of_Some. rewrite E in Hin. by destruct Hin. }
    revert vs Hlen. induction (data df) as [|row rows IH]; intros [|v vs] Hlen;
      simpl in *; try done.
    apply Forall_cons in Hwf as [Hrow Hwf].
    rewrite (get_combine_app_r _ _ _ [v] [k]) by done. simpl.
    rewrite String.eqb_refl. f_equal. apply IH; [done|lia].
Qed.

Lemma setitem_get_other d c k vs df :
  rows_wide df -> length vs = length (data df) -> k <> c ->
  List.map (fun r => get r c d) (iterrows (setitem k vs df))
  = List.map (fun r => get r c d) (iterrows df).
Proof.
  intros Hwf Hlen Hne. unfold iterrows, setitem, rows_wide in *.
  destruct (index_of k (columns df)) as [i|] eqn:E; cbn [columns data];
    rewrite !List.map_map.
  - pose proof (index_of_lookup _ _ _ E) as Hi.
    revert vs Hlen. induction (data df) as [|row rows IH]; intros [|v vs] Hlen;
      simpl in *; try done.
    apply Forall_cons in Hwf as [Hrow Hwf].
    rewrite (get_insert_other _ _ _ _ _ _ _ Hi Hne). f_equal. apply IH; [done|lia].
  - revert vs Hlen. induction (data df) as [|row rows IH]; intros [|v vs] Hlen;
      simpl in *; try done.
    apply Forall_cons in Hwf as [Hrow Hwf].
    rewrite get_snoc_other by (done || lia). f_equal. apply IH; [done|lia].
Qed.

Lemma index_of_snoc k (cols : list string) :
  index_of k cols = None -> index_of k (cols ++ [k]) = Some (length cols).
Proof.
  induction cols as [|k' cols IH]; simpl.
  - by rewrite String.eqb_refl.
  - destruct (String.eqb k' k); [done|].
    destruct (index_of k cols); [done|]. intros _. by rewrite IH.
Qed.

(** Assigning the same values to a column twice is assigning them once. *)
Lemma setitem_setitem k vs df :
  rows_wide df -> length vs = length (data df) ->
  setitem k vs (setitem k vs df) = setitem k vs df.
Proof.
  intros Hwf Hlen. unfold rows_wide in *. unfold setitem at 2 3.
  destruct (index_of k (columns df)) as [i|] eqn:E; unfold setitem; cbn [columns data].
  - rewrite E. f_equal. clear E Hwf.
    revert vs Hlen. induction (data df) as [|row rows IH]; intros [|v vs] Hlen;
      simpl in *; try done.
    rewrite list_insert_insert_eq. f_equal. apply IH. lia.
  - rewrite (index_of_snoc _ _ E). f_equal.
    revert vs Hlen. induction (data df) as [|row rows IH]; intros [|v vs] Hlen;
      simpl in *; try done.
    apply Forall_cons in Hwf as [Hrow Hwf]. f_equal; [|apply IH; [done|lia]].
    rewrite <- Hrow. replace (length row) with (length row + 0) by lia.
    by rewrite insert_app_r.
Qed.

Lemma zip_with_map2 {A B C D} (f : B -> C -> D) (g : A -> B) (h : A -> C)
    (l : list A) :
  zip_with f (List.map g l) (List.map h l) = List.map (fun x => f (g x) (h x)) l.
Proof. induction l as [|x l IH]; [done|]. simpl. by rewrite IH. Qed.

(** What [fallback_rma] returns is an 8-digit string or the sentinel. *)
Lemma fallback_rma_shape (m : gmap string string) (val tn_details : cell) :
  RMA_STRICT_RX_fullmatch (fallback_rma m val tn_details) = true
  \/ fallback_rma m val tn_details = "N/A".
Proof.
  unfold fallback_rma.
  destruct (RMA_STRICT_RX_fullmatch (Str.strip (str_or_empty val))) eqn:Hs.
  - destruct (fullmatch_tests _ Hs) as (-> & _ & ->). cbn [negb andb]. by left.
  - rewrite !andb_false_r. destruct (py_truthy tn_details); [|by right].
    destruct (_extract_tn_list tn_details) as [|first others]; [by right|].
    destruct (RMA_STRICT_RX_fullmatch (default "" (m !! first))) eqn:Hp;
      [by left|by right].
Qed.

(** A patched identifier is patched to itself. *)
Lemma fallback_rma_idem (m : gmap string string) (val tn_details : cell) :
  fallback_rma m (CStr (fallback_rma m val tn_details)) tn_details
  = fallback_rma m val tn_details.
Proof.
  destruct (fallback_rma_shape m val tn_details) as [Hs|Hna].
  - unfold fallback_rma at 1.
    assert (Hv : str_or_empty (CStr (fallback_rma m val tn_details))
                 = fallback_rma m val tn_details).
    { unfold str_or_empty. cbn [py_truthy py_str].
      by destruct (fullmatch_tests _ Hs) as (-> & _). }
    rewrite Hv, (fullmatch_strip _ Hs), Hs.
    by destruct (fullmatch_tests _ Hs) as (-> & _ & ->).
  - rewrite Hna. revert Hna. unfold fallback_rma.
    destruct (RMA_STRICT_RX_fullmatch (Str.strip (str_or_empty val))) eqn:Hs.
    + destruct (fullmatch_tests _ Hs) as (-> & _ & ->). cbn [negb andb].
      intros E. rewrite E in Hs. by vm_compute in Hs.
    + rewrite !andb_false_r. intros E.
      change (Str.truthy (Str.strip (str_or_empty (CStr "N/A")))
              && negb (String.eqb (Str.upper (Str.strip (str_or_empty (CStr "N/A")))) "N/A")
              && RMA_STRICT_RX_fullmatch (Str.strip (str_or_empty (CStr "N/A"))))
        with false.
      exact E.
Qed.

Lemma patched_rma_column_eq (m : gmap string string) df :
  patched_rma_column m df
  = zip_with (fun val tn_details => CStr (fallback_rma m val tn_details))
      (List.map (fun r => get r "RMA Number" (CStr "")) (iterrows df))
      (List.map (fun r => get r "Tracking Number - Details" (CStr "")) (iterrows df)).
Proof. unfold patched_rma_column. by rewrite zip_with_map2. Qed.

Lemma patched_rma_column_again (m : gmap string string) df :
  rows_wide df ->
  patched_rma_column m (setitem "RMA Number" (patched_rma_column m df) df)
  = patched_rma_column m df.
Proof.
  intros Hwf. rewrite (patched_rma_column_eq m (setitem _ _ _)).
  rewrite setitem_get_same by (done || apply patched_rma_column_length).
  rewrite setitem_get_other by (done || apply patched_rma_column_length).
  unfold patched_rma_column.
  set (tnd := fun r : Series => get r "Tracking Number - Details" (CStr "")).
  set (rma := fun r : Series => get r "RMA Number" (CStr "")).
  rewrite zip_with_map2. apply List.map_ext. intros r.
  by rewrite fallback_rma_idem.
Qed.

Lemma setitem_not_empty k vs df :
  length vs = length (data df) -> data df <> [] -> empty (setitem k vs df) = false.
Proof.
  intros Hlen Hd. unfold empty.
  pose proof (setitem_column_in k vs df) as Hin.
  pose proof (setitem_length k vs df Hlen) as Hl.
  destruct (columns (setitem k vs df)); [by apply elem_of_nil in Hin|].
  destruct (data (setitem k vs df)); [|done].
  destruct (data df); [done|]. simpl in Hl. lia.
Qed.

Lemma not_empty_rows df : empty df = false -> data df <> [].
Proof. unfold empty. destruct (columns df); [done|]. by destruct (data df). Qed.

Lemma clean_rma_string_idem (value : cell) :
  _clean_rma_string (CStr (_clean_rma_string value)) = _clean_rma_string value.
Proof.
  destruct (clean_rma_string_shape value) as [->|Hs]; [done|].
  by apply clean_rma_string_strict.
Qed.

End Repeated.

(** X13.  The update [normalize_rma_column_inplace] makes to a frame is
    idempotent: on a frame that has been normalised, with rows as wide as its
    header, a second normalisation changes nothing. *)
Theorem normalize_rma_column_idempotent (df : DataFrame) :
  rows_wide df ->
  normalize_rma_column (normalize_rma_column df) = normalize_rma_column df.
Proof.
  intros Hwf. unfold normalize_rma_column at 2 3.
  destruct (has_column "RMA Number" df) eqn:Hc.
  - set (vs := List.map (fun v => CStr (_clean_rma_string v)) (getitem "RMA Number" df)).
    assert (Hlen : length vs = length (data df)).
    { unfold vs, getitem, iterrows. by rewrite !length_map. }
    unfold normalize_rma_column.
    assert (Hc' : has_column "RMA Number" (setitem "RMA Number" vs df) = true)
      by apply has_column_true, setitem_column_in.
    rewrite Hc', (setitem_getitem_same _ _ _ Hwf Hlen).
    assert (Hvs : List.map (fun v => CStr (_clean_rma_string v)) vs = vs).
    { unfold vs. rewrite List.map_map. apply List.map_ext. intros v.
      by rewrite clean_rma_string_idem. }
    rewrite Hvs. by apply setitem_setitem.
  - unfold normalize_rma_column. by rewrite Hc.
Qed.

Lemma normalize_rma_column_idempotent_witness :
  normalize_rma_column (normalize_rma_column blank_led_main)
  = normalize_rma_column blank_led_main.
Proof. apply normalize_rma_column_idempotent. repeat constructor. Defined.

(** X14.  [patch_rma_na_with_pr2] is idempotent: called again on the table
    it has returned, with the same normalised table, it returns a table with
    the same columns and rows.  When it does not short-circuit, every
    identifier of the table it returns is a string of exactly eight digits or
    the sentinel "N/A".  The tables have distinct column labels and the main
    table has rows as wide as its header. *)
Theorem patch_rma_na_with_pr2_idempotent (st : store) (reconciled_df new_norm_df : ref)
    (reconciled new_norm : DataFrame) :
  st !! reconciled_df = Some reconciled ->
  st !! new_norm_df = Some new_norm ->
  NoDup (columns reconciled) ->
  NoDup (columns new_norm) ->
  rows_wide reconciled ->
  exists (out1 out2 : ref) (st1 st2 : store) (patched : DataFrame),
    patch_rma_na_with_pr2 reconciled_df new_norm_df st = Ok (out1, st1)
    /\ patch_rma_na_with_pr2 out1 new_norm_df st1 = Ok (out2, st2)
    /\ st1 !! out1 = Some patched
    /\ st2 !! out2 = Some patched
    /\ (empty reconciled || empty new_norm = false ->
        Forall (fun v => exists id : string,
                  v = CStr id /\ (RMA_STRICT_RX_fullmatch id = true \/ id = "N/A"))
               (getitem "RMA Number" patched)).
Proof.
  intros Hr Hn _ _ Hwf. rewrite (patch_run _ _ _ _ _ Hr Hn).
  destruct (empty reconciled || empty new_norm) eqn:He.
  - exists reconciled_df, reconciled_df, st, st, reconciled.
    rewrite (patch_run _ _ _ _ _ Hr Hn), He. done.
  - set (m := build_tn_to_pr2 new_norm).
    set (p := setitem "RMA Number" (patched_rma_column m reconciled) reconciled).
    assert (Hp : (st ++ [p]) !! length st = Some p) by apply lookup_fresh.
    assert (Hn' : (st ++ [p]) !! new_norm_df = Some new_norm) by by apply lookup_old.
    assert (Hep : empty p || empty new_norm = false).
    { apply orb_false_iff in He as [Her Hen]. rewrite Hen, orb_false_r.
      apply setitem_not_empty; [apply patched_rma_column_length|].
      by apply not_empty_rows. }
    exists (length st), (length (st ++ [p])), (st ++ [p]), ((st ++ [p]) ++ [p]), p.
    split; [done|]. split.
    { rewrite (patch_run _ _ _ _ _ Hp Hn'), Hep. fold m. do 4 f_equal.
      unfold p at 1 2. rewrite (patched_rma_column_again m reconciled Hwf).
      apply setitem_setitem; [done|apply patched_rma_column_length]. }
    split; [done|]. split; [apply lookup_fresh|]. intros _.
    unfold p. rewrite setitem_getitem_same by (done || apply patched_rma_column_length).
    unfold patched_rma_column. apply Forall_forall. intros v Hv.
    apply list_elem_of_In, List.in_map_iff in Hv as (r & <- & _).
    eexists. split; [reflexivity|]. apply fallback_rma_shape.
Qed.

Lemma patch_rma_na_with_pr2_idempotent_witness :
  exists (out1 out2 : ref) (st1 st2 : store) (patched : DataFrame),
    patch_rma_na_with_pr2 0 1 [fallback_main; fallback_norm] = Ok (out1, st1)
    /\ patch_rma_na_with_pr2 out1 1 st1 = Ok (out2, st2)
    /\ st1 !! out1 = Some patched
    /\ st2 !! out2 = Some patched.
Proof.
  destruct (patch_rma_na_with_pr2_idempotent
              [fallback_main; fallback_norm] 0 1 fallback_main fallback_norm
              eq_refl eq_refl)
    as (out1 & out2 & st1 & st2 & patched & H1 & H2 & H3 & H4 & _).
  - apply (bool_decide_unpack _). vm_compute. exact I.
  - apply (bool_decide_unpack _). vm_compute. exact I.
  - repeat constructor.
  - by exists out1, out2, st1, st2, patched.
Defined.

(** ** The details line *)

Section DetailsLine.

Implicit Types (s t u : string) (info : Series).

Lemma append_assoc s t u : (s +:+ t) +:+ u = s +:+ (t +:+ u).
Proof. induction s as [|c r IH]; [done|]. rewrite !app_cons. by rewrite IH. Qed.

Lemma all_prefix_app (p : ascii -> bool) u t :
  Str.all p u = true -> Str.all_prefix p (String.length u) (u +:+ t) = true.
Proof.
  induction u as [|c r IH]; [done|]. simpl.
  intros [-> Hr]%andb_prop. by apply IH.
Qed.

Lemma drop_app u t : Str.drop (String.length u) (u +:+ t) = t.
Proof. induction u as [|c r IH]; [by destruct t|]. simpl. exact IH. Qed.

Lemma take_app u t : Str.take (String.length u) (u +:+ t) = u.
Proof. induction u as [|c r IH]; [by destruct t|]. simpl. by rewrite IH. Qed.

(** The line starts with the tracking number, followed by a blank. *)
Lemma compose_prefix info :
  exists tail : string,
    compose_tn_detail_line info
    = Str.upper (Str.strip (py_str (get info "Tracking Number" (CStr ""))))
      +:+ String " " tail.
Proof.
  unfold compose_tn_detail_line.
  destruct (negb (String.eqb (Str.lower (_canonical_status (get info "Status" (CStr ""))))
                    "delivered")); [|by eexists].
  destruct (Str.truthy _); [|by eexists].
  rewrite append_assoc. by eexists.
Qed.

(** A tracking number in upper case at the head of a text, followed by a
    blank, is the first tracking number found in the text. *)
Lemma finditer_head (u tail : string) :
  String.length u = 16 ->
  Str.all (fun c => Char.is_digit c || Char.is_ascii_upper c) u = true ->
  head (UPS_TN_REGEX_finditer (String "1" (String "Z" u) +:+ String " " tail))
  = Some (String "1" (String "Z" u)).
Proof.
  intros Hlen Hall. unfold UPS_TN_REGEX_finditer.
  rewrite !app_cons. cbn [tn_scan].
  assert (Hm : tn_match_here false (String "1" (String "Z" (u +:+ String " " tail)))
               = true).
  { unfold tn_match_here. rewrite <- Hlen at 1.
    rewrite all_prefix_app by (eapply all_impl; [apply upper_alnum|done]).
    rewrite <- Hlen, drop_app. done. }
  rewrite Hm. cbn [head]. f_equal.
  assert (Ht : forall (c1 c2 : ascii) (r : string) (n : nat),
            Str.take (S (S n)) (String c1 (String c2 r))
            = String c1 (String c2 (Str.take n r))) by reflexivity.
  rewrite (Ht _ _ _ 16). rewrite <- Hlen at 1. by rewrite take_app.
Qed.

Lemma upper_fixed s :
  Str.all (fun c => Char.is_digit c || Char.is_ascii_upper c) s = true ->
  Str.upper s = s.
Proof.
  unfold Str.upper. induction s as [|c r IH]; [done|]. cbn [Str.all Str.map].
  intros [Hc Hr]%andb_prop. rewrite (IH Hr). f_equal.
  revert Hc. clear. destruct c as [[] [] [] [] [] [] [] []]; vm_compute; congruence.
Qed.

End DetailsLine.

(** X15.  Round trip between [compose_tn_detail_line] and
    [_extract_tn_list]: when the tracking number of the shipment, trimmed and
    in upper case, is a UPS tracking number ("1Z" and sixteen digits or
    upper-case letters), it is the first tracking number extracted from the
    line composed for the shipment. *)
Theorem compose_tn_detail_line_round_trip (info : Series) (u : string) :
  NoDup (index info) ->
  Str.upper (Str.strip (py_str (get info "Tracking Number" (CStr ""))))
  = String "1" (String "Z" u) ->
  String.length u = 16 ->
  Str.all (fun c => Char.is_digit c || Char.is_ascii_upper c) u = true ->
  head (_extract_tn_list (CStr (compose_tn_detail_line info)))
  = Some (String "1" (String "Z" u)).
Proof.
  intros _ Htn Hlen Hall. destruct (compose_prefix info) as (tail & ->).
  rewrite Htn. unfold _extract_tn_list. cbn [pd_isna py_str].
  pose proof (finditer_head u tail Hlen Hall) as Hh.
  destruct (UPS_TN_REGEX_finditer _) as [|t ts]; [done|].
  cbn [head] in Hh. injection Hh as ->. cbn [List.map head]. f_equal.
  apply (upper_fixed (String "1" (String "Z" u))). simpl. exact Hall.
Qed.

Lemma compose_tn_detail_line_round_trip_witness :
  head (_extract_tn_list
          (CStr (compose_tn_detail_line
                   [("Tracking Number", CStr " 1z1234567890abcdef ");
                    ("Status", CStr "in transit");
                    ("Ship To", CStr "Rockwell Automation")])))
  = Some "1Z1234567890ABCDEF".
Proof.
  apply (compose_tn_detail_line_round_trip
           [("Tracking Number", CStr " 1z1234567890abcdef ");
            ("Status", CStr "in transit");
            ("Ship To", CStr "Rockwell Automation")] "1234567890ABCDEF");
    [apply (bool_decide_unpack _); vm_compute; exact I|reflexivity..].
Defined.

(** X16.  For a shipment whose status is canonically "Delivered", the line
    [compose_tn_detail_line] builds does not depend on the exception
    description and the exception resolution: two dictionaries that agree on
    every other key give the same line. *)
Theorem compose_tn_detail_line_delivered (info info' : Series) :
  NoDup (index info) ->
  NoDup (index info') ->
  (forall k : string,
     k <> "Exception Description" -> k <> "Exception Resolution" ->
     get info k (CStr "") = get info' k (CStr "")) ->
  _canonical_status (get info "Status" (CStr "")) = "Delivered" ->
  compose_tn_detail_line info = compose_tn_detail_line info'.
Proof.
  intros _ _ Hsame Hst. unfold compose_tn_detail_line.
  rewrite <- !(Hsame "Tracking Number"), <- !(Hsame "Status"),
    <- !(Hsame "Scheduled Delivery"), <- !(Hsame "Date Delivered"),
    <- !(Hsame "Ship To") by (intros E; discriminate E).
  rewrite Hst. done.
Qed.

Lemma compose_tn_detail_line_delivered_witness :
  compose_tn_detail_line
    [("Tracking Number", CStr "1Z1234567890123456"); ("Status", CStr "DELIVERED");
     ("Date Delivered", CStr "2024-01-15"); ("Exception Description", CStr "damaged")]
  = compose_tn_detail_line
      [("Tracking Number", CStr "1Z1234567890123456"); ("Status", CStr "DELIVERED");
       ("Date Delivered", CStr "2024-01-15")].
Proof.
  apply compose_tn_detail_line_delivered;
    [apply (bool_decide_unpack _); vm_compute; exact I
    |apply (bool_decide_unpack _); vm_compute; exact I| |reflexivity].
  intros k Hd Hr. cbn [get].
  destruct (String.eqb "Tracking Number" k); [reflexivity|].
  destruct (String.eqb "Status" k); [reflexivity|].
  destruct (String.eqb "Date Delivered" k); [reflexivity|].
  destruct (String.eqb_spec "Exception Description" k) as [E|_]; [|reflexivity].
  by destruct Hd.
Defined.

(** X17.  [_classify_shipto] returns "ROCKWELL" or "CUSTOMER", and on a text
    of ASCII characters its result does not depend on the case of the letters
    of the text. *)
Theorem classify_shipto_case (s : string) :
  ascii_text s = true ->
  (_classify_shipto (CStr s) = "ROCKWELL" \/ _classify_shipto (CStr s) = "CUSTOMER")
  /\ _classify_shipto (CStr (Str.lower s)) = _classify_shipto (CStr s)
  /\ _classify_shipto (CStr (Str.upper s)) = _classify_shipto (CStr s).
Proof.
  intros _.
  assert (Hstr : forall t, str_or_empty (CStr t) = t)
    by (intros t; unfold str_or_empty; by destruct t).
  unfold _classify_shipto. rewrite !Hstr, upper_lower, upper_upper.
  split; [|done]. destruct (Str.contains "ROCKWELL" (Str.upper s)); auto.
Qed.

Lemma classify_shipto_case_witness :
  ascii_text "Rockwell Automation, Katowice" = true
  /\ _classify_shipto (CStr "Rockwell Automation, Katowice") = "ROCKWELL"
  /\ _classify_shipto (CStr (Str.lower "Rockwell Automation, Katowice")) = "ROCKWELL".
Proof.
  split; [reflexivity|].
  destruct (classify_shipto_case "Rockwell Automation, Katowice" eq_refl)
    as (_ & Hlow & _).
  assert (H : _classify_shipto (CStr "Rockwell Automation, Katowice") = "ROCKWELL")
    by (vm_compute; reflexivity).
  split; [exact H|]. rewrite Hlow. exact H.
Defined.

(** ** The preview of a cell *)

(** X18.  Without wrapping, the text [_get_display_text] returns has at
    most [max(10, col_width // 7)] characters: a text within that bound is
    returned as it is, and a longer one is cut to the bound, its last
    character being the ellipsis and the others the first characters of the
    text.  With wrapping, the text is returned as it is. *)
Theorem get_display_text_bound (value : option (list N)) (col_width : Z) :
  let text := default [] value in
  let max_chars := Z.max 10 (col_width / 7) in
  let shown := _get_display_text value col_width false in
  (Z.of_nat (length shown) <= max_chars)%Z
  /\ ((Z.of_nat (length text) <= max_chars)%Z -> shown = text)
  /\ ((max_chars < Z.of_nat (length text))%Z ->
      Z.of_nat (length shown) = max_chars
      /\ shown = take (Z.to_nat (max_chars - 1)) text ++ [ELLIPSIS])
  /\ _get_display_text value col_width true = text.
Proof.
  cbv zeta. unfold _get_display_text.
  set (text := default [] value). set (m := Z.max 10 (col_width / 7)).
  assert (Hm : (10 <= m)%Z) by (unfold m; lia).
  destruct (Z.ltb_spec m (Z.of_nat (length text))) as [Hlt|Hge].
  - rewrite length_app, length_take. cbn [length].
    split; [lia|]. split; [lia|]. split; [|done]. intros _. split; [lia|done].
  - split; [done|]. split; [done|]. split; [lia|done].
Qed.

Lemma get_display_text_bound_witness :
  _get_display_text (Some [49; 90; 49; 50; 51; 52; 53; 54; 55; 56; 57; 48]%N) 77 false
  = [49; 90; 49; 50; 51; 52; 53; 54; 55; 56]%N ++ [ELLIPSIS]
  /\ _get_display_text (Some [49; 90]%N) 77 false = [49; 90]%N.
Proof.
  destruct (get_display_text_bound
              (Some [49; 90; 49; 50; 51; 52; 53; 54; 55; 56; 57; 48]%N) 77)
    as (_ & _ & Hcut & _).
  destruct (get_display_text_bound (Some [49; 90]%N) 77) as (_ & Hkeep & _).
  split.
  - apply Hcut. reflexivity.
  - apply Hkeep. vm_compute. discriminate.
Defined.

(** ** Harmonisation and the normalised view *)

(** X19.  After [map_new_columns] every canonical column is present, the
    table has as many rows as before and rows as wide as the header when it
    had them before; and [build_new_norm] returns the same table whether or
    not its argument has been harmonised beforehand. *)
Theorem map_new_columns_complete (df : DataFrame) :
  (forall c : string, c ∈ mapping_values -> c ∈ columns (map_new_columns df))
  /\ length (data (map_new_columns df)) = length (data df)
  /\ (rows_wide df -> rows_wide (map_new_columns df))
  /\ build_new_norm (map_new_columns df) = build_new_norm df.
Proof.
  split; [|split; [|split]].
  - intros c Hc. unfold map_new_columns. by apply ensure_columns_present.
  - unfold map_new_columns. rewrite ensure_columns_eq. unfold rename.
    cbn [columns data]. by rewrite length_map.
  - unfold map_new_columns. rewrite ensure_columns_eq. unfold rename, rows_wide.
    cbn [columns data]. intros Hwf. rewrite List.Forall_forall in Hwf.
    apply List.Forall_forall. intros row Hrow.
    apply List.in_map_iff in Hrow as (row0 & <- & Hrow0).
    rewrite !length_app, repeat_length, length_map. by rewrite (Hwf _ Hrow0).
  - unfold build_new_norm. by rewrite map_new_columns_idem.
Qed.

Lemma map_new_columns_complete_witness :
  "Weight" ∈ columns (map_new_columns example_ups_df)
  /\ rows_wide (map_new_columns example_ups_df).
Proof.
  destruct (map_new_columns_complete example_ups_df) as (Hall & _ & Hwide & _).
  split.
  - apply Hall. apply (bool_decide_unpack _). vm_compute. exact I.
  - apply Hwide. repeat constructor.
Defined.

(** ** The identifiers of the final table *)

Section FinalIdentifiers.

Implicit Types (df d reconciled new_norm : DataFrame) (c k : string)
  (blocked : gset string).

Lemma filter_filter_and {A} (p q : A -> bool) (l : list A) :
  List.filter q (List.filter p l) = List.filter (fun x => p x && q x) l.
Proof.
  induction l as [|x l IH]; [done|]. cbn [List.filter].
  destruct (p x); cbn [List.filter andb]; [|exact IH].
  destruct (q x); by rewrite IH.
Qed.

Lemma filter_map_comm {A B} (f : A -> B) (p : B -> bool) (l : list A) :
  List.map f (List.filter (fun x => p (f x)) l) = List.filter p (List.map f l).
Proof.
  induction l as [|x l IH]; [done|]. cbn [List.filter List.map].
  destruct (p (f x)); cbn [List.map]; by rewrite IH.
Qed.

(** The test of the two filters of [build_final_output_df] on an
    identifier. *)
Lemma filter_and_project_data blocked d :
  data (filter_and_project blocked d)
  = List.map
      (fun row =>
         List.map
           (fun c =>
              get (combine (columns d ++ missing_columns (columns d) FINAL_COLS)
                     (row ++ repeat (CStr "")
                               (length (missing_columns (columns d) FINAL_COLS))))
                  c CNone)
           FINAL_COLS)
      (List.filter
         (fun row =>
            RMA_STRICT_RX_fullmatch
              (py_str (get (combine (columns d) row) "RMA Number" CNone))
            && negb (isin (get (combine (columns d) row) "RMA Number" CNone) blocked))
         (data d)).
Proof.
  unfold filter_and_project. rewrite ensure_columns_eq.
  unfold select_columns. cbn [data columns].
  case_bool_decide as Hb; unfold select_rows; cbn [data columns];
    rewrite List.map_map; apply (f_equal (List.map _)).
  - apply List.filter_ext. intros row. subst blocked.
    unfold isin. destruct (get _ _ _); by rewrite ?andb_true_r.
  - apply filter_filter_and.
Qed.

Lemma final_getitem_rma blocked d :
  rows_wide d -> "RMA Number" ∈ columns d ->
  List.map (fun row' => get (combine FINAL_COLS row') "RMA Number" CNone)
           (data (filter_and_project blocked d))
  = List.filter
      (fun v => RMA_STRICT_RX_fullmatch (py_str v) && negb (isin v blocked))
      (getitem "RMA Number" d).
Proof.
  intros Hwf Hin. rewrite filter_and_project_data, List.map_map.
  unfold getitem, iterrows. rewrite List.map_map.
  rewrite <- (filter_map_comm (fun row => get (combine (columns d) row) "RMA Number" CNone)).
  unfold rows_wide in Hwf. rewrite List.Forall_forall in Hwf.
  apply List.map_ext_in. intros row Hrow%List.filter_In. destruct Hrow as [Hrow _].
  rewrite (projected_cell d row "RMA Number" (Hwf row Hrow) FINAL_COLS_rma).
  by rewrite bool_decide_eq_true_2.
Qed.

Lemma getitem_drop_column c k df :
  k <> c -> getitem c (drop_column k df) = getitem c df.
Proof.
  intros Hne. unfold drop_column.
  destruct (index_of k (columns df)) as [i|] eqn:E; [|done].
  unfold getitem, iterrows. cbn [columns data]. rewrite !List.map_map.
  apply List.map_ext. intros row.
  apply (get_delete _ _ _ _ k); [by apply index_of_lookup|done].
Qed.

Lemma getitem_drop_helper_columns df :
  getitem "RMA Number" (drop_helper_columns df) = getitem "RMA Number" df.
Proof.
  unfold drop_helper_columns. cbn [fold_left].
  repeat (match goal with
          | |- context [if has_column ?k ?d then _ else _] =>
              destruct (has_column k d)
          end;
          rewrite ?getitem_drop_column by (intros E; discriminate E)); done.
Qed.

Lemma drop_helper_columns_wide df : rows_wide df -> rows_wide (drop_helper_columns df).
Proof.
  destruct (carries_drop_helper_columns (fun c => c ∈ FINAL_COLS) df) as (Hw & _);
    [done|exact Hw].
Qed.

Lemma patched_value_wide reconciled new_norm :
  rows_wide reconciled -> rows_wide (patched_value reconciled new_norm).
Proof.
  intros Hwf. unfold patched_value. destruct (_ || _); [done|].
  by apply setitem_rows_wide.
Qed.

Lemma cleaned_value_wide reconciled new_norm :
  rows_wide reconciled -> rows_wide (cleaned_value reconciled new_norm).
Proof.
  intros Hwf. unfold cleaned_value, normalize_rma_column.
  pose proof (drop_helper_columns_wide _ (patched_value_wide _ new_norm Hwf)) as Hw.
  destruct (has_column _ _); [by apply setitem_rows_wide|exact Hw].
Qed.

(** The identifiers of [df_out] after the normalisation. *)
Lemma cleaned_value_getitem reconciled new_norm :
  rows_wide reconciled ->
  has_column "RMA Number" (cleaned_value reconciled new_norm) = true ->
  getitem "RMA Number" (cleaned_value reconciled new_norm)
  = List.map (fun v => CStr (_clean_rma_string v))
             (getitem "RMA Number" (patched_value reconciled new_norm)).
Proof.
  intros Hwf Hhas. rewrite <- (getitem_drop_helper_columns (patched_value _ _)).
  apply has_column_true in Hhas. unfold cleaned_value in *.
  rewrite normalize_rma_columns in Hhas. apply has_column_true in Hhas.
  unfold normalize_rma_column. rewrite Hhas.
  apply setitem_getitem_same.
  - by apply drop_helper_columns_wide, patched_value_wide.
  - unfold getitem, iterrows. by rewrite !length_map.
Qed.

Lemma filter_map_fixed {A} (keep : A -> bool) (g : A -> A) (l : list A) :
  Forall (fun v => keep (g v) = keep v /\ (keep v = true -> g v = v)) l ->
  List.filter keep (List.map g l) = List.filter keep l.
Proof.
  induction 1 as [|v l [Hk Hg] _ IH]; [done|]. cbn [List.map List.filter].
  rewrite Hk, IH. destruct (keep v) eqn:E; [|done]. by rewrite (Hg eq_refl).
Qed.

(** The normalisation does not change what the filters keep of an
    identifier that is a string of eight digits or the sentinel. *)
Lemma keep_clean blocked (id : string) :
  RMA_STRICT_RX_fullmatch id = true \/ id = "N/A" \/ id = "" ->
  let keep := fun v => RMA_STRICT_RX_fullmatch (py_str v) && negb (isin v blocked) in
  keep (CStr (_clean_rma_string (CStr id))) = keep (CStr id)
  /\ (keep (CStr id) = true -> CStr (_clean_rma_string (CStr id)) = CStr id).
Proof.
  intros [Hs|[E|E]]; subst; cbv zeta.
  - by rewrite (clean_rma_string_strict id Hs).
  - split; [reflexivity|]. intros H. by vm_compute in H.
  - split; [reflexivity|]. intros H. by vm_compute in H.
Qed.

End FinalIdentifiers.

(** X20.  The identifiers of the table [build_final_output_df] returns are,
    in the order of the rows, the identifiers of the table
    [patch_rma_na_with_pr2] returns, each one normalised by
    [_clean_rma_string], that consist of exactly eight digits and are not
    blocked.  When the patcher has not short-circuited the normalisation
    changes none of them: they are the patched identifiers that consist of
    eight digits and are not blocked.  The tables have distinct column labels
    and the main table has rows as wide as its header. *)
Theorem build_final_output_df_identifiers (st : store) (reconciled_df new_norm_df : ref)
    (reconciled new_norm : DataFrame) :
  st !! reconciled_df = Some reconciled ->
  st !! new_norm_df = Some new_norm ->
  NoDup (columns reconciled) ->
  NoDup (columns new_norm) ->
  rows_wide reconciled ->
  exists patched : DataFrame,
    result_frame (patch_rma_na_with_pr2 reconciled_df new_norm_df st) = Some patched
    /\ match build_final_output_df reconciled_df new_norm_df st with
       | Ok (out, st') =>
           exists final : DataFrame,
             st' !! out = Some final
             /\ List.map (fun row' => get (combine FINAL_COLS row') "RMA Number" CNone)
                         (data final)
                = List.filter
                    (fun v => RMA_STRICT_RX_fullmatch (py_str v)
                              && negb (isin v (blocked_rmas new_norm)))
                    (List.map (fun v => CStr (_clean_rma_string v))
                              (getitem "RMA Number" patched))
             /\ (empty reconciled || empty new_norm = false ->
                 List.map (fun row' => get (combine FINAL_COLS row') "RMA Number" CNone)
                          (data final)
                 = List.filter
                     (fun v => RMA_STRICT_RX_fullmatch (py_str v)
                               && negb (isin v (blocked_rmas new_norm)))
                     (getitem "RMA Number" patched))
       | Raise e => e = KeyError "RMA Number"
       end.
Proof.
  intros Hr Hn _ _ Hwf. exists (patched_value reconciled new_norm). split.
  { rewrite (patch_run _ _ _ _ _ Hr Hn). unfold patched_value.
    destruct (empty reconciled || empty new_norm); cbn [result_frame];
      [exact Hr|apply lookup_fresh]. }
  destruct (build_final_run st _ _ _ _ Hr Hn) as (st1 & _ & ->).
  destruct (has_column "RMA Number" (cleaned_value reconciled new_norm)) eqn:Hhas;
    [|done].
  eexists. split; [apply lookup_fresh|].
  assert (Hids : List.map (fun row' => get (combine FINAL_COLS row') "RMA Number" CNone)
                   (data (filter_and_project (blocked_rmas new_norm)
                            (cleaned_value reconciled new_norm)))
                 = List.filter
                     (fun v => RMA_STRICT_RX_fullmatch (py_str v)
                               && negb (isin v (blocked_rmas new_norm)))
                     (List.map (fun v => CStr (_clean_rma_string v))
                        (getitem "RMA Number" (patched_value reconciled new_norm)))).
  { rewrite final_getitem_rma.
    - by rewrite cleaned_value_getitem.
    - by apply cleaned_value_wide.
    - by apply has_column_true. }
  split; [exact Hids|]. intros He. rewrite Hids. apply filter_map_fixed.
  unfold patched_value. rewrite He.
  rewrite setitem_getitem_same by (done || apply patched_rma_column_length).
  unfold patched_rma_column. apply List.Forall_forall. intros v Hv.
  apply List.in_map_iff in Hv as (r & <- & _).
  apply (keep_clean (blocked_rmas new_norm)).
  destruct (fallback_rma_shape (build_tn_to_pr2 new_norm)
              (get r "RMA Number" (CStr ""))
              (get r "Tracking Number - Details" (CStr ""))) as [?|?]; auto.
Qed.

Lemma build_final_output_df_identifiers_witness :
  exists patched : DataFrame,
    result_frame (patch_rma_na_with_pr2 0 1 [fallback_main; fallback_norm]) = Some patched
    /\ match build_final_output_df 0 1 [fallback_main; fallback_norm] with
       | Ok (out, st') =>
           exists final : DataFrame,
             st' !! out = Some final
             /\ List.map (fun row' => get (combine FINAL_COLS row') "RMA Number" CNone)
                         (data final)
                = List.filter
                    (fun v => RMA_STRICT_RX_fullmatch (py_str v)
                              && negb (isin v (blocked_rmas fallback_norm)))
                    (getitem "RMA Number" patched)
       | Raise e => e = KeyError "RMA Number"
       end.
Proof.
  destruct (build_final_output_df_identifiers
              [fallback_main; fallback_norm] 0 1 fallback_main fallback_norm
              eq_refl eq_refl) as (patched & Hp & H).
  - apply (bool_decide_unpack _). vm_compute. exact I.
  - apply (bool_decide_unpack _). vm_compute. exact I.
  - repeat constructor.
  - exists patched. split; [exact Hp|].
    destruct (build_final_output_df 0 1 [fallback_main; fallback_norm])
      as [[out st']|e]; [|exact H].
    destruct H as (final & Hf & _ & Hids). exists final. split; [exact Hf|].
    apply Hids. reflexivity.
Defined.

(** ** The identifiers of an analysis run *)

Section RunIdentifiers.

Implicit Types (rows : list (list cell)) (m : gmap string string) (rma : string).

(** Without a details field the fallback is not tried: an identifier of the
    normalised view is kept when it has eight digits and becomes the sentinel,
    which the normalisation empties again, when it is empty. *)
Lemma fallback_no_details m rma :
  rma = "" \/ RMA_STRICT_RX_fullmatch rma = true ->
  _clean_rma_string (CStr (fallback_rma m (CStr rma) (CStr ""))) = rma.
Proof.
  intros [->|Hs]; [reflexivity|].
  unfold fallback_rma.
  assert (Hv : str_or_empty (CStr rma) = rma).
  { unfold str_or_empty. cbn [py_truthy py_str].
    by destruct (fullmatch_tests _ Hs) as (-> & _). }
  rewrite Hv, (fullmatch_strip _ Hs), Hs.
  destruct (fullmatch_tests _ Hs) as (-> & _ & ->). cbn [negb andb].
  by apply clean_rma_string_strict.
Qed.

Lemma norm_row_gets (r : Series) (orig rma tn : string) :
  get (combine NORM_COLS (norm_row r orig rma tn)) "RMA Number" (CStr "") = CStr rma
  /\ get (combine NORM_COLS (norm_row r orig rma tn)) "Tracking Number - Details" (CStr "")
     = CStr "".
Proof. split; reflexivity. Qed.

(** On a table of rows of the normalised view, patching and normalising
    give back the identifiers of the table. *)
Lemma norm_patched_identifiers rows (new_norm : DataFrame) :
  Forall (fun row => exists (r : Series) (orig rma tn : string),
            row = norm_row r orig rma tn
            /\ (rma = "" \/ RMA_STRICT_RX_fullmatch rma = true))
         rows ->
  List.map (fun v => CStr (_clean_rma_string v))
           (getitem "RMA Number" (patched_value (mkDF NORM_COLS rows) new_norm))
  = getitem "RMA Number" (mkDF NORM_COLS rows).
Proof.
  intros Hrows. unfold patched_value.
  assert (Hwide : rows_wide (mkDF NORM_COLS rows)).
  { unfold rows_wide. cbn [columns data]. eapply List.Forall_impl; [|exact Hrows].
    intros row (r & orig & rma & tn & -> & _).
    by destruct (norm_row_strings r orig rma tn). }
  destruct (empty (mkDF NORM_COLS rows) || empty new_norm).
  - unfold getitem, iterrows. cbn [columns data]. rewrite !List.map_map.
    rewrite List.Forall_forall in Hrows.
    apply List.map_ext_in. intros row Hrow.
    destruct (Hrows row Hrow) as (r & orig & rma & tn & -> & Hrma).
    destruct (norm_row_cells r orig rma tn) as (_ & -> & _). f_equal.
    destruct Hrma as [->|Hs]; [reflexivity|by apply clean_rma_string_strict].
  - rewrite setitem_getitem_same by (done || apply patched_rma_column_length).
    unfold patched_rma_column, getitem, iterrows. cbn [columns data].
    rewrite !List.map_map. rewrite List.Forall_forall in Hrows.
    apply List.map_ext_in. intros row Hrow.
    destruct (Hrows row Hrow) as (r & orig & rma & tn & -> & Hrma).
    destruct (norm_row_cells r orig rma tn) as (_ & -> & _).
    destruct (norm_row_gets r orig rma tn) as (-> & ->). f_equal.
    by apply fallback_no_details.
Qed.

Lemma build_new_norm_shape (new_df : DataFrame) :
  Forall (fun row => exists (r : Series) (orig rma tn : string),
            row = norm_row r orig rma tn
            /\ (rma = "" \/ RMA_STRICT_RX_fullmatch rma = true))
         (flat_map rows_of_record (iterrows (map_new_columns new_df))).
Proof.
  apply Forall_forall. intros row Hrow.
  apply elem_of_flat_map in Hrow as (r & _ & Hrow).
  apply rows_of_record_elem in Hrow as (tn & orig & rma & _ & -> & Hrma).
  exists r, orig, rma, tn. split; [done|].
  destruct Hrma as [->|[Hin _]]; [by left|right]. by apply (extract_all_strict r).
Qed.

(** The identifiers of the table a run returns. *)
Lemma run_rma_column (st : store) (ups_df : ref) (ups : DataFrame) :
  st !! ups_df = Some ups ->
  exists (out : ref) (st' : store) (final : DataFrame),
    on_run_analysis ups_df st = Ok (out, st')
    /\ st' !! out = Some final
    /\ List.map (fun row' => get (combine FINAL_COLS row') "RMA Number" CNone)
                (data final)
       = List.filter
           (fun v => RMA_STRICT_RX_fullmatch (py_str v)
                     && negb (isin v (blocked_rmas (build_new_norm ups))))
           (getitem "RMA Number" (build_new_norm ups)).
Proof.
  intros Hups. destruct (on_run_analysis_run st ups_df ups Hups) as (st1 & _ & ->).
  eexists _, _, _. split; [reflexivity|]. split; [apply lookup_fresh|].
  assert (Hhas : has_column "RMA Number"
                   (cleaned_value (build_new_norm ups) (build_new_norm ups)) = true).
  { rewrite cleaned_value_has_rma.
    assert (H : has_column "RMA Number" (build_new_norm ups) = true)
      by (rewrite build_new_norm_eq; reflexivity).
    rewrite H. apply orb_true_r. }
  rewrite final_getitem_rma.
  - rewrite cleaned_value_getitem by (exact Hhas || apply build_new_norm_wide).
    f_equal. rewrite build_new_norm_eq.
    apply norm_patched_identifiers, build_new_norm_shape.
  - apply cleaned_value_wide, build_new_norm_wide.
  - by apply has_column_true.
Qed.

End RunIdentifiers.

(** X21.  The identifiers of the table an analysis run returns, for a raw
    table with distinct harmonised labels, are, in the order of the rows, the identifiers of the normalised view that consist of
    exactly eight digits and are not blocked: the fallback on the secondary
    reference changes no identifier in a run, the normalised view having no
    "Tracking Number - Details" column. *)
Theorem on_run_analysis_identifiers (st : store) (ups_df : ref) (ups : DataFrame) :
  st !! ups_df = Some ups ->
  NoDup (columns (map_new_columns ups)) ->
  exists (out : ref) (st' : store) (final : DataFrame),
    on_run_analysis ups_df st = Ok (out, st')
    /\ st' !! out = Some final
    /\ List.map (fun row' => get (combine FINAL_COLS row') "RMA Number" CNone)
                (data final)
       = List.filter
           (fun v => RMA_STRICT_RX_fullmatch (py_str v)
                     && negb (isin v (blocked_rmas (build_new_norm ups))))
           (getitem "RMA Number" (build_new_norm ups)).
Proof.
  intros Hups _. by apply run_rma_column.
Qed.

Lemma on_run_analysis_identifiers_witness :
  exists (out : ref) (st' : store) (final : DataFrame),
    on_run_analysis 0 [example_ups_df] = Ok (out, st')
    /\ st' !! out = Some final
    /\ List.map (fun row' => get (combine FINAL_COLS row') "RMA Number" CNone)
                (data final)
       = [CStr "60011223"; CStr "91234567"].
Proof.
  destruct (on_run_analysis_identifiers [example_ups_df] 0 example_ups_df eq_refl)
    as (out & st' & final & Hrun & Hout & Hids);
    [apply (bool_decide_unpack _); vm_compute; exact I|].
  exists out, st', final. split; [exact Hrun|]. split; [exact Hout|].
  rewrite Hids. vm_compute. reflexivity.
Defined.

(** ** The normalised view of a table in parts *)

(** X22.  [build_new_norm] treats the records one by one and in order: for
    a table with distinct harmonised labels, the rows of the view are the rows of the view of its first records
    followed by the rows of the view of the remaining records. *)
Theorem build_new_norm_app (cols : list string) (rows1 rows2 : list (list cell)) :
  NoDup (columns (map_new_columns (mkDF cols (rows1 ++ rows2)))) ->
  data (build_new_norm (mkDF cols (rows1 ++ rows2)))
  = data (build_new_norm (mkDF cols rows1)) ++ data (build_new_norm (mkDF cols rows2)).
Proof.
  intros _. rewrite !build_new_norm_eq. cbn [data].
  unfold map_new_columns. rewrite !ensure_columns_eq.
  unfold iterrows, rename. cbn [columns data].
  by rewrite !List.map_app, List.flat_map_app.
Qed.

Lemma build_new_norm_app_witness :
  data (build_new_norm example_ups_df)
  = data (build_new_norm (mkDF (columns example_ups_df) (take 1 (data example_ups_df))))
    ++ data (build_new_norm
               (mkDF (columns example_ups_df) (drop 1 (data example_ups_df)))).
Proof.
  apply (build_new_norm_app (columns example_ups_df)
           (take 1 (data example_ups_df)) (drop 1 (data example_ups_df))).
  apply (bool_decide_unpack _). vm_compute. exact I.
Defined.

(** ** Completeness of the token scan *)

Section ScanComplete.

Implicit Types (s t a b u v : string) (c : ascii).

Lemma digit_at (n : nat) t b :
  String.length t = 8 -> Str.all Char.is_digit t = true -> n < 8 ->
  Str.head_is Char.is_digit (Str.drop n (t +:+ b)) = true.
Proof.
  intros Hlen Hd Hn.
  destruct t as [|c1 [|c2 [|c3 [|c4 [|c5 [|c6 [|c7 [|c8 [|c9 t]]]]]]]]];
    simpl in Hlen; try lia.
  cbn [Str.all] in Hd.
  repeat (apply andb_prop in Hd as [? Hd]).
  do 8 (destruct n as [|n]; [done|]). lia.
Qed.

(** During the scan, [skip] characters of a match are still to pass: they
    are digits and no digit follows them.  An isolated run of eight digits
    that starts later cannot begin inside them. *)
Lemma any8_complete t b :
  String.length t = 8 -> Str.all Char.is_digit t = true ->
  Str.head_is Char.is_digit b = false ->
  forall a (prev : bool) (skip : nat),
    (a = "" -> prev = false) ->
    Str.last_is Char.is_digit a = false ->
    skip <= 7 ->
    (skip <> 0 ->
     Str.all_prefix Char.is_digit skip (a +:+ t +:+ b) = true
     /\ Str.head_is Char.is_digit (Str.drop skip (a +:+ t +:+ b)) = false) ->
    t ∈ any8_scan prev skip (a +:+ t +:+ b).
Proof.
  intros Hlen Hd Hb. induction a as [|c a IH]; intros prev skip Hprev Hlast Hskip Hinv.
  - rewrite app_nil_l in *.
    assert (skip = 0) as ->.
    { destruct skip as [|k]; [done|exfalso].
      destruct Hinv as [_ Hnext]; [done|].
      rewrite (digit_at (S k) t b Hlen Hd) in Hnext by lia. done. }
    rewrite (Hprev eq_refl).
    destruct t as [|c1 t1] eqn:Et; [done|]. rewrite <- Et in *.
    assert (Hs : t +:+ b = String c1 (t1 +:+ b)) by by rewrite Et.
    rewrite Hs. cbn [any8_scan]. rewrite <- Hs.
    assert (Hm : any8_match_here false (t +:+ b) = true).
    { unfold any8_match_here. rewrite <- Hlen at 1.
      rewrite (all_prefix_app _ _ _ Hd). rewrite <- Hlen, drop_app, Hb. done. }
    rewrite Hm. rewrite <- Hlen, take_app. left.
  - rewrite app_cons. cbn [any8_scan].
    assert (Ha : a = "" -> Char.is_digit c = false).
    { intros ->. exact Hlast. }
    assert (Hl : Str.last_is Char.is_digit a = false).
    { destruct a as [|c' a']; [done|exact Hlast]. }
    destruct skip as [|k].
    + destruct (any8_match_here prev (String c (a +:+ t +:+ b))) eqn:Hm.
      * right. apply IH; [done|done|lia|]. intros _.
        unfold any8_match_here in Hm.
        apply andb_prop in Hm as [[_ Hall]%andb_prop Hnext].
        cbn [Str.all_prefix] in Hall. apply andb_prop in Hall as [_ Hall].
        split; [done|]. apply negb_true_iff in Hnext. exact Hnext.
      * apply IH; [done|done|lia|done].
    + apply IH; [done|done|lia|]. intros Hk.
      destruct Hinv as [Hall Hnext]; [done|].
      rewrite app_cons in Hall, Hnext. cbn [Str.all_prefix Str.drop] in Hall, Hnext.
      apply andb_prop in Hall as [_ Hall]. done.
Qed.

(** Cutting a final ".0" off a text does not change what the scan finds. *)
Lemma match_dot0 (n : nat) v :
  Str.all_prefix Char.is_digit n (v +:+ ".0")
  && negb (Str.head_is Char.is_digit (Str.drop n (v +:+ ".0")))
  = Str.all_prefix Char.is_digit n v
    && negb (Str.head_is Char.is_digit (Str.drop n v)).
Proof.
  revert v. induction n as [|n IH]; intros [|c v]; try reflexivity.
  rewrite app_cons. cbn [Str.all_prefix Str.drop]. rewrite <- !andb_assoc.
  by rewrite IH.
Qed.

Lemma all_prefix_take_app (p : ascii -> bool) (n : nat) v u :
  Str.all_prefix p n v = true -> Str.take n (v +:+ u) = Str.take n v.
Proof.
  revert v. induction n as [|n IH]; intros [|c v]; simpl; try done.
  intros [_ H]%andb_prop. by rewrite IH.
Qed.

Lemma any8_scan_dot0 u : forall (prev : bool) (skip : nat),
  any8_scan prev skip (u +:+ ".0") = any8_scan prev skip u.
Proof.
  induction u as [|c u IH]; intros prev skip.
  - destruct prev, skip as [|[|skip]]; reflexivity.
  - rewrite app_cons. cbn [any8_scan]. destruct skip as [|k]; [|apply IH].
    assert (Hm : any8_match_here prev (String c (u +:+ ".0"))
                 = any8_match_here prev (String c u)).
    { unfold any8_match_here. rewrite <- !andb_assoc. f_equal.
      apply (match_dot0 8 (String c u)). }
    rewrite Hm. destruct (any8_match_here prev (String c u)) eqn:E; [|apply IH].
    rewrite IH. f_equal.
    unfold any8_match_here in E.
    apply andb_prop in E as [[_ Hall]%andb_prop _].
    apply (all_prefix_take_app _ 8 (String c u) ".0" Hall).
Qed.

Lemma endswith_split (p s : string) :
  Str.endswith p s = true ->
  s = Str.take (String.length s - String.length p) s +:+ p.
Proof.
  unfold Str.endswith. intros [_ Heq]%andb_prop. apply String.eqb_eq in Heq.
  rewrite <- Heq at 2. by rewrite take_drop.
Qed.

Lemma findall_search_text (value : cell) :
  RMA_ANY8_IN_TEXT_RX_findall (rma_search_text value)
  = RMA_ANY8_IN_TEXT_RX_findall (Str.strip (py_str value)).
Proof.
  unfold rma_search_text.
  destruct (Str.endswith ".0" (Str.strip (py_str value))) eqn:E; [|done].
  apply endswith_split in E. cbn [String.length] in E.
  set (u := Str.take _ _) in *. rewrite E.
  unfold RMA_ANY8_IN_TEXT_RX_findall. by rewrite any8_scan_dot0.
Qed.

End ScanComplete.

(** X23.  [RMA_ANY8_IN_TEXT_RX.findall] misses no token: a string is among
    the tokens returned for a text exactly when it consists of eight digits
    and the text splits around it with no digit immediately before it and
    none immediately after it. *)
Theorem findall_complete (text t : string) :
  isolated_token text t <-> t ∈ RMA_ANY8_IN_TEXT_RX_findall text.
Proof.
  split.
  - intros (Hlen & Hd & a & b & -> & Ha & Hb).
    unfold RMA_ANY8_IN_TEXT_RX_findall.
    apply (any8_complete t b Hlen Hd Hb a false 0); [done|done|lia|done].
  - intros Hin. pose proof (any8_scan_isolated text "" 0) as Hall.
    rewrite List.Forall_forall in Hall. by apply Hall, list_elem_of_In.
Qed.

(** X24.  Cutting a final ".0" off the trimmed text of a value never changes
    the 8-digit tokens found in it: for a value that is neither [None] nor
    NaN, [_clean_rma_string] returns the best token (a leading '6' before a
    leading '7' before the rest, the leftmost first) of the trimmed text as
    it stands. *)
Theorem clean_rma_string_dot0 (value : cell) :
  is_none_or_float_nan value = false ->
  RMA_ANY8_IN_TEXT_RX_findall (rma_search_text value)
  = RMA_ANY8_IN_TEXT_RX_findall (Str.strip (py_str value))
  /\ _clean_rma_string value
     = default "" (head (rank_tokens
                           (dedupe (RMA_ANY8_IN_TEXT_RX_findall
                                      (Str.strip (py_str value)))))).
Proof.
  intros Hv. split; [apply findall_search_text|].
  by rewrite (clean_rma_string_eq _ Hv), findall_search_text.
Qed.

Lemma clean_rma_string_dot0_witness :
  RMA_ANY8_IN_TEXT_RX_findall (rma_search_text (CStr " 67024814.0 "))
  = RMA_ANY8_IN_TEXT_RX_findall "67024814.0"
  /\ _clean_rma_string (CStr " 67024814.0 ") = "67024814".
Proof.
  destruct (clean_rma_string_dot0 (CStr " 67024814.0 ") eq_refl) as [Htok Hbest].
  split; [exact Htok|]. rewrite Hbest. vm_compute. reflexivity.
Defined.

(** ** No blank attribute in the normalised view *)

Section Attributes.

Lemma to_str_shape (value : cell) :
  _to_str value false <> "" /\ Str.strip (_to_str value false) = _to_str value false.
Proof.
  unfold _to_str. cbn [andb].
  destruct (norm_na_cases value) as [->|(-> & Ht & _)]; [done|].
  split; [by apply truthy_nonempty|apply strip_strip].
Qed.

Lemma canonical_status_shape (value : cell) :
  _canonical_status value <> ""
  /\ Str.strip (_canonical_status value) = _canonical_status value.
Proof.
  destruct (canonical_status_cases value) as [Hl|(-> & Ht & _)].
  - repeat (apply elem_of_cons in Hl as [->|Hl]; [done|]).
    by apply elem_of_nil in Hl.
  - split; [by apply truthy_nonempty|apply strip_strip].
Qed.

End Attributes.

(** X25.  In the table [build_new_norm] returns for a raw table with
    distinct harmonised labels, no attribute is blank: in every row, every
    column other than "Original RMA" and "RMA Number" holds a non-empty
    string without surrounding white space (a missing value is shown as
    "N/A"). *)
Theorem build_new_norm_no_blank (new_df : DataFrame) :
  NoDup (columns (map_new_columns new_df)) ->
  Forall (fun row : Series =>
            forall c : string,
              c ∈ NORM_COLS -> c <> "Original RMA" -> c <> "RMA Number" ->
              exists s : string,
                get row c CNone = CStr s /\ s <> "" /\ Str.strip s = s)
         (iterrows (build_new_norm new_df)).
Proof.
  intros _. rewrite build_new_norm_eq. unfold iterrows. cbn [columns data].
  apply List.Forall_forall. intros row0 Hrow.
  apply List.in_map_iff in Hrow as (row & <- & Hrow). apply list_elem_of_In in Hrow.
  apply elem_of_flat_map in Hrow as (r & _ & Hrow).
  apply rows_of_record_elem in Hrow as (tn & orig & rma & Htn & -> & _).
  destruct (record_tn_trimmed r tn Htn) as [Hne Hstrip].
  intros c Hc Ho Hr.
  repeat (apply elem_of_cons in Hc as [->|Hc];
          [first [done
                 | eexists; split; [reflexivity|]; apply to_str_shape
                 | eexists; split; [reflexivity|]; apply canonical_status_shape
                 | eexists; split; [reflexivity|];
                   split; [by destruct tn|by rewrite strip_upper, Hstrip]]|]).
  by apply elem_of_nil in Hc.
Qed.

Lemma build_new_norm_no_blank_witness :
  Forall (fun row : Series =>
            forall c : string,
              c ∈ NORM_COLS -> c <> "Original RMA" -> c <> "RMA Number" ->
              exists s : string,
                get row c CNone = CStr s /\ s <> "" /\ Str.strip s = s)
         (iterrows (build_new_norm example_ups_df)).
Proof.
  apply (build_new_norm_no_blank example_ups_df).
  apply (bool_decide_unpack _). vm_compute. exact I.
Defined.

(** ** Where the identifiers of a run come from *)

Section Provenance.

(** An identifier of the normalised view that has eight digits is a token
    of some field of the record the row was made from. *)
Lemma norm_identifier_source (new_df : DataFrame) (v : cell) :
  In v (getitem "RMA Number" (build_new_norm new_df)) ->
  RMA_STRICT_RX_fullmatch (py_str v) = true ->
  exists (rma : string) (r : Series) (col s : string),
    v = CStr rma
    /\ r ∈ iterrows (map_new_columns new_df)
    /\ col ∈ index r
    /\ field_text (get r col CNone) = Some s
    /\ isolated_token s rma.
Proof.
  rewrite build_new_norm_eq. unfold getitem, iterrows at 1. cbn [columns data].
  rewrite List.map_map. intros Hin Hs.
  apply List.in_map_iff in Hin as (row & <- & Hrow). apply list_elem_of_In in Hrow.
  apply elem_of_flat_map in Hrow as (r & Hr & Hrow).
  apply rows_of_record_elem in Hrow as (tn & orig & rma & _ & -> & Hrma).
  destruct (norm_row_cells r orig rma tn) as (_ & Hget & _).
  rewrite Hget in Hs |- *. cbn [py_str] in Hs.
  destruct Hrma as [->|[Htok _]]; [done|].
  apply elem_of_extract_all, elem_of_token_pool in Htok as (col & s & Hcol & Hf & Ht).
  exists rma, r, col, s.
  split; [done|]. split; [done|]. split; [done|]. split; [done|].
  pose proof (any8_scan_isolated s "" 0) as Hall.
  rewrite List.Forall_forall in Hall. by apply Hall, list_elem_of_In.
Qed.

End Provenance.

(** X26.  An analysis run invents no identifier: for a raw table with
    distinct harmonised labels, the identifier of every row of the table the
    run returns is a string of eight digits that stands, with no digit
    immediately before it and none immediately after it, in the trimmed text
    of some field of some record of the harmonised raw table. *)
Theorem on_run_analysis_provenance (st : store) (ups_df : ref) (ups : DataFrame) :
  st !! ups_df = Some ups ->
  NoDup (columns (map_new_columns ups)) ->
  exists (out : ref) (st' : store) (final : DataFrame),
    on_run_analysis ups_df st = Ok (out, st')
    /\ st' !! out = Some final
    /\ Forall (fun row' =>
                 exists (rma : string) (r : Series) (col s : string),
                   get (combine FINAL_COLS row') "RMA Number" CNone = CStr rma
                   /\ r ∈ iterrows (map_new_columns ups)
                   /\ col ∈ index r
                   /\ field_text (get r col CNone) = Some s
                   /\ isolated_token s rma)
              (data final).
Proof.
  intros Hups _.
  destruct (run_rma_column st ups_df ups Hups) as (out & st' & final & Hrun & Hout & Hids).
  exists out, st', final. split; [exact Hrun|]. split; [exact Hout|].
  apply List.Forall_forall. intros row' Hrow'.
  apply (List.in_map (fun row' => get (combine FINAL_COLS row') "RMA Number" CNone))
    in Hrow'.
  rewrite Hids in Hrow'. apply List.filter_In in Hrow' as [Hin Hp].
  apply andb_prop in Hp as [Hp _].
  exact (norm_identifier_source ups _ Hin Hp).
Qed.

Lemma on_run_analysis_provenance_witness :
  exists (out : ref) (st' : store) (final : DataFrame),
    on_run_analysis 0 [example_ups_df] = Ok (out, st')
    /\ st' !! out = Some final
    /\ Forall (fun row' =>
                 exists (rma : string) (r : Series) (col s : string),
                   get (combine FINAL_COLS row') "RMA Number" CNone = CStr rma
                   /\ r ∈ iterrows (map_new_columns example_ups_df)
                   /\ col ∈ index r
                   /\ field_text (get r col CNone) = Some s
                   /\ isolated_token s rma)
              (data final).
Proof.
  apply (on_run_analysis_provenance [example_ups_df] 0 example_ups_df).
  - reflexivity.
  - apply (bool_decide_unpack _). vm_compute. exact I.
Defined.

(** ** The row-count invariant *)

Section RowCount.

Implicit Types (s t a b u w : string) (c : ascii) (r : Series) (v : cell).

(** *** White space around a text hides no token *)












(** *** The tracking numbers of a text *)






(** *** The test of the loop, in the words of the specification *)







End RowCount.



